(** * Ledger consistency of the meowny service layer

    A shallow embedding of the service classes of the repository
    ([TransactionService], [WalletService], [LendBorrowService],
    [BudgetService], [BillReminderService], [SettingsService] and
    [CategoryService]) over an explicit model of the SQLite tables they act
    on, followed by the properties of the ledger engine and of the services
    around it.

    Conventions of the embedding:
    - a table is the list of its rows in rowid (insertion) order;
    - a [real] column holds a whole amount, written as an integer ([Z]), in
      the services that copy, compare or combine amounts in one operation;
      the module [Real] further down has the wallet and transaction tables
      in double precision, with every sum and difference rounded as SQLite
      rounds it, for the balance rules of [TransactionService];
    - a [timestamp] column and a JavaScript [Date] are the number of
      milliseconds since the epoch ([Z]); rows only ever hold whole seconds,
      on which the driver's conversion to and from seconds is the identity,
      and a [where] clause compares a column with a [Date] in seconds;
    - a nullable column is an [option];
    - foreign keys are not enforced (the default of SQLite; the code sets
      no pragma);
    - [crypto.randomUUID()] and [new Date()] are inputs of the operation
      that calls them (arguments [id] and [now]);
    - an [async] method is a computation in the monad [M] below: it takes
      the database, and returns a value or the exception thrown together
      with the database as it is at that point (the services open no SQL
      transaction, so nothing is rolled back when a method throws). *)

From stdpp Require Import base option list strings sorting pretty.
From Stdlib Require Import ZArith QArith Lia Floats.

Local Open Scope string_scope.
Local Open Scope Z_scope.

(** ** JavaScript values *)

Definition Date := Z.

(** What the driver binds for a [Date] compared with a [timestamp]
    column: the whole seconds, [Math.floor(value.getTime() / 1000)]. *)
Definition mapToDriverValue (value : Date) : Z := value `div` 1000.

(** [s ? .. : ..] on a string or null: null and the empty string are falsy. *)
Definition truthy_string (o : option string) : bool :=
  match o with
  | Some s => bool_decide (s ≠ "")
  | None => false
  end.

(** [x || d] on a number or null/undefined: null and zero are falsy. *)
Definition or_number (o : option Z) (d : Z) : Z :=
  match o with
  | Some x => if bool_decide (x = 0) then d else x
  | None => d
  end.

(** [x || null] on an optional string argument. *)
Definition or_null (o : option string) : option string :=
  if truthy_string o then o else None.

(** Exceptions a service method can raise. *)
Inductive exn : Type :=
  | Error (message : string)          (* [throw new Error(message)] *)
  | TypeError (message : string)      (* reading a property of undefined *)
  | ConstraintError (message : string) (* SQLite refuses a statement *).

Inductive result (A : Type) : Type :=
  | Ok (a : A)
  | Throw (e : exn).
Arguments Ok {A} a.
Arguments Throw {A} e.

(** ** Rows of the schema (db/schema.ts) *)

Module Wallet.
Record t : Type := mk {
    id : string;
    name : string;
    type : string;
    balance : Z;
    currency : string;
    creditLimit : option Z;
    billingDate : option Z;
    dueDate : option Z;
    cashbackRate : option Z;
    icon : option string;
    color : option string;
    notes : option string;
    isActive : bool;
    createdAt : Date;
    updatedAt : Date
  }.
End Wallet.

Module Transaction.
Record t : Type := mk {
    id : string;
    walletId : string;
    type : string;
    amount : Z;
    categoryId : option string;
    description : option string;
    notes : option string;
    toWalletId : option string;
    transferFee : option Z;
    recurringId : option string;
    transactionDate : Date;
    tags : option string;
    attachments : option string;
    createdAt : Date;
    updatedAt : Date
  }.
End Transaction.

(** [Omit<NewTransaction, "id" | "createdAt" | "updatedAt">]. An optional
    nullable column left undefined is stored as NULL, except [transferFee],
    whose column default is 0: its outer [None] is "undefined". *)
Module NewTransaction.
Record t : Type := mk {
    walletId : string;
    type : string;
    amount : Z;
    categoryId : option string;
    description : option string;
    notes : option string;
    toWalletId : option string;
    transferFee : option (option Z);
    recurringId : option string;
    transactionDate : Date;
    tags : option string;
    attachments : option string
  }.
End NewTransaction.

(** [Partial<Omit<Transaction, "id" | "createdAt">>]: [None] is a key that
    is not set; for a nullable column [Some None] sets NULL. *)
Module TransactionPatch.
Record t : Type := mk {
    walletId : option string;
    type : option string;
    amount : option Z;
    categoryId : option (option string);
    description : option (option string);
    notes : option (option string);
    toWalletId : option (option string);
    transferFee : option (option Z);
    recurringId : option (option string);
    transactionDate : option Date;
    tags : option (option string);
    attachments : option (option string);
    updatedAt : option Date
  }.
Definition empty : t :=
    mk None None None None None None None None None None None None None.
End TransactionPatch.

Module LendBorrow.
Record t : Type := mk {
    id : string;
    type : string;
    personName : string;
    amount : Z;
    remainingAmount : Z;
    description : option string;
    notes : option string;
    dueDate : option Date;
    walletId : option string;
    status : string;
    createdAt : Date;
    updatedAt : Date
  }.
End LendBorrow.

(** [Omit<NewLendBorrow, "id" | "createdAt" | "updatedAt">]; a
    [remainingAmount] or [status] of [None] is one the caller left out. *)
Module NewLendBorrow.
Record t : Type := mk {
    type : string;
    personName : string;
    amount : Z;
    remainingAmount : option Z;
    description : option string;
    notes : option string;
    dueDate : option Date;
    walletId : option string;
    status : option string
  }.
End NewLendBorrow.

Module LendBorrowPatch.
Record t : Type := mk {
    type : option string;
    personName : option string;
    amount : option Z;
    remainingAmount : option Z;
    description : option (option string);
    notes : option (option string);
    dueDate : option (option Date);
    walletId : option (option string);
    status : option string;
    updatedAt : option Date
  }.
Definition empty : t := mk None None None None None None None None None None.
End LendBorrowPatch.

Module Payment.
Record t : Type := mk {
    id : string;
    lendBorrowId : string;
    amount : Z;
    paymentDate : Date;
    notes : option string;
    transactionId : option string;
    createdAt : Date
  }.
End Payment.

(** [Omit<NewLendBorrowPayment, "id" | "lendBorrowId" | "createdAt">]. *)
Module NewPayment.
Record t : Type := mk {
    amount : Z;
    paymentDate : Date;
    notes : option string;
    transactionId : option string
  }.
End NewPayment.

Module Budget.
Record t : Type := mk {
    id : string;
    categoryId : string;
    amount : Z;
    period : string;
    month : option Z;
    year : option Z;
    createdAt : Date;
    updatedAt : Date
  }.
End Budget.

Module NewBudget.
Record t : Type := mk {
    categoryId : string;
    amount : Z;
    period : string;
    month : option Z;
    year : option Z
  }.
End NewBudget.

Module BudgetPatch.
Record t : Type := mk {
    categoryId : option string;
    amount : option Z;
    period : option string;
    month : option (option Z);
    year : option (option Z);
    updatedAt : option Date
  }.
Definition empty : t := mk None None None None None None.
End BudgetPatch.

Module BillReminder.
Record t : Type := mk {
    id : string;
    title : string;
    amount : option Z;
    categoryId : option string;
    walletId : option string;
    dueDate : Date;
    reminderDate : option Date;
    isRecurring : bool;
    frequency : option string;
    isPaid : bool;
    transactionId : option string;
    notes : option string;
    createdAt : Date;
    updatedAt : Date
  }.
End BillReminder.

(** [Omit<NewBillReminder, "id" | "createdAt" | "updatedAt">]; the two
    flags default to false when left out. *)
Module NewBillReminder.
Record t : Type := mk {
    title : string;
    amount : option Z;
    categoryId : option string;
    walletId : option string;
    dueDate : Date;
    reminderDate : option Date;
    isRecurring : option bool;
    frequency : option string;
    isPaid : option bool;
    transactionId : option string;
    notes : option string
  }.
End NewBillReminder.

Module BillReminderPatch.
Record t : Type := mk {
    title : option string;
    amount : option (option Z);
    categoryId : option (option string);
    walletId : option (option string);
    dueDate : option Date;
    reminderDate : option (option Date);
    isRecurring : option bool;
    frequency : option (option string);
    isPaid : option bool;
    transactionId : option (option string);
    notes : option (option string);
    updatedAt : option Date
  }.
Definition empty : t :=
    mk None None None None None None None None None None None None.
End BillReminderPatch.

(** ** The database and the monad of service methods *)

Record Db : Type := mkDb {
  wallets : list Wallet.t;
  transactions : list Transaction.t;
  lendBorrow : list LendBorrow.t;
  lendBorrowPayments : list Payment.t;
  budgets : list Budget.t;
  billReminders : list BillReminder.t
}.

Definition M (A : Type) : Type := Db → result A * Db.

#[export] Instance M_ret : MRet M := λ A a db, (Ok a, db).
#[export] Instance M_bind : MBind M := λ A B f m db,
  match m db with
  | (Ok a, db') => f a db'
  | (Throw e, db') => (Throw e, db')
  end.

Definition throw {A : Type} (e : exn) : M A := λ db, (Throw e, db).
Definition gets {A : Type} (f : Db → A) : M A := λ db, (Ok (f db), db).
Definition modify (f : Db → Db) : M unit := λ db, (Ok tt, f db).

(** ** Statements on one table *)

Section Table.
Context {Row : Type} (key : Row → string).

  (** [select().from(t).where(eq(t.id, i)).limit(1)], destructured:
      the first row with that id, or undefined. *)
Definition selectById (i : string) (tbl : list Row) : option Row :=
    head (filter (λ r, key r = i) tbl).

  (** [insert(t).values(r).returning()]: the primary key refuses a
      second row with the same id. *)
Definition insertRow (r : Row) (tbl : list Row) : result (list Row) :=
    match selectById (key r) tbl with
    | Some _ => Throw (ConstraintError "UNIQUE constraint failed")
    | None => Ok (tbl ++ [r])%list
    end.

  (** [update(t).set(..).where(eq(t.id, i))]. *)
Definition updateById (i : string) (f : Row → Row) (tbl : list Row) : list Row :=
    (λ r, if decide (key r = i) then f r else r) <$> tbl.

  (** [delete(t).where(eq(t.id, i))]. *)
Definition deleteById (i : string) (tbl : list Row) : list Row :=
    filter (λ r, key r ≠ i) tbl.
End Table.

(** ** Aggregates of a [select] *)

(** [COALESCE(SUM(x), 0)] over the values of the selected rows. *)
Definition sumOf (values : list Z) : Z := foldr Z.add 0 values.

(** The same over a nullable expression: SUM skips the NULL values. *)
Definition sumOfNullable (values : list (option Z)) : Z := sumOf (omap id values).

(** [COUNT( * )]. *)
Definition countOf {Row : Type} (rows : list Row) : Z := Z.of_nat (length rows).

Definition set_wallets (f : list Wallet.t → list Wallet.t) (db : Db) : Db :=
  mkDb (f (wallets db)) (transactions db) (lendBorrow db)
       (lendBorrowPayments db) (budgets db) (billReminders db).
Definition set_transactions (f : list Transaction.t → list Transaction.t) (db : Db) : Db :=
  mkDb (wallets db) (f (transactions db)) (lendBorrow db)
       (lendBorrowPayments db) (budgets db) (billReminders db).
Definition set_lendBorrow (f : list LendBorrow.t → list LendBorrow.t) (db : Db) : Db :=
  mkDb (wallets db) (transactions db) (f (lendBorrow db))
       (lendBorrowPayments db) (budgets db) (billReminders db).
Definition set_lendBorrowPayments (f : list Payment.t → list Payment.t) (db : Db) : Db :=
  mkDb (wallets db) (transactions db) (lendBorrow db)
       (f (lendBorrowPayments db)) (budgets db) (billReminders db).
Definition set_budgets (f : list Budget.t → list Budget.t) (db : Db) : Db :=
  mkDb (wallets db) (transactions db) (lendBorrow db)
       (lendBorrowPayments db) (f (budgets db)) (billReminders db).
Definition set_billReminders (f : list BillReminder.t → list BillReminder.t) (db : Db) : Db :=
  mkDb (wallets db) (transactions db) (lendBorrow db)
       (lendBorrowPayments db) (budgets db) (f (billReminders db)).

(** ** services/transaction.service.ts *)

Module TransactionService.

(** The row written by [set({ balance: sql`balance ..`, updatedAt: new Date() })]. *)
Definition setBalance (f : Z → Z) (now : Date) (w : Wallet.t) : Wallet.t :=
  Wallet.mk (Wallet.id w) (Wallet.name w) (Wallet.type w) (f (Wallet.balance w))
    (Wallet.currency w) (Wallet.creditLimit w) (Wallet.billingDate w)
    (Wallet.dueDate w) (Wallet.cashbackRate w) (Wallet.icon w) (Wallet.color w)
    (Wallet.notes w) (Wallet.isActive w) (Wallet.createdAt w) now.

Definition updateBalance (walletId : string) (f : Z → Z) (now : Date) : M unit :=
  modify (set_wallets (updateById Wallet.id walletId (setBalance f now))).

(** In the transfer branch [toWalletId] is truthy, hence a non-empty
    string: the [default] below is never taken. *)
Definition updateWalletBalance (now : Date) (transaction : Transaction.t) : M unit :=
  if bool_decide (Transaction.type transaction = "income") then
    updateBalance (Transaction.walletId transaction)
      (λ balance, balance + Transaction.amount transaction) now
  else if bool_decide (Transaction.type transaction = "expense") then
    updateBalance (Transaction.walletId transaction)
      (λ balance, balance - Transaction.amount transaction) now
  else if bool_decide (Transaction.type transaction = "transfer")
          && truthy_string (Transaction.toWalletId transaction) then
    updateBalance (Transaction.walletId transaction)
      (λ balance, balance - Transaction.amount transaction
                  - or_number (Transaction.transferFee transaction) 0) now ;;
    updateBalance (default "" (Transaction.toWalletId transaction))
      (λ balance, balance + Transaction.amount transaction) now
  else mret tt.

Definition reverseWalletBalance (now : Date) (transaction : Transaction.t) : M unit :=
  if bool_decide (Transaction.type transaction = "income") then
    updateBalance (Transaction.walletId transaction)
      (λ balance, balance - Transaction.amount transaction) now
  else if bool_decide (Transaction.type transaction = "expense") then
    updateBalance (Transaction.walletId transaction)
      (λ balance, balance + Transaction.amount transaction) now
  else if bool_decide (Transaction.type transaction = "transfer")
          && truthy_string (Transaction.toWalletId transaction) then
    updateBalance (Transaction.walletId transaction)
      (λ balance, balance + Transaction.amount transaction
                  + or_number (Transaction.transferFee transaction) 0) now ;;
    updateBalance (default "" (Transaction.toWalletId transaction))
      (λ balance, balance - Transaction.amount transaction) now
  else mret tt.

(** The row of [values({ ...transaction, id, createdAt: now, updatedAt: now })]. *)
Definition newRow (id : string) (now : Date) (d : NewTransaction.t) : Transaction.t :=
  Transaction.mk id (NewTransaction.walletId d) (NewTransaction.type d)
    (NewTransaction.amount d) (NewTransaction.categoryId d)
    (NewTransaction.description d) (NewTransaction.notes d)
    (NewTransaction.toWalletId d) (default (Some 0) (NewTransaction.transferFee d))
    (NewTransaction.recurringId d) (NewTransaction.transactionDate d)
    (NewTransaction.tags d) (NewTransaction.attachments d) now now.

Definition insertReturning (row : Transaction.t) : M Transaction.t := λ db,
  match insertRow Transaction.id row (transactions db) with
  | Ok tbl => (Ok row, set_transactions (λ _, tbl) db)
  | Throw e => (Throw e, db)
  end.

Definition create (id : string) (now : Date) (transaction : NewTransaction.t)
  : M Transaction.t :=
  newTransaction ← insertReturning (newRow id now transaction) ;
  updateWalletBalance now newTransaction ;;
  mret newTransaction.

Definition getById (id : string) : M (option Transaction.t) :=
  gets (λ db, selectById Transaction.id id (transactions db)).

(** The row after [set({ ...data, updatedAt: new Date() })]. *)
Definition patchRow (data : TransactionPatch.t) (now : Date) (t : Transaction.t)
  : Transaction.t :=
  Transaction.mk (Transaction.id t)
    (default (Transaction.walletId t) (TransactionPatch.walletId data))
    (default (Transaction.type t) (TransactionPatch.type data))
    (default (Transaction.amount t) (TransactionPatch.amount data))
    (default (Transaction.categoryId t) (TransactionPatch.categoryId data))
    (default (Transaction.description t) (TransactionPatch.description data))
    (default (Transaction.notes t) (TransactionPatch.notes data))
    (default (Transaction.toWalletId t) (TransactionPatch.toWalletId data))
    (default (Transaction.transferFee t) (TransactionPatch.transferFee data))
    (default (Transaction.recurringId t) (TransactionPatch.recurringId data))
    (default (Transaction.transactionDate t) (TransactionPatch.transactionDate data))
    (default (Transaction.tags t) (TransactionPatch.tags data))
    (default (Transaction.attachments t) (TransactionPatch.attachments data))
    (Transaction.createdAt t) now.

(** [update(transactions).set(..).where(eq(transactions.id, id)).returning()],
    destructured: the first updated row, undefined when no row matched. *)
Definition updateReturning (id : string) (data : TransactionPatch.t) (now : Date)
  : M (option Transaction.t) :=
  modify (set_transactions (updateById Transaction.id id (patchRow data now))) ;;
  gets (λ db, selectById Transaction.id id (transactions db)).

(** [updateWalletBalance(updated)] reads [transaction.type] first: on an
    undefined [updated] that read is the TypeError thrown below. *)
Definition update (id : string) (data : TransactionPatch.t) (now : Date)
  : M Transaction.t :=
  oldTransaction ← getById id ;
  match oldTransaction with
  | Some old => reverseWalletBalance now old
  | None => mret tt
  end ;;
  updated ← updateReturning id data now ;
  match updated with
  | Some row => updateWalletBalance now row ;; mret row
  | None => throw (TypeError "Cannot read properties of undefined (reading 'type')")
  end.

Definition delete (id : string) (now : Date) : M unit :=
  transaction ← getById id ;
  match transaction with
  | Some row => reverseWalletBalance now row
  | None => mret tt
  end ;;
  modify (set_transactions (deleteById Transaction.id id)).

(** The result of [getSummary]. *)
Record Summary : Type := mkSummary {
  totalIncome : Z;
  totalExpense : Z;
  netAmount : Z;
  transactionCount : Z
}.

(** The [whereClause] of [getSummary]: a [Date] argument is truthy, an
    omitted one is not; [between], [gte] and [lte] compare in the seconds
    of the column. *)
Definition inDateRange (startDate endDate : option Date) (t : Transaction.t) : Prop :=
  let transactionDate := mapToDriverValue (Transaction.transactionDate t) in
  match startDate, endDate with
  | Some startDate, Some endDate =>
    mapToDriverValue startDate ≤ transactionDate ≤ mapToDriverValue endDate
  | Some startDate, None => mapToDriverValue startDate ≤ transactionDate
  | None, Some endDate => transactionDate ≤ mapToDriverValue endDate
  | None, None => True
  end.

#[global] Instance inDateRange_dec startDate endDate t :
  Decision (inDateRange startDate endDate t).
Proof. destruct startDate, endDate; simpl; apply _. Defined.

Definition getSummary (startDate endDate : option Date) : M Summary :=
  gets (λ db,
    let rows := filter (inDateRange startDate endDate) (transactions db) in
    let totalIncome :=
      sumOf ((λ t, if bool_decide (Transaction.type t = "income")
                   then Transaction.amount t else 0) <$> rows) in
    let totalExpense :=
      sumOf ((λ t, if bool_decide (Transaction.type t = "expense")
                   then Transaction.amount t else 0) <$> rows) in
    mkSummary totalIncome totalExpense (totalIncome - totalExpense) (countOf rows)).

End TransactionService.

(** ** services/wallet.service.ts *)

(** [Omit<NewWallet, "id" | "createdAt" | "updatedAt">]; a balance, currency
    or active flag left out takes the column default. *)
Module NewWallet.
Record t : Type := mk {
  name : string;
  type : string;
  balance : option Z;
  currency : option string;
  creditLimit : option Z;
  billingDate : option Z;
  dueDate : option Z;
  cashbackRate : option Z;
  icon : option string;
  color : option string;
  notes : option string;
  isActive : option bool
}.
End NewWallet.

Module WalletPatch.
Record t : Type := mk {
  name : option string;
  type : option string;
  balance : option Z;
  currency : option string;
  creditLimit : option (option Z);
  billingDate : option (option Z);
  dueDate : option (option Z);
  cashbackRate : option (option Z);
  icon : option (option string);
  color : option (option string);
  notes : option (option string);
  isActive : option bool;
  updatedAt : option Date
}.
Definition empty : t :=
  mk None None None None None None None None None None None None None.
End WalletPatch.

Module WalletService.

Definition newRow (id : string) (now : Date) (wallet : NewWallet.t) : Wallet.t :=
  Wallet.mk id (NewWallet.name wallet) (NewWallet.type wallet)
    (default 0 (NewWallet.balance wallet))
    (default "INR" (NewWallet.currency wallet))
    (NewWallet.creditLimit wallet) (NewWallet.billingDate wallet)
    (NewWallet.dueDate wallet) (NewWallet.cashbackRate wallet)
    (NewWallet.icon wallet) (NewWallet.color wallet) (NewWallet.notes wallet)
    (default true (NewWallet.isActive wallet)) now now.

Definition create (id : string) (now : Date) (wallet : NewWallet.t) : M Wallet.t :=
  λ db,
  match insertRow Wallet.id (newRow id now wallet) (wallets db) with
  | Ok tbl => (Ok (newRow id now wallet), set_wallets (λ _, tbl) db)
  | Throw e => (Throw e, db)
  end.

(** The order of [orderBy(desc(wallets.createdAt))]. *)
Definition newestFirst (w w' : Wallet.t) : Prop :=
  Wallet.createdAt w' ≤ Wallet.createdAt w.

#[global] Instance newestFirst_dec w w' : Decision (newestFirst w w').
Proof. unfold newestFirst. apply _. Defined.

Definition getAll (includeInactive : bool) : M (list Wallet.t) :=
  if includeInactive then gets (λ db, merge_sort newestFirst (wallets db))
  else gets (λ db,
         merge_sort newestFirst (filter (λ w, Wallet.isActive w = true) (wallets db))).

Definition getById (id : string) : M (option Wallet.t) :=
  gets (λ db, selectById Wallet.id id (wallets db)).

Definition getByType (type : string) : M (list Wallet.t) :=
  gets (λ db,
    merge_sort newestFirst
      (filter (λ w, Wallet.type w = type ∧ Wallet.isActive w = true) (wallets db))).

(** The row after [set({ ...data, updatedAt: new Date() })]. *)
Definition patchRow (data : WalletPatch.t) (now : Date) (w : Wallet.t) : Wallet.t :=
  Wallet.mk (Wallet.id w)
    (default (Wallet.name w) (WalletPatch.name data))
    (default (Wallet.type w) (WalletPatch.type data))
    (default (Wallet.balance w) (WalletPatch.balance data))
    (default (Wallet.currency w) (WalletPatch.currency data))
    (default (Wallet.creditLimit w) (WalletPatch.creditLimit data))
    (default (Wallet.billingDate w) (WalletPatch.billingDate data))
    (default (Wallet.dueDate w) (WalletPatch.dueDate data))
    (default (Wallet.cashbackRate w) (WalletPatch.cashbackRate data))
    (default (Wallet.icon w) (WalletPatch.icon data))
    (default (Wallet.color w) (WalletPatch.color data))
    (default (Wallet.notes w) (WalletPatch.notes data))
    (default (Wallet.isActive w) (WalletPatch.isActive data))
    (Wallet.createdAt w) now.

(** The first updated row, undefined when no row has that id. *)
Definition update (id : string) (data : WalletPatch.t) (now : Date)
  : M (option Wallet.t) :=
  modify (set_wallets (updateById Wallet.id id (patchRow data now))) ;;
  gets (λ db, selectById Wallet.id id (wallets db)).

Definition updateBalance (id : string) (amount : Z) (now : Date) : M (option Wallet.t) :=
  modify (set_wallets
            (updateById Wallet.id id
               (TransactionService.setBalance (λ balance, balance + amount) now))) ;;
  gets (λ db, selectById Wallet.id id (wallets db)).

(** The four sums that [recalculateBalance] selects from the transactions
    [where(eq(transactions.walletId, walletId))], and the balance it makes
    of them. In [transferOut] a NULL fee makes the summand NULL. *)
Definition balanceFromTransactions (walletId : string) (rows : list Transaction.t) : Z :=
  let own := filter (λ t, Transaction.walletId t = walletId) rows in
  let income :=
    sumOf ((λ t, if bool_decide (Transaction.type t = "income")
                 then Transaction.amount t else 0) <$> own) in
  let expense :=
    sumOf ((λ t, if bool_decide (Transaction.type t = "expense")
                 then Transaction.amount t else 0) <$> own) in
  let transferOut :=
    sumOfNullable
      ((λ t, if bool_decide (Transaction.type t = "transfer")
             then (λ fee, Transaction.amount t + fee) <$> Transaction.transferFee t
             else Some 0) <$> own) in
  let transferIn :=
    sumOf ((λ t, if bool_decide (Transaction.toWalletId t = Some walletId)
                 then Transaction.amount t else 0) <$> own) in
  income - expense - transferOut + transferIn.

(** [{ balance }]. *)
Definition onlyBalance (balance : Z) : WalletPatch.t :=
  WalletPatch.mk None None (Some balance) None None None None None None None None
    None None.

Definition recalculateBalance (walletId : string) (now : Date) : M (option Wallet.t) :=
  balance ← gets (λ db, balanceFromTransactions walletId (transactions db)) ;
  update walletId (onlyBalance balance) now.

(** [{ isActive: false }]. *)
Definition inactive : WalletPatch.t :=
  WalletPatch.mk None None None None None None None None None None None
    (Some false) None.

Definition softDelete (id : string) (now : Date) : M (option Wallet.t) :=
  update id inactive now.

(** The result of [getCreditCardInfo]: the wallet and the derived fields. *)
Record CreditCardInfo : Type := mkCreditCardInfo {
  wallet : Wallet.t;
  currentUsage : Z;
  availableCredit : Z;
  utilizationRate : Q;
  isOverLimit : bool
}.

Definition getCreditCardInfo (id : string) : M CreditCardInfo :=
  wallet ← getById id ;
  match wallet with
  | None => throw (Error "Wallet is not a credit card")
  | Some wallet =>
    if bool_decide (Wallet.type wallet ≠ "credit_card") then
      throw (Error "Wallet is not a credit card")
    else
      let currentUsage := Z.abs (Wallet.balance wallet) in
      let availableCredit := or_number (Wallet.creditLimit wallet) 0 - currentUsage in
      let utilizationRate :=
        match Wallet.creditLimit wallet with
        | Some creditLimit =>
          if bool_decide (creditLimit = 0) then 0%Q
          else (inject_Z currentUsage / inject_Z creditLimit * 100)%Q
        | None => 0%Q
        end in
      mret (mkCreditCardInfo wallet currentUsage availableCredit utilizationRate
              (bool_decide (or_number (Wallet.creditLimit wallet) 0 < currentUsage)))
  end.

Definition getTotalBalance : M Z :=
  gets (λ db,
    sumOf (Wallet.balance
           <$> filter (λ w, Wallet.isActive w = true ∧ Wallet.type w ≠ "credit_card")
                 (wallets db))).

Definition getTotalCreditCardDebt : M Z :=
  gets (λ db,
    sumOf ((λ w, Z.abs (Wallet.balance w))
           <$> filter (λ w, Wallet.isActive w = true ∧ Wallet.type w = "credit_card")
                 (wallets db))).

End WalletService.

(** ** The [Date] methods the bill reminders use

    Time values and the abstract operations of ECMA-262 (section "Date
    Objects"), for a host whose local time is a constant offset [tza] from
    UTC (no daylight saving). Time values stay far inside the range of
    [TimeClip]. *)

Module JsDate.

Definition msPerDay : Z := 86400000.

Definition Day (t : Z) : Z := t `div` msPerDay.
Definition TimeWithinDay (t : Z) : Z := t `mod` msPerDay.

Definition DaysInYear (y : Z) : Z :=
  if bool_decide (y `mod` 4 ≠ 0) then 365
  else if bool_decide (y `mod` 100 ≠ 0) then 366
  else if bool_decide (y `mod` 400 ≠ 0) then 365
  else 366.

Definition DayFromYear (y : Z) : Z :=
  365 * (y - 1970) + (y - 1969) `div` 4 - (y - 1901) `div` 100 + (y - 1601) `div` 400.

(** The year of day number [d]: the largest [y] with [DayFromYear y ≤ d];
    the mean-year estimate is off by at most one. *)
Definition yearOfDay (d : Z) : Z :=
  let y := 1970 + (d * 400) `div` 146097 in
  if bool_decide (d < DayFromYear y) then y - 1
  else if bool_decide (DayFromYear (y + 1) ≤ d) then y + 1
  else y.

Definition leapOfDay (d : Z) : Z :=
  if bool_decide (DaysInYear (yearOfDay d) = 366) then 1 else 0.

Definition dayWithinYear (d : Z) : Z := d - DayFromYear (yearOfDay d).

(** The month (0 to 11) in which the day [d] within a year falls. *)
Definition monthOfDayWithinYear (d leap : Z) : Z :=
  if bool_decide (d < 31) then 0
  else if bool_decide (d < 59 + leap) then 1
  else if bool_decide (d < 90 + leap) then 2
  else if bool_decide (d < 120 + leap) then 3
  else if bool_decide (d < 151 + leap) then 4
  else if bool_decide (d < 181 + leap) then 5
  else if bool_decide (d < 212 + leap) then 6
  else if bool_decide (d < 243 + leap) then 7
  else if bool_decide (d < 273 + leap) then 8
  else if bool_decide (d < 304 + leap) then 9
  else if bool_decide (d < 334 + leap) then 10
  else 11.

(** The day within the year on which month [m] (0 to 11) starts. *)
Definition monthStart (m leap : Z) : Z :=
  if bool_decide (m = 0) then 0
  else if bool_decide (m = 1) then 31
  else if bool_decide (m = 2) then 59 + leap
  else if bool_decide (m = 3) then 90 + leap
  else if bool_decide (m = 4) then 120 + leap
  else if bool_decide (m = 5) then 151 + leap
  else if bool_decide (m = 6) then 181 + leap
  else if bool_decide (m = 7) then 212 + leap
  else if bool_decide (m = 8) then 243 + leap
  else if bool_decide (m = 9) then 273 + leap
  else if bool_decide (m = 10) then 304 + leap
  else 334 + leap.

Definition monthOfDay (d : Z) : Z :=
  monthOfDayWithinYear (dayWithinYear d) (leapOfDay d).

Definition dateOfDay (d : Z) : Z :=
  let leap := leapOfDay d in
  let within := dayWithinYear d in
  within + 1 - monthStart (monthOfDayWithinYear within leap) leap.

(** The calendar fields of a time value are those of its day. *)
Definition YearFromTime (t : Z) : Z := yearOfDay (Day t).
Definition InLeapYear (t : Z) : Z := leapOfDay (Day t).
Definition DayWithinYear (t : Z) : Z := dayWithinYear (Day t).
Definition MonthFromTime (t : Z) : Z := monthOfDay (Day t).
Definition DateFromTime (t : Z) : Z := dateOfDay (Day t).

(** [MakeDay]: months outside 0..11 carry into the year, days outside the
    month carry into the following (or preceding) months. *)
Definition MakeDay (year month date : Z) : Z :=
  let ym := year + month `div` 12 in
  let mn := month `mod` 12 in
  let leap := if bool_decide (DaysInYear ym = 366) then 1 else 0 in
  DayFromYear ym + monthStart mn leap + date - 1.

Definition MakeDate (day time : Z) : Z := day * msPerDay + time.

Definition LocalTime (tza t : Z) : Z := t + tza.
Definition UTC (tza t : Z) : Z := t - tza.

Definition getTime (d : Date) : Z := d.
Definition getMonth (tza : Z) (d : Date) : Z := MonthFromTime (LocalTime tza d).
Definition getFullYear (tza : Z) (d : Date) : Z := YearFromTime (LocalTime tza d).
Definition getDate (tza : Z) (d : Date) : Z := DateFromTime (LocalTime tza d).

Definition setMonth (tza : Z) (d : Date) (month : Z) : Date :=
  let t := LocalTime tza d in
  UTC tza (MakeDate (MakeDay (YearFromTime t) month (DateFromTime t)) (TimeWithinDay t)).

Definition setFullYear (tza : Z) (d : Date) (year : Z) : Date :=
  let t := LocalTime tza d in
  UTC tza (MakeDate (MakeDay year (MonthFromTime t) (DateFromTime t)) (TimeWithinDay t)).

Definition MakeTime (hour min sec ms : Z) : Z :=
  hour * 3600000 + min * 60000 + sec * 1000 + ms.

Definition setDate (tza : Z) (d : Date) (date : Z) : Date :=
  let t := LocalTime tza d in
  UTC tza (MakeDate (MakeDay (YearFromTime t) (MonthFromTime t) date) (TimeWithinDay t)).

Definition setHours (tza : Z) (d : Date) (hour min sec ms : Z) : Date :=
  let t := LocalTime tza d in
  UTC tza (MakeDate (Day t) (MakeTime hour min sec ms)).

(** [new Date(year, month, date, hours, minutes, seconds, ms)]: a year from
    0 to 99 stands for 1900 + year. *)
Definition newDate (tza : Z) (year month date hours minutes seconds ms : Z) : Date :=
  let yr := if bool_decide (0 ≤ year ≤ 99) then 1900 + year else year in
  UTC tza (MakeDate (MakeDay yr month date) (MakeTime hours minutes seconds ms)).

(** Midnight UTC of a calendar day, month counted from 1. *)
Definition utcDate (year month day : Z) : Date :=
  MakeDate (MakeDay year (month - 1) day) 0.

End JsDate.

(** ** services/lendBorrow.service.ts *)

Module LendBorrowService.

(** The row of [values({ ...record, id, remainingAmount:
    record.remainingAmount || record.amount, createdAt: now, updatedAt: now })];
    a status left out takes the column default. *)
Definition newRow (id : string) (now : Date) (record : NewLendBorrow.t) : LendBorrow.t :=
  LendBorrow.mk id (NewLendBorrow.type record) (NewLendBorrow.personName record)
    (NewLendBorrow.amount record)
    (or_number (NewLendBorrow.remainingAmount record) (NewLendBorrow.amount record))
    (NewLendBorrow.description record) (NewLendBorrow.notes record)
    (NewLendBorrow.dueDate record) (NewLendBorrow.walletId record)
    (default "pending" (NewLendBorrow.status record)) now now.

Definition create (id : string) (now : Date) (record : NewLendBorrow.t) : M LendBorrow.t :=
  λ db,
  match insertRow LendBorrow.id (newRow id now record) (lendBorrow db) with
  | Ok tbl => (Ok (newRow id now record), set_lendBorrow (λ _, tbl) db)
  | Throw e => (Throw e, db)
  end.

Definition getById (id : string) : M (option LendBorrow.t) :=
  gets (λ db, selectById LendBorrow.id id (lendBorrow db)).

(** The row after [set({ ...data, updatedAt: new Date() })]. *)
Definition patchRow (data : LendBorrowPatch.t) (now : Date) (r : LendBorrow.t)
  : LendBorrow.t :=
  LendBorrow.mk (LendBorrow.id r)
    (default (LendBorrow.type r) (LendBorrowPatch.type data))
    (default (LendBorrow.personName r) (LendBorrowPatch.personName data))
    (default (LendBorrow.amount r) (LendBorrowPatch.amount data))
    (default (LendBorrow.remainingAmount r) (LendBorrowPatch.remainingAmount data))
    (default (LendBorrow.description r) (LendBorrowPatch.description data))
    (default (LendBorrow.notes r) (LendBorrowPatch.notes data))
    (default (LendBorrow.dueDate r) (LendBorrowPatch.dueDate data))
    (default (LendBorrow.walletId r) (LendBorrowPatch.walletId data))
    (default (LendBorrow.status r) (LendBorrowPatch.status data))
    (LendBorrow.createdAt r) now.

(** The first updated row, undefined when no row has that id. *)
Definition update (id : string) (data : LendBorrowPatch.t) (now : Date)
  : M (option LendBorrow.t) :=
  modify (set_lendBorrow (updateById LendBorrow.id id (patchRow data now))) ;;
  gets (λ db, selectById LendBorrow.id id (lendBorrow db)).

(** [{ remainingAmount, status }]. *)
Definition remainingAndStatus (remainingAmount : Z) (status : string) : LendBorrowPatch.t :=
  LendBorrowPatch.mk None None None (Some remainingAmount) None None None None
    (Some status) None.

Definition addPayment (lendBorrowId paymentId : string) (now : Date)
    (payment : NewPayment.t) : M Payment.t :=
  record ← getById lendBorrowId ;
  match record with
  | None => throw (Error "Lend/Borrow record not found")
  | Some record =>
    let row := Payment.mk paymentId lendBorrowId (NewPayment.amount payment)
                 (NewPayment.paymentDate payment) (NewPayment.notes payment)
                 (NewPayment.transactionId payment) now in
    newPayment ← (λ db,
      match insertRow Payment.id row (lendBorrowPayments db) with
      | Ok tbl => (Ok row, set_lendBorrowPayments (λ _, tbl) db)
      | Throw e => (Throw e, db)
      end) ;
    let newRemaining := LendBorrow.remainingAmount record - NewPayment.amount payment in
    let newStatus :=
      if bool_decide (newRemaining ≤ 0) then "completed"
      else if bool_decide (newRemaining < LendBorrow.amount record) then "partial"
      else LendBorrow.status record in
    update lendBorrowId (remainingAndStatus (Z.max 0 newRemaining) newStatus) now ;;
    mret newPayment
  end.

(** The order of [orderBy(desc(lendBorrowPayments.paymentDate))]. *)
Definition latestFirst (p q : Payment.t) : Prop :=
  Payment.paymentDate q ≤ Payment.paymentDate p.

#[global] Instance latestFirst_dec p q : Decision (latestFirst p q).
Proof. unfold latestFirst. apply _. Defined.



End LendBorrowService.

(** ** services/budget.service.ts *)

Module BudgetService.

Definition newRow (id : string) (now : Date) (budget : NewBudget.t) : Budget.t :=
  Budget.mk id (NewBudget.categoryId budget) (NewBudget.amount budget)
    (NewBudget.period budget) (NewBudget.month budget) (NewBudget.year budget) now now.

Definition create (id : string) (now : Date) (budget : NewBudget.t) : M Budget.t :=
  λ db,
  match insertRow Budget.id (newRow id now budget) (budgets db) with
  | Ok tbl => (Ok (newRow id now budget), set_budgets (λ _, tbl) db)
  | Throw e => (Throw e, db)
  end.

(** The [where] clause of [getByCategoryAndPeriod]; a NULL month or year
    equals no number. *)
Definition inCategoryAndPeriod (categoryId : string) (month year : Z) (b : Budget.t) : Prop :=
  Budget.categoryId b = categoryId ∧ Budget.month b = Some month ∧ Budget.year b = Some year.

#[global] Instance inCategoryAndPeriod_dec categoryId month year b :
  Decision (inCategoryAndPeriod categoryId month year b).
Proof. unfold inCategoryAndPeriod. apply _. Defined.

Definition getByCategoryAndPeriod (categoryId : string) (month year : Z)
  : M (option Budget.t) :=
  gets (λ db, head (filter (inCategoryAndPeriod categoryId month year) (budgets db))).

Definition patchRow (data : BudgetPatch.t) (now : Date) (b : Budget.t) : Budget.t :=
  Budget.mk (Budget.id b)
    (default (Budget.categoryId b) (BudgetPatch.categoryId data))
    (default (Budget.amount b) (BudgetPatch.amount data))
    (default (Budget.period b) (BudgetPatch.period data))
    (default (Budget.month b) (BudgetPatch.month data))
    (default (Budget.year b) (BudgetPatch.year data))
    (Budget.createdAt b) now.

Definition update (id : string) (data : BudgetPatch.t) (now : Date)
  : M (option Budget.t) :=
  modify (set_budgets (updateById Budget.id id (patchRow data now))) ;;
  gets (λ db, selectById Budget.id id (budgets db)).

(** [{ amount }]. *)
Definition onlyAmount (amount : Z) : BudgetPatch.t :=
  BudgetPatch.mk None (Some amount) None None None None.

Definition upsertBudget (categoryId : string) (amount month year : Z)
    (id : string) (now : Date) : M (option Budget.t) :=
  existing ← getByCategoryAndPeriod categoryId month year ;
  match existing with
  | Some existing => update (Budget.id existing) (onlyAmount amount) now
  | None =>
    created ← create id now
                (NewBudget.mk categoryId amount "monthly" (Some month) (Some year)) ;
    mret (Some created)
  end.

(** The [where] clause of [getByPeriod]. *)
Definition inPeriod (month year : Z) (b : Budget.t) : Prop :=
  Budget.month b = Some month ∧ Budget.year b = Some year.

#[global] Instance inPeriod_dec month year b : Decision (inPeriod month year b).
Proof. unfold inPeriod. apply _. Defined.

Definition getByPeriod (month year : Z) : M (list Budget.t) :=
  gets (λ db, filter (inPeriod month year) (budgets db)).

(** The [for] loop of [copyBudgets] over the source budgets that are left;
    [newBudgets] holds the rows created so far; the n-th [create] of the
    call draws the id [uuid n] at the time [now n]. *)
Fixpoint copyEach (uuid : nat → string) (now : nat → Date) (toMonth toYear : Z)
    (sourceBudgets newBudgets : list Budget.t) : M (list Budget.t) :=
  match sourceBudgets with
  | [] => mret newBudgets
  | sourceBudget :: sourceBudgets =>
    existing ← getByCategoryAndPeriod (Budget.categoryId sourceBudget) toMonth toYear ;
    match existing with
    | Some _ => copyEach uuid now toMonth toYear sourceBudgets newBudgets
    | None =>
      newBudget ← create (uuid (length newBudgets)) (now (length newBudgets))
                    (NewBudget.mk (Budget.categoryId sourceBudget)
                       (Budget.amount sourceBudget) (Budget.period sourceBudget)
                       (Some toMonth) (Some toYear)) ;
      copyEach uuid now toMonth toYear sourceBudgets (newBudgets ++ [newBudget])%list
    end
  end.

Definition copyBudgets (fromMonth fromYear toMonth toYear : Z) (uuid : nat → string)
    (now : nat → Date) : M (list Budget.t) :=
  sourceBudgets ← getByPeriod fromMonth fromYear ;
  copyEach uuid now toMonth toYear sourceBudgets [].

End BudgetService.

(** ** services/billReminder.service.ts *)

Module BillReminderService.

Definition newRow (id : string) (now : Date) (reminder : NewBillReminder.t)
  : BillReminder.t :=
  BillReminder.mk id (NewBillReminder.title reminder) (NewBillReminder.amount reminder)
    (NewBillReminder.categoryId reminder) (NewBillReminder.walletId reminder)
    (NewBillReminder.dueDate reminder) (NewBillReminder.reminderDate reminder)
    (default false (NewBillReminder.isRecurring reminder))
    (NewBillReminder.frequency reminder)
    (default false (NewBillReminder.isPaid reminder))
    (NewBillReminder.transactionId reminder) (NewBillReminder.notes reminder) now now.

Definition create (id : string) (now : Date) (reminder : NewBillReminder.t)
  : M BillReminder.t :=
  λ db,
  match insertRow BillReminder.id (newRow id now reminder) (billReminders db) with
  | Ok tbl => (Ok (newRow id now reminder), set_billReminders (λ _, tbl) db)
  | Throw e => (Throw e, db)
  end.

Definition getById (id : string) : M (option BillReminder.t) :=
  gets (λ db, selectById BillReminder.id id (billReminders db)).

Definition patchRow (data : BillReminderPatch.t) (now : Date) (r : BillReminder.t)
  : BillReminder.t :=
  BillReminder.mk (BillReminder.id r)
    (default (BillReminder.title r) (BillReminderPatch.title data))
    (default (BillReminder.amount r) (BillReminderPatch.amount data))
    (default (BillReminder.categoryId r) (BillReminderPatch.categoryId data))
    (default (BillReminder.walletId r) (BillReminderPatch.walletId data))
    (default (BillReminder.dueDate r) (BillReminderPatch.dueDate data))
    (default (BillReminder.reminderDate r) (BillReminderPatch.reminderDate data))
    (default (BillReminder.isRecurring r) (BillReminderPatch.isRecurring data))
    (default (BillReminder.frequency r) (BillReminderPatch.frequency data))
    (default (BillReminder.isPaid r) (BillReminderPatch.isPaid data))
    (default (BillReminder.transactionId r) (BillReminderPatch.transactionId data))
    (default (BillReminder.notes r) (BillReminderPatch.notes data))
    (BillReminder.createdAt r) now.

Definition update (id : string) (data : BillReminderPatch.t) (now : Date)
  : M (option BillReminder.t) :=
  modify (set_billReminders (updateById BillReminder.id id (patchRow data now))) ;;
  gets (λ db, selectById BillReminder.id id (billReminders db)).

(** [{ isPaid, transactionId }]. *)
Definition paidAndTransaction (isPaid : bool) (transactionId : option string)
  : BillReminderPatch.t :=
  BillReminderPatch.mk None None None None None None None None (Some isPaid)
    (Some transactionId) None None.

(** The due date of the next occurrence: the [switch] on the frequency,
    [None] for its [default: return null]. *)
Definition nextDueDate (tza : Z) (reminder : BillReminder.t) : option Date :=
  let dueDate := BillReminder.dueDate reminder in
  if bool_decide (BillReminder.frequency reminder = Some "monthly") then
    Some (JsDate.setMonth tza dueDate (JsDate.getMonth tza dueDate + 1))
  else if bool_decide (BillReminder.frequency reminder = Some "yearly") then
    Some (JsDate.setFullYear tza dueDate (JsDate.getFullYear tza dueDate + 1))
  else None.

Definition createNextRecurring (tza : Z) (id : string) (now : Date)
    (reminder : BillReminder.t) : M (option BillReminder.t) :=
  if negb (BillReminder.isRecurring reminder)
     || negb (truthy_string (BillReminder.frequency reminder)) then mret None
  else
    match nextDueDate tza reminder with
    | None => mret None
    | Some nextDueDate =>
      let nextReminderDate :=
        match BillReminder.reminderDate reminder with
        | Some reminderDate =>
          Some (JsDate.getTime nextDueDate
                - (JsDate.getTime (BillReminder.dueDate reminder)
                   - JsDate.getTime reminderDate))
        | None => None
        end in
      created ← create id now
        (NewBillReminder.mk (BillReminder.title reminder) (BillReminder.amount reminder)
           (BillReminder.categoryId reminder) (BillReminder.walletId reminder)
           nextDueDate nextReminderDate (Some true) (BillReminder.frequency reminder)
           (Some false) None (BillReminder.notes reminder)) ;
      mret (Some created)
    end.

(** [newId] is the id that [create] draws when a successor is inserted. *)
Definition markAsPaid (tza : Z) (id : string) (transactionId : option string)
    (newId : string) (now : Date) : M (option BillReminder.t) :=
  reminder ← getById id ;
  match reminder with
  | None => throw (Error "Bill reminder not found")
  | Some reminder =>
    updated ← update id (paidAndTransaction true (or_null transactionId)) now ;
    (if BillReminder.isRecurring reminder
        && truthy_string (BillReminder.frequency reminder)
     then createNextRecurring tza newId now reminder ;; mret tt
     else mret tt) ;;
    mret updated
  end.

Definition markAsUnpaid (id : string) (now : Date) : M (option BillReminder.t) :=
  update id (paidAndTransaction false None) now.

(** [gte(billReminders.dueDate, from)] and [lte(billReminders.dueDate, to)]:
    the column and the dates are compared in whole seconds. *)
Definition dueFrom (from : Date) (r : BillReminder.t) : Prop :=
  mapToDriverValue from ≤ mapToDriverValue (BillReminder.dueDate r).

Definition dueUntil (to : Date) (r : BillReminder.t) : Prop :=
  mapToDriverValue (BillReminder.dueDate r) ≤ mapToDriverValue to.

(** The order of [orderBy(billReminders.dueDate)]; rows due in the same
    second come in an order that SQLite leaves open (here: table order). *)
Definition dueFirst (r r' : BillReminder.t) : Prop :=
  mapToDriverValue (BillReminder.dueDate r) ≤ mapToDriverValue (BillReminder.dueDate r').

#[global] Instance dueFrom_dec from r : Decision (dueFrom from r).
Proof. unfold dueFrom. apply _. Defined.

#[global] Instance dueUntil_dec to r : Decision (dueUntil to r).
Proof. unfold dueUntil. apply _. Defined.

#[global] Instance dueFirst_dec r r' : Decision (dueFirst r r').
Proof. unfold dueFirst. apply _. Defined.

Definition getDueToday (tza : Z) (now : Date) : M (list BillReminder.t) :=
  let today := JsDate.setHours tza now 0 0 0 0 in
  let tomorrow := JsDate.setDate tza today (JsDate.getDate tza today + 1) in
  gets (λ db,
    merge_sort dueFirst
      (filter (λ r, BillReminder.isPaid r = false ∧ dueFrom today r ∧ dueUntil tomorrow r)
         (billReminders db))).

(** One [{ total, count }] pair of [getSummary]; SUM skips the reminders
    without an amount. *)
Record Totals : Type := mkTotals {
  total : Z;
  count : Z
}.

Definition totalsOf (rows : list BillReminder.t) : Totals :=
  mkTotals (sumOfNullable (BillReminder.amount <$> rows)) (countOf rows).

Record Summary : Type := mkSummary {
  unpaid : Totals;
  overdue : Totals;
  upcoming : Totals
}.

Definition getSummary (now : Date) : M Summary :=
  unpaidResult ← gets (λ db,
    totalsOf (filter (λ r, BillReminder.isPaid r = false) (billReminders db))) ;
  overdueResult ← gets (λ db,
    totalsOf (filter (λ r, BillReminder.isPaid r = false ∧ dueUntil now r)
                (billReminders db))) ;
  upcomingResult ← gets (λ db,
    totalsOf (filter (λ r, BillReminder.isPaid r = false ∧ dueFrom now r)
                (billReminders db))) ;
  mret (mkSummary unpaidResult overdueResult upcomingResult).

Definition getByMonth (tza : Z) (month year : Z) : M (list BillReminder.t) :=
  let startDate := JsDate.newDate tza year (month - 1) 1 0 0 0 0 in
  let endDate := JsDate.newDate tza year month 0 23 59 59 0 in
  gets (λ db,
    merge_sort dueFirst
      (filter (λ r, dueFrom startDate r ∧ dueUntil endDate r) (billReminders db))).

(** [{ dueDate, reminderDate }]. *)
Definition dueAndReminder (dueDate : Date) (reminderDate : option Date)
  : BillReminderPatch.t :=
  BillReminderPatch.mk None None None None (Some dueDate) (Some reminderDate) None None
    None None None None.

(** [days] is a whole number of days. *)
Definition snooze (tza : Z) (id : string) (days : Z) (now : Date)
  : M (option BillReminder.t) :=
  reminder ← getById id ;
  match reminder with
  | None => throw (Error "Bill reminder not found")
  | Some reminder =>
    let newDueDate :=
      JsDate.setDate tza (BillReminder.dueDate reminder)
        (JsDate.getDate tza (BillReminder.dueDate reminder) + days) in
    let newReminderDate :=
      match BillReminder.reminderDate reminder with
      | Some reminderDate => Some (JsDate.getTime reminderDate + days * 24 * 60 * 60 * 1000)
      | None => None
      end in
    update id (dueAndReminder newDueDate newReminderDate) now
  end.

End BillReminderService.

(** ** services/settings.service.ts

    The service reads and writes the [settings] table only; its methods
    are computations over that table. *)

Module Setting.
Record t : Type := mk {
    id : string;
    key : string;
    value : string;
    updatedAt : Date
  }.
End Setting.

(** The values that [setTyped] is given: strings, whole numbers, booleans
    and null. *)
Inductive JsValue : Type :=
  | JsString (s : string)
  | JsNumber (n : Z)
  | JsBoolean (b : bool)
  | JsNull.

Module SettingsService.

Definition S (A : Type) : Type := list Setting.t → result A * list Setting.t.

#[global] Instance S_ret : MRet S := λ A a tbl, (Ok a, tbl).
#[global] Instance S_bind : MBind S := λ A B f m tbl,
  match m tbl with
  | (Ok a, tbl') => f a tbl'
  | (Throw e, tbl') => (Throw e, tbl')
  end.

(** [where(eq(settings.key, key))]. *)
Definition withKey (key : string) (tbl : list Setting.t) : list Setting.t :=
  filter (λ s, Setting.key s = key) tbl.

(** [setting?.value || null]: no row and an empty value both give null. *)
Definition get (key : string) : S (option string) :=
  λ tbl,
  (Ok (match head (withKey key tbl) with
       | Some setting =>
         if bool_decide (Setting.value setting = "") then None
         else Some (Setting.value setting)
       | None => None
       end), tbl).

(** [insert(settings).values(r)]: the primary key [id] and the unique
    column [key] each refuse a second row with the same value. *)
Definition insertRow (r : Setting.t) : S Setting.t :=
  λ tbl,
  if bool_decide (Exists (λ s, Setting.id s = Setting.id r ∨ Setting.key s = Setting.key r)
                    tbl)
  then (Throw (ConstraintError "UNIQUE constraint failed"), tbl)
  else (Ok r, (tbl ++ [r])%list).

(** [update(settings).set({ value, updatedAt }).where(eq(settings.key, key))
    .returning()], and the first row returned. *)
Definition updateValue (key value : string) (now : Date) : S (option Setting.t) :=
  λ tbl,
  let tbl' := (λ s, if decide (Setting.key s = key)
                    then Setting.mk (Setting.id s) (Setting.key s) value now
                    else s) <$> tbl in
  (Ok (head (withKey key tbl')), tbl').

Definition set (key value : string) (id : string) (now : Date) : S (option Setting.t) :=
  existing ← get key ;
  match existing with
  | Some _ => updateValue key value now
  | None =>
    newSetting ← insertRow (Setting.mk id key value now) ;
    mret (Some newSetting)
  end.

(** [JSON.stringify] on the values of [JsValue] other than strings. *)
Definition stringify (value : JsValue) : string :=
  match value with
  | JsString s => s
  | JsNumber n => pretty n
  | JsBoolean true => "true"
  | JsBoolean false => "false"
  | JsNull => "null"
  end.

(** [typeof value === "string" ? value : JSON.stringify(value)]. *)
Definition setTyped (key : string) (value : JsValue) (id : string) (now : Date)
  : S (option Setting.t) :=
  set key (stringify value) id now.

Definition delete (key : string) : S unit :=
  λ tbl, (Ok tt, filter (λ s, Setting.key s ≠ key) tbl).

(** The entries of [defaults], in the order of the object literal. *)
Definition defaults : list (string * JsValue) :=
  [ ("currency", JsString "INR");
    ("currencySymbol", JsString "₹");
    ("dateFormat", JsString "DD/MM/YYYY");
    ("firstDayOfWeek", JsNumber 1);
    ("theme", JsString "system");
    ("notificationsEnabled", JsBoolean true);
    ("billReminderDays", JsNumber 3);
    ("backupEnabled", JsBoolean false);
    ("lastBackupDate", JsNull);
    ("appVersion", JsString "1.0.0");
    ("onboardingCompleted", JsBoolean false);
    ("biometricEnabled", JsBoolean false);
    ("language", JsString "en") ].

(** The [for] loop of [initializeDefaults] over the entries that are left;
    [n] rows were inserted so far, and the n-th insertion of the call draws
    the id [uuid n] at the time [now n]. *)
Fixpoint initializeEach (uuid : nat → string) (now : nat → Date)
    (entries : list (string * JsValue)) (n : nat) : S unit :=
  match entries with
  | [] => mret tt
  | (key, value) :: entries =>
    existing ← get key ;
    match existing with
    | None =>
      setTyped key value (uuid n) (now n) ;;
      initializeEach uuid now entries (Datatypes.S n)
    | Some _ => initializeEach uuid now entries n
    end
  end.

Definition initializeDefaults (uuid : nat → string) (now : nat → Date) : S unit :=
  initializeEach uuid now defaults 0%nat.

End SettingsService.

(** ** services/category.service.ts

    The methods below read and write the [categories] table only. *)

Module Category.
Record t : Type := mk {
    id : string;
    name : string;
    type : string;
    icon : option string;
    color : option string;
    parentId : option string;
    createdAt : Date
  }.
End Category.

Module CategoryService.

Definition getAll (tbl : list Category.t) : list Category.t := tbl.

(** [where(isNull(categories.parentId))]. *)
Definition getParentCategories (tbl : list Category.t) : list Category.t :=
  filter (λ c, Category.parentId c = None) tbl.

(** [where(eq(categories.parentId, parentId))]. *)
Definition getSubcategories (parentId : string) (tbl : list Category.t)
  : list Category.t :=
  filter (λ c, Category.parentId c = Some parentId) tbl.

(** [{ ...parent, subcategories }]. *)
Record WithSubs : Type := mkWithSubs {
  parent : Category.t;
  subcategories : list Category.t
}.

(** [!c.parentId] holds for null and for the empty string. *)
Definition getCategoriesWithSubs (tbl : list Category.t) : list WithSubs :=
  let allCategories := getAll tbl in
  let parentCategories :=
    filter (λ c, truthy_string (Category.parentId c) = false) allCategories in
  (λ parent,
     mkWithSubs parent
       (filter (λ c, Category.parentId c = Some (Category.id parent)) allCategories))
  <$> parentCategories.

(** The two [delete] statements: the subcategories first, then the
    category; the table that is left. *)
Definition delete (id : string) (tbl : list Category.t) : list Category.t :=
  let tbl := filter (λ c, Category.parentId c ≠ Some id) tbl in
  filter (λ c, Category.id c ≠ id) tbl.

End CategoryService.

(** ** The ledger in double precision

    [balance], [amount] and [transfer_fee] are REAL columns and JavaScript
    numbers: IEEE 754 binary64 values, on which SQLite and JavaScript round
    every sum and every difference. The services above compute on whole
    amounts in exact arithmetic. [Real] holds the rows of the wallets and
    transactions tables and the methods of [TransactionService] once more,
    on Rocq's primitive floats, which are the binary64 numbers with their
    rounding to nearest, for what depends on several operations on a balance.

    SQLite has no NaN: an expression whose value is not a number evaluates
    to NULL, and a NaN that is bound to a statement is bound as NULL. The
    NOT NULL columns [balance] and [amount] refuse it, and the statement
    fails without writing anything. A timestamp is written as the whole
    seconds that the column keeps and that [returning()] gives back. *)

Module Real.

(** [x || d] on a number or null: null, 0, -0 and NaN are falsy. *)
Definition or_number (o : option float) (d : float) : float :=
  match o with
  | Some x => if (x =? 0)%float || PrimFloat.is_nan x then d else x
  | None => d
  end.

(** A REAL value as a nullable column keeps it. *)
Definition nullable (o : option float) : option float :=
  match o with
  | Some x => if PrimFloat.is_nan x then None else Some x
  | None => None
  end.

(** A [Date] as a [timestamp] column stores it and reads it back:
    [new Date(Math.floor(value.getTime() / 1000) * 1000)]. *)
Definition asStored (value : Date) : Date := mapToDriverValue value * 1000.

Module Wallet.
Record t : Type := mk {
    id : string;
    name : string;
    type : string;
    balance : float;
    currency : string;
    creditLimit : option float;
    billingDate : option Z;
    dueDate : option Z;
    cashbackRate : option float;
    icon : option string;
    color : option string;
    notes : option string;
    isActive : bool;
    createdAt : Date;
    updatedAt : Date
  }.
End Wallet.

Module Transaction.
Record t : Type := mk {
    id : string;
    walletId : string;
    type : string;
    amount : float;
    categoryId : option string;
    description : option string;
    notes : option string;
    toWalletId : option string;
    transferFee : option float;
    recurringId : option string;
    transactionDate : Date;
    tags : option string;
    attachments : option string;
    createdAt : Date;
    updatedAt : Date
  }.
End Transaction.

(** [Omit<NewTransaction, "id" | "createdAt" | "updatedAt">]; the outer
    [None] of [transferFee] is "undefined", for which the column default 0
    is stored. *)
Module NewTransaction.
Record t : Type := mk {
    walletId : string;
    type : string;
    amount : float;
    categoryId : option string;
    description : option string;
    notes : option string;
    toWalletId : option string;
    transferFee : option (option float);
    recurringId : option string;
    transactionDate : Date;
    tags : option string;
    attachments : option string
  }.
End NewTransaction.

(** [Partial<Omit<Transaction, "id" | "createdAt">>]: [None] is a key that
    is not set; for a nullable column [Some None] sets NULL. *)
Module TransactionPatch.
Record t : Type := mk {
    walletId : option string;
    type : option string;
    amount : option float;
    categoryId : option (option string);
    description : option (option string);
    notes : option (option string);
    toWalletId : option (option string);
    transferFee : option (option float);
    recurringId : option (option string);
    transactionDate : option Date;
    tags : option (option string);
    attachments : option (option string);
    updatedAt : option Date
  }.
Definition empty : t :=
    mk None None None None None None None None None None None None None.
End TransactionPatch.

(** The tables that [TransactionService] writes, in double precision, and
    the other tables as they are above. *)
Record Db : Type := mkDb {
  wallets : list Wallet.t;
  transactions : list Transaction.t;
  lendBorrow : list LendBorrow.t;
  lendBorrowPayments : list Payment.t;
  budgets : list Budget.t;
  billReminders : list BillReminder.t
}.

Definition M (A : Type) : Type := Db → result A * Db.

#[global] Instance M_ret : MRet M := λ A a db, (Ok a, db).
#[global] Instance M_bind : MBind M := λ A B f m db,
  match m db with
  | (Ok a, db') => f a db'
  | (Throw e, db') => (Throw e, db')
  end.

Definition throw {A : Type} (e : exn) : M A := λ db, (Throw e, db).
Definition gets {A : Type} (f : Db → A) : M A := λ db, (Ok (f db), db).
Definition modify (f : Db → Db) : M unit := λ db, (Ok tt, f db).

Definition set_wallets (f : list Wallet.t → list Wallet.t) (db : Db) : Db :=
  mkDb (f (wallets db)) (transactions db) (lendBorrow db)
       (lendBorrowPayments db) (budgets db) (billReminders db).
Definition set_transactions (f : list Transaction.t → list Transaction.t) (db : Db) : Db :=
  mkDb (wallets db) (f (transactions db)) (lendBorrow db)
       (lendBorrowPayments db) (budgets db) (billReminders db).

(** *** services/transaction.service.ts *)

Module TransactionService.

(** The row written by [set({ balance: sql`balance ..`, updatedAt: new Date() })]. *)
Definition setBalance (f : float → float) (now : Date) (w : Wallet.t) : Wallet.t :=
  Wallet.mk (Wallet.id w) (Wallet.name w) (Wallet.type w) (f (Wallet.balance w))
    (Wallet.currency w) (Wallet.creditLimit w) (Wallet.billingDate w)
    (Wallet.dueDate w) (Wallet.cashbackRate w) (Wallet.icon w) (Wallet.color w)
    (Wallet.notes w) (Wallet.isActive w) (Wallet.createdAt w) (asStored now).

(** [update(wallets).set({ balance: sql`..`, updatedAt: new Date() })
    .where(eq(wallets.id, walletId))]: refused when the new balance of a
    row that it writes is not a number. *)
Definition updateBalance (walletId : string) (f : float → float) (now : Date) : M unit :=
  λ db,
  if forallb (λ w, negb (bool_decide (Wallet.id w = walletId)
                         && PrimFloat.is_nan (f (Wallet.balance w)))) (wallets db)
  then (Ok tt, set_wallets (updateById Wallet.id walletId (setBalance f now)) db)
  else (Throw (ConstraintError "NOT NULL constraint failed: wallets.balance"), db).

(** SQL evaluates [balance - amount - fee] from the left, rounding twice.
    In the transfer branch [toWalletId] is truthy, hence a non-empty
    string: the [default] below is never taken. *)
Definition updateWalletBalance (now : Date) (transaction : Transaction.t) : M unit :=
  if bool_decide (Transaction.type transaction = "income") then
    updateBalance (Transaction.walletId transaction)
      (λ balance, balance + Transaction.amount transaction)%float now
  else if bool_decide (Transaction.type transaction = "expense") then
    updateBalance (Transaction.walletId transaction)
      (λ balance, balance - Transaction.amount transaction)%float now
  else if bool_decide (Transaction.type transaction = "transfer")
          && truthy_string (Transaction.toWalletId transaction) then
    updateBalance (Transaction.walletId transaction)
      (λ balance, balance - Transaction.amount transaction
                  - or_number (Transaction.transferFee transaction) 0)%float now ;;
    updateBalance (default "" (Transaction.toWalletId transaction))
      (λ balance, balance + Transaction.amount transaction)%float now
  else mret tt.

Definition reverseWalletBalance (now : Date) (transaction : Transaction.t) : M unit :=
  if bool_decide (Transaction.type transaction = "income") then
    updateBalance (Transaction.walletId transaction)
      (λ balance, balance - Transaction.amount transaction)%float now
  else if bool_decide (Transaction.type transaction = "expense") then
    updateBalance (Transaction.walletId transaction)
      (λ balance, balance + Transaction.amount transaction)%float now
  else if bool_decide (Transaction.type transaction = "transfer")
          && truthy_string (Transaction.toWalletId transaction) then
    updateBalance (Transaction.walletId transaction)
      (λ balance, balance + Transaction.amount transaction
                  + or_number (Transaction.transferFee transaction) 0)%float now ;;
    updateBalance (default "" (Transaction.toWalletId transaction))
      (λ balance, balance - Transaction.amount transaction)%float now
  else mret tt.

(** The row of [values({ ...transaction, id, createdAt: now, updatedAt: now })]
    as [returning()] reads it back. *)
Definition newRow (id : string) (now : Date) (d : NewTransaction.t) : Transaction.t :=
  Transaction.mk id (NewTransaction.walletId d) (NewTransaction.type d)
    (NewTransaction.amount d) (NewTransaction.categoryId d)
    (NewTransaction.description d) (NewTransaction.notes d)
    (NewTransaction.toWalletId d)
    (nullable (default (Some 0%float) (NewTransaction.transferFee d)))
    (NewTransaction.recurringId d) (asStored (NewTransaction.transactionDate d))
    (NewTransaction.tags d) (NewTransaction.attachments d)
    (asStored now) (asStored now).

(** [insert(transactions).values(..).returning()]: refused when the
    amount is not a number, or when the id is taken. *)
Definition insertReturning (row : Transaction.t) : M Transaction.t := λ db,
  if PrimFloat.is_nan (Transaction.amount row)
  then (Throw (ConstraintError "NOT NULL constraint failed: transactions.amount"), db)
  else match insertRow Transaction.id row (transactions db) with
       | Ok tbl => (Ok row, set_transactions (λ _, tbl) db)
       | Throw e => (Throw e, db)
       end.

Definition create (id : string) (now : Date) (transaction : NewTransaction.t)
  : M Transaction.t :=
  newTransaction ← insertReturning (newRow id now transaction) ;
  updateWalletBalance now newTransaction ;;
  mret newTransaction.

Definition getById (id : string) : M (option Transaction.t) :=
  gets (λ db, selectById Transaction.id id (transactions db)).

(** The row after [set({ ...data, updatedAt: new Date() })]. *)
Definition patchRow (data : TransactionPatch.t) (now : Date) (t : Transaction.t)
  : Transaction.t :=
  Transaction.mk (Transaction.id t)
    (default (Transaction.walletId t) (TransactionPatch.walletId data))
    (default (Transaction.type t) (TransactionPatch.type data))
    (default (Transaction.amount t) (TransactionPatch.amount data))
    (default (Transaction.categoryId t) (TransactionPatch.categoryId data))
    (default (Transaction.description t) (TransactionPatch.description data))
    (default (Transaction.notes t) (TransactionPatch.notes data))
    (default (Transaction.toWalletId t) (TransactionPatch.toWalletId data))
    (default (Transaction.transferFee t) (nullable <$> TransactionPatch.transferFee data))
    (default (Transaction.recurringId t) (TransactionPatch.recurringId data))
    (default (Transaction.transactionDate t)
       (asStored <$> TransactionPatch.transactionDate data))
    (default (Transaction.tags t) (TransactionPatch.tags data))
    (default (Transaction.attachments t) (TransactionPatch.attachments data))
    (Transaction.createdAt t) (asStored now).

(** [update(transactions).set(..).where(eq(transactions.id, id)).returning()],
    destructured: the first updated row, undefined when no row matched;
    refused when the amount that a row gets is not a number. *)
Definition updateReturning (id : string) (data : TransactionPatch.t) (now : Date)
  : M (option Transaction.t) :=
  λ db,
  if forallb (λ t, negb (bool_decide (Transaction.id t = id)
                         && PrimFloat.is_nan (Transaction.amount (patchRow data now t))))
       (transactions db)
  then (modify (set_transactions (updateById Transaction.id id (patchRow data now))) ;;
        gets (λ db, selectById Transaction.id id (transactions db))) db
  else (Throw (ConstraintError "NOT NULL constraint failed: transactions.amount"), db).

(** [updateWalletBalance(updated)] reads [transaction.type] first: on an
    undefined [updated] that read is the TypeError thrown below. *)
Definition update (id : string) (data : TransactionPatch.t) (now : Date)
  : M Transaction.t :=
  oldTransaction ← getById id ;
  match oldTransaction with
  | Some old => reverseWalletBalance now old
  | None => mret tt
  end ;;
  updated ← updateReturning id data now ;
  match updated with
  | Some row => updateWalletBalance now row ;; mret row
  | None => throw (TypeError "Cannot read properties of undefined (reading 'type')")
  end.

Definition delete (id : string) (now : Date) : M unit :=
  transaction ← getById id ;
  match transaction with
  | Some row => reverseWalletBalance now row
  | None => mret tt
  end ;;
  modify (set_transactions (deleteById Transaction.id id)).

End TransactionService.

End Real.

(** ** The balance rules on whole amounts *)

(** The delta that section 4.1 of the specification assigns to the wallet
    [wallet] for [apply(transaction, sign)]: income +amount·sign, expense
    −amount·sign, transfer −(amount+fee)·sign on the source and +amount·sign
    on the destination, nothing for a transfer without destination. A
    destination is absent when [toWalletId] is falsy (null or empty), a fee
    that is null counts as 0. *)
Definition balanceDelta (transaction : Transaction.t) (sign : Z) (wallet : string) : Z :=
  let amount := Transaction.amount transaction in
  let fee := default 0 (Transaction.transferFee transaction) in
  let source := bool_decide (wallet = Transaction.walletId transaction) in
  let destination := bool_decide (Some wallet = Transaction.toWalletId transaction) in
  if bool_decide (Transaction.type transaction = "income") then
    if source then amount * sign else 0
  else if bool_decide (Transaction.type transaction = "expense") then
    if source then - amount * sign else 0
  else if bool_decide (Transaction.type transaction = "transfer") then
    if truthy_string (Transaction.toWalletId transaction) then
      (if source then - (amount + fee) * sign else 0)
      + (if destination then amount * sign else 0)
    else 0
  else 0.

(** [w'] is [w] up to its balance and its modification time. *)
Definition sameButBalance (w w' : Wallet.t) : Prop :=
  w' = TransactionService.setBalance (λ _, Wallet.balance w') (Wallet.updatedAt w') w.

(** What [apply(transaction, sign)] may do to one wallet row. *)
Definition walletMoved (transaction : Transaction.t) (sign : Z) (w w' : Wallet.t) : Prop :=
  sameButBalance w w'
  ∧ Wallet.balance w' = Wallet.balance w + balanceDelta transaction sign (Wallet.id w)
  ∧ (Wallet.id w ≠ Transaction.walletId transaction →
     Some (Wallet.id w) ≠ Transaction.toWalletId transaction → w' = w).

(** Every table but [wallets] is the same in [db] and [db']. *)
Definition otherTablesKept (db db' : Db) : Prop :=
  transactions db' = transactions db
  ∧ lendBorrow db' = lendBorrow db
  ∧ lendBorrowPayments db' = lendBorrowPayments db
  ∧ budgets db' = budgets db
  ∧ billReminders db' = billReminders db.

(** ** The example of the specification: wallets A = 1000 and B = 0 *)

Definition exampleWallet (id : string) (balance : Z) : Wallet.t :=
  Wallet.mk id id "bank" balance "INR" None None None None None None None true 0 0.

Definition exampleDb : Db :=
  mkDb [exampleWallet "A" 1000; exampleWallet "B" 0] [] [] [] [] [].


(** ** The debt rules as the specification words them *)


(** ** The example of the specification: a loan of 5000 *)

Definition emptyDb : Db := mkDb [] [] [] [] [] [].

Definition exampleLoan (amount : Z) (remainingAmount : option Z) : NewLendBorrow.t :=
  NewLendBorrow.mk "lent" "Asha" amount remainingAmount None None None None None.


(** The record of a table, by id, as (remaining amount, status). *)
Definition debtState (lendBorrowId : string) (db : Db) : option (Z * string) :=
  (λ r, (LendBorrow.remainingAmount r, LendBorrow.status r))
    <$> selectById LendBorrow.id lendBorrowId (lendBorrow db).

(** ** Recurring bills *)

(** The row that [createNextRecurring] inserts for [reminder] when the
    next due date is [nextDueDate]: the values of its call of [create]. *)
Definition successorRow (newId : string) (now : Date) (reminder : BillReminder.t)
    (nextDueDate : Date) : BillReminder.t :=
  BillReminderService.newRow newId now
    (NewBillReminder.mk (BillReminder.title reminder) (BillReminder.amount reminder)
       (BillReminder.categoryId reminder) (BillReminder.walletId reminder)
       nextDueDate
       (match BillReminder.reminderDate reminder with
        | Some reminderDate =>
          Some (JsDate.getTime nextDueDate
                - (JsDate.getTime (BillReminder.dueDate reminder)
                   - JsDate.getTime reminderDate))
        | None => None
        end)
       (Some true) (BillReminder.frequency reminder) (Some false) None
       (BillReminder.notes reminder)).

(** The example of the specification: a monthly bill due 2024-03-15 with
    its reminder on 2024-03-12 (both at midnight UTC). *)
Definition exampleBill : NewBillReminder.t :=
  NewBillReminder.mk "Internet" (Some 999) None None
    (JsDate.utcDate 2024 3 15) (Some (JsDate.utcDate 2024 3 12))
    (Some true) (Some "monthly") None None None.

(** The reminders of a table as (id, due date, reminder date, paid). *)
Definition billStates (db : Db) : list (string * Date * option Date * bool) :=
  (λ r, (BillReminder.id r, BillReminder.dueDate r, BillReminder.reminderDate r,
         BillReminder.isPaid r)) <$> billReminders db.

(** Year, month (0 to 11) and day of the month of a day number, computed
    together. *)
Definition civilOfDay (day : Z) : Z * Z * Z :=
  let year := JsDate.yearOfDay day in
  let leap := if bool_decide (JsDate.DaysInYear year = 366) then 1 else 0 in
  let within := day - JsDate.DayFromYear year in
  let month := JsDate.monthOfDayWithinYear within leap in
  (year, month, within + 1 - JsDate.monthStart month leap).

(** The number of days of month [m] (0 to 11) in a year that is a leap
    year ([leap] = 1) or not ([leap] = 0). *)
Definition daysInMonth (m leap : Z) : Z :=
  if bool_decide (m = 1) then 28 + leap
  else if bool_decide (m = 3 ∨ m = 5 ∨ m = 8 ∨ m = 10) then 30
  else 31.

(** The number of days of the month after that of [due], in local time. *)
Definition daysInFollowingMonth (tza : Z) (due : Date) : Z :=
  let month := JsDate.getMonth tza due + 1 in
  daysInMonth (month `mod` 12)
    (if bool_decide (JsDate.DaysInYear (JsDate.getFullYear tza due + month `div` 12) = 366)
     then 1 else 0).

(** [due'] falls in the calendar month after that of [due]: the least that
    "advanced by one month" asks. *)
Definition inFollowingMonth (tza : Z) (due due' : Date) : Prop :=
  JsDate.getFullYear tza due'
  = JsDate.getFullYear tza due + (JsDate.getMonth tza due + 1) `div` 12
  ∧ JsDate.getMonth tza due' = (JsDate.getMonth tza due + 1) `mod` 12.

(** [due'] falls in the month of [due], one year later: the least that
    "advanced by one year" asks. *)
Definition inSameMonthNextYear (tza : Z) (due due' : Date) : Prop :=
  JsDate.getFullYear tza due' = JsDate.getFullYear tza due + 1
  ∧ JsDate.getMonth tza due' = JsDate.getMonth tza due.

(** A recurring bill due at [dueDate], with its reminder at [reminderDate]. *)
Definition billDue (frequency : string) (dueDate reminderDate : Date) : NewBillReminder.t :=
  NewBillReminder.mk "Rent" (Some 999) None None dueDate (Some reminderDate)
    (Some true) (Some frequency) None None None.

(** ** Further examples *)

(** [{ type, amount, walletId, toWalletId, transferFee }] of a draft. *)
Definition exampleTransfer (amount : Z) (wallet : string) (toWallet : option string)
    (fee : option (option Z)) : NewTransaction.t :=
  NewTransaction.mk wallet "transfer" amount None None None toWallet fee None 1000
    None None.

(** Two wallets opened with a balance of 0, and no transaction yet. *)
Definition openedDb : Db :=
  mkDb [exampleWallet "A" 0; exampleWallet "B" 0] [] [] [] [] [].

(** The balance of the wallet with a given id. *)
Definition balanceOf (walletId : string) (db : Db) : option Z :=
  Wallet.balance <$> selectById Wallet.id walletId (wallets db).

(** A credit card with a limit, owing or overpaid. *)
Definition exampleCard (balance : Z) (creditLimit : option Z) : Wallet.t :=
  Wallet.mk "card" "Card" "credit_card" balance "INR" creditLimit None None None None
    None None true 0 0.



(** [b] is a copy of the budget [source] into the period [month]/[year]. *)
Definition copiedFrom (month year : Z) (source b : Budget.t) : Prop :=
  BudgetService.inPeriod month year b
  ∧ Budget.categoryId b = Budget.categoryId source
  ∧ Budget.amount b = Budget.amount source
  ∧ Budget.period b = Budget.period source.

(** Ids for examples: [exampleUuid n] is the letter u, [n + 1] times. *)
Fixpoint exampleUuid (n : nat) : string :=
  match n with
  | O => "u"
  | S n => String.append "u" (exampleUuid n)
  end.

(** A budget row of the examples. *)
Definition exampleBudget (id categoryId : string) (amount month year : Z) : Budget.t :=
  Budget.mk id categoryId amount "monthly" (Some month) (Some year) 0 0.

(** The reminder [r] with both dates moved by [days] whole days, as
    updated at [now]. *)
Definition postponed (days : Z) (now : Date) (r : BillReminder.t) : BillReminder.t :=
  BillReminder.mk (BillReminder.id r) (BillReminder.title r) (BillReminder.amount r)
    (BillReminder.categoryId r) (BillReminder.walletId r)
    (BillReminder.dueDate r + days * JsDate.msPerDay)
    ((λ reminderDate, reminderDate + days * JsDate.msPerDay) <$> BillReminder.reminderDate r)
    (BillReminder.isRecurring r) (BillReminder.frequency r) (BillReminder.isPaid r)
    (BillReminder.transactionId r) (BillReminder.notes r) (BillReminder.createdAt r) now.

(** An unpaid reminder due within the second of [now]. *)
Definition dueRightNow (now : Date) (r : BillReminder.t) : Prop :=
  BillReminder.isPaid r = false
  ∧ mapToDriverValue (BillReminder.dueDate r) = mapToDriverValue now.

#[global] Instance dueRightNow_dec now r : Decision (dueRightNow now r).
Proof. unfold dueRightNow. apply _. Defined.

(** The first instant of the local day after the one of [now]. *)
Definition nextLocalMidnight (tza : Z) (now : Date) : Date :=
  JsDate.UTC tza ((JsDate.Day (JsDate.LocalTime tza now) + 1) * JsDate.msPerDay).

(** A bill reminder of the examples. *)
Definition exampleReminder (id : string) (amount : option Z) (dueDate : Date)
    (reminderDate : option Date) (isPaid : bool) : BillReminder.t :=
  BillReminder.mk id "Rent" amount None None dueDate reminderDate false None isPaid
    None None 0 0.

Definition billDb (rows : list BillReminder.t) : Db := mkDb [] [] [] [] [] rows.

(** A row of the settings table of the examples. *)
Definition exampleSetting (id key value : string) : Setting.t :=
  Setting.mk id key value 0.

(** A category of the examples, below [parentId] or at the top. *)
Definition exampleCategory (id : string) (parentId : option string) : Category.t :=
  Category.mk id id "expense" None None parentId 0.

(** An entry of the tree view without the category [id] among its
    subcategories. *)
Definition withoutSub (id : string) (entry : CategoryService.WithSubs)
  : CategoryService.WithSubs :=
  CategoryService.mkWithSubs (CategoryService.parent entry)
    (filter (λ c, Category.id c ≠ id) (CategoryService.subcategories entry)).

(** ** The balance rules in double precision *)

(** The balance that applying the effect of [transaction] leaves in a
    wallet row with id [wallet] and balance [balance]: the additions and
    subtractions of the balance rules, each rounded, in the order in which
    they are made (for the source of a transfer the amount first, then the
    fee). A destination is absent when [toWalletId] is falsy, a fee that is
    null, 0 or NaN counts as 0. *)
Definition appliedBalance (transaction : Real.Transaction.t) (wallet : string)
    (balance : float) : float :=
  let amount := Real.Transaction.amount transaction in
  let fee := Real.or_number (Real.Transaction.transferFee transaction) 0 in
  let source := bool_decide (wallet = Real.Transaction.walletId transaction) in
  let destination := bool_decide (Some wallet = Real.Transaction.toWalletId transaction) in
  if bool_decide (Real.Transaction.type transaction = "income") then
    if source then (balance + amount)%float else balance
  else if bool_decide (Real.Transaction.type transaction = "expense") then
    if source then (balance - amount)%float else balance
  else if bool_decide (Real.Transaction.type transaction = "transfer")
          && truthy_string (Real.Transaction.toWalletId transaction) then
    let debited := if source then (balance - amount - fee)%float else balance in
    if destination then (debited + amount)%float else debited
  else balance.

(** The same for reversing the effect: the opposite operation in each
    place, with the same operands in the same order. *)
Definition reversedBalance (transaction : Real.Transaction.t) (wallet : string)
    (balance : float) : float :=
  let amount := Real.Transaction.amount transaction in
  let fee := Real.or_number (Real.Transaction.transferFee transaction) 0 in
  let source := bool_decide (wallet = Real.Transaction.walletId transaction) in
  let destination := bool_decide (Some wallet = Real.Transaction.toWalletId transaction) in
  if bool_decide (Real.Transaction.type transaction = "income") then
    if source then (balance - amount)%float else balance
  else if bool_decide (Real.Transaction.type transaction = "expense") then
    if source then (balance + amount)%float else balance
  else if bool_decide (Real.Transaction.type transaction = "transfer")
          && truthy_string (Real.Transaction.toWalletId transaction) then
    let credited := if source then (balance + amount + fee)%float else balance in
    if destination then (credited - amount)%float else credited
  else balance.

(** The wallets whose rows the effect of [transaction] writes: the wallet
    of an income or an expense, the source and the destination of a transfer
    that has a destination, and no wallet otherwise. *)
Definition referenced (transaction : Real.Transaction.t) (wallet : string) : bool :=
  let source := bool_decide (wallet = Real.Transaction.walletId transaction) in
  let destination := bool_decide (Some wallet = Real.Transaction.toWalletId transaction) in
  if bool_decide (Real.Transaction.type transaction = "income")
     || bool_decide (Real.Transaction.type transaction = "expense") then source
  else if bool_decide (Real.Transaction.type transaction = "transfer")
          && truthy_string (Real.Transaction.toWalletId transaction) then
    source || destination
  else false.

(** The wallet row [w] with another balance and modification time, every
    other column as it is. *)
Definition withBalance (balance : float) (updatedAt : Date) (w : Real.Wallet.t)
  : Real.Wallet.t :=
  Real.Wallet.mk (Real.Wallet.id w) (Real.Wallet.name w) (Real.Wallet.type w) balance
    (Real.Wallet.currency w) (Real.Wallet.creditLimit w) (Real.Wallet.billingDate w)
    (Real.Wallet.dueDate w) (Real.Wallet.cashbackRate w) (Real.Wallet.icon w)
    (Real.Wallet.color w) (Real.Wallet.notes w) (Real.Wallet.isActive w)
    (Real.Wallet.createdAt w) updatedAt.

(** A wallet row after an effect written at [now]: a row that the effect
    writes gets the balance [newBalance] and the time of the write (in whole
    seconds), any other row is as it was. *)
Definition walletAfter (newBalance : string → float → float) (written : string → bool)
    (now : Date) (w : Real.Wallet.t) : Real.Wallet.t :=
  if written (Real.Wallet.id w)
  then withBalance (newBalance (Real.Wallet.id w) (Real.Wallet.balance w))
         (Real.asStored now) w
  else w.

(** Every balance that an effect writes in [db] is a number: the effect
    gives the balance [newBalance id balance] to the rows whose id is
    [written]. *)
Definition writable (newBalance : string → float → float) (written : string → bool)
    (db : Real.Db) : bool :=
  forallb (λ w, negb (written (Real.Wallet.id w)
                      && PrimFloat.is_nan
                           (newBalance (Real.Wallet.id w) (Real.Wallet.balance w))))
    (Real.wallets db).

(** The amount of [transaction] and the fee that counts for it are finite:
    neither NaN nor an infinity. *)
Definition finiteAmounts (transaction : Real.Transaction.t) : bool :=
  PrimFloat.is_finite (Real.Transaction.amount transaction)
  && PrimFloat.is_finite (Real.or_number (Real.Transaction.transferFee transaction) 0).

(** No balance in the wallet table is NaN, as the NOT NULL column has it. *)
Definition balancesAreNumbers (db : Real.Db) : bool :=
  forallb (λ w, negb (PrimFloat.is_nan (Real.Wallet.balance w))) (Real.wallets db).

(** No amount in the transaction table is NaN, as the NOT NULL column has
    it. *)
Definition amountsAreNumbers (db : Real.Db) : bool :=
  forallb (λ t, negb (PrimFloat.is_nan (Real.Transaction.amount t))) (Real.transactions db).

(** The error of a statement that would write a balance that is not a
    number. *)
Definition balanceRefused : exn :=
  ConstraintError "NOT NULL constraint failed: wallets.balance".

(** Every table but [wallets] is the same in [db] and [db']. *)
Definition otherRealTablesKept (db db' : Real.Db) : Prop :=
  Real.transactions db' = Real.transactions db
  ∧ Real.lendBorrow db' = Real.lendBorrow db
  ∧ Real.lendBorrowPayments db' = Real.lendBorrowPayments db
  ∧ Real.budgets db' = Real.budgets db
  ∧ Real.billReminders db' = Real.billReminders db.

(** The balances of the wallet table, row by row. *)
Definition realBalances (db : Real.Db) : list (string * float) :=
  (λ w, (Real.Wallet.id w, Real.Wallet.balance w)) <$> Real.wallets db.

(** *** The rule as the specification words it *)

(** The delta of section 4.1 of the specification for one wallet: income
    +amount, expense −amount, transfer −(amount + fee) on the source and
    +amount on the destination. *)
Definition statedDelta (transaction : Real.Transaction.t) (wallet : string) : float :=
  let amount := Real.Transaction.amount transaction in
  let fee := Real.or_number (Real.Transaction.transferFee transaction) 0 in
  let source := bool_decide (wallet = Real.Transaction.walletId transaction) in
  let destination := bool_decide (Some wallet = Real.Transaction.toWalletId transaction) in
  if bool_decide (Real.Transaction.type transaction = "income") then
    if source then amount else 0%float
  else if bool_decide (Real.Transaction.type transaction = "expense") then
    if source then (- amount)%float else 0%float
  else if bool_decide (Real.Transaction.type transaction = "transfer")
          && truthy_string (Real.Transaction.toWalletId transaction) then
    ((if source then - (amount + fee) else 0) + (if destination then amount else 0))%float
  else 0%float.

(** [apply(transaction, sign)] as stated: the balance of every wallet
    becomes its old balance plus the delta times the sign. *)
Definition movedAsStated (transaction : Real.Transaction.t) (sign : float)
    (w w' : Real.Wallet.t) : Prop :=
  Real.Wallet.balance w'
  = (Real.Wallet.balance w + sign * statedDelta transaction (Real.Wallet.id w))%float.

(** *** Examples in double precision *)

Definition realWallet (id : string) (balance : float) : Real.Wallet.t :=
  Real.Wallet.mk id id "bank" balance "INR" None None None None None None None true 0 0.

(** The example of the specification: wallets A = 1000 and B = 0. *)
Definition realExampleDb : Real.Db :=
  Real.mkDb [realWallet "A" 1000; realWallet "B" 0] [] [] [] [] [].

(** One wallet A with a given balance. *)
Definition realOneWallet (balance : float) : Real.Db :=
  Real.mkDb [realWallet "A" balance] [] [] [] [] [].

Definition realDraft (type : string) (amount : float) (wallet : string)
    (toWallet : option string) (fee : option (option float)) : Real.NewTransaction.t :=
  Real.NewTransaction.mk wallet type amount None None None toWallet fee None 1000000
    None None.

Definition realRow (type : string) (amount : float) (wallet : string)
    (toWallet : option string) (fee : option float) : Real.Transaction.t :=
  Real.Transaction.mk "t1" wallet type amount None None None toWallet fee None 1000000
    None None 1000000 1000000.

(** [{ walletId: wallet }]. *)
Definition realMoveToWallet (wallet : string) : Real.TransactionPatch.t :=
  Real.TransactionPatch.mk (Some wallet) None None None None None None None None None
    None None None.

(** [{ walletId, type, amount, toWalletId, transferFee }]. *)
Definition realRewrite (wallet type : string) (amount : float) (toWallet : option string)
    (fee : option float) : Real.TransactionPatch.t :=
  Real.TransactionPatch.mk (Some wallet) (Some type) (Some amount) None None None
    (Some toWallet) (Some fee) None None None None None.

(** * Properties *)

(** ** Generic facts on tables and on the monad *)

Lemma Forall2_fmap_self {A B : Type} (R : A → B → Prop) (f : A → B) (l : list A) :
  (∀ x, R x (f x)) → Forall2 R l (f <$> l).
Proof. intros HR. induction l as [|x l IH]; constructor; auto. Qed.

Lemma Forall2_self {A : Type} (R : A → A → Prop) (l : list A) :
  (∀ x, R x x) → Forall2 R l l.
Proof. intros HR. induction l as [|x l IH]; constructor; auto. Qed.

Lemma or_number_default (o : option Z) : or_number o 0 = default 0 o.
Proof.
  destruct o as [x|]; simpl; [|reflexivity].
  case_bool_decide; congruence.
Qed.

Lemma bind_Ok {A B : Type} (m : M A) (f : A → M B) (db db' : Db) (a : A) :
  m db = (Ok a, db') → (m ≫= f) db = f a db'.
Proof. intros H. unfold mbind, M_bind. by rewrite H. Qed.

Lemma run_pair {A : Type} (m : M A) (db : Db) (a : A) :
  (m db).1 = Ok a → m db = (Ok a, (m db).2).
Proof. destruct (m db); simpl; congruence. Qed.

Section TableFacts.
Context {Row : Type} (key : Row → string).

Lemma updateById_compose (i j : string) (f g : Row → Row) (tbl : list Row) :
  updateById key j g (updateById key i f tbl)
  = (λ r, let r' := if decide (key r = i) then f r else r in
          if decide (key r' = j) then g r' else r') <$> tbl.
Proof. unfold updateById. rewrite <- list_fmap_compose. reflexivity. Qed.

End TableFacts.

(** ** The balance mutator *)

Lemma setBalance_moved (t : Transaction.t) (sign : Z) (f : Z → Z) (now : Date) (w : Wallet.t) :
  f (Wallet.balance w) = Wallet.balance w + balanceDelta t sign (Wallet.id w) →
  (Wallet.id w = Transaction.walletId t ∨ Some (Wallet.id w) = Transaction.toWalletId t) →
  walletMoved t sign w (TransactionService.setBalance f now w).
Proof.
  intros Hf Href. split; [reflexivity|]. split; [exact Hf|].
  intros H1 H2. destruct Href; contradiction.
Qed.

Lemma unmoved (t : Transaction.t) (sign : Z) (w : Wallet.t) :
  balanceDelta t sign (Wallet.id w) = 0 → walletMoved t sign w w.
Proof.
  intros H0. split; [by destruct w|]. split; [lia|]. reflexivity.
Qed.

Lemma truthy_string_Some (o : option string) :
  truthy_string o = true → ∃ s, o = Some s ∧ s ≠ "".
Proof.
  destruct o as [s|]; simpl; [|discriminate].
  intros H%bool_decide_eq_true. eauto.
Qed.

(** The three branches that [updateWalletBalance] and
    [reverseWalletBalance] share, for any four updates of a balance that
    add or subtract what the rules say for [sign]. *)
Lemma branches_move (sign : Z) (income expense source destination : Z → Z)
    (now : Date) (t : Transaction.t) (db : Db) :
  (∀ b, income b = b + Transaction.amount t * sign) →
  (∀ b, expense b = b - Transaction.amount t * sign) →
  (∀ b, source b
        = b - (Transaction.amount t + default 0 (Transaction.transferFee t)) * sign) →
  (∀ b, destination b = b + Transaction.amount t * sign) →
  Forall2 (walletMoved t sign) (wallets db)
    (wallets
       ((if bool_decide (Transaction.type t = "income") then
           TransactionService.updateBalance (Transaction.walletId t) income now
         else if bool_decide (Transaction.type t = "expense") then
           TransactionService.updateBalance (Transaction.walletId t) expense now
         else if bool_decide (Transaction.type t = "transfer")
                 && truthy_string (Transaction.toWalletId t) then
           TransactionService.updateBalance (Transaction.walletId t) source now ;;
           TransactionService.updateBalance (default "" (Transaction.toWalletId t))
             destination now
         else mret tt) db).2).
Proof.
  intros Hincome Hexpense Hsource Hdestination.
  destruct (bool_decide_reflect (Transaction.type t = "income")) as [Hi|Hi].
  { apply Forall2_fmap_self. intros w. destruct (decide _) as [Hw|Hw].
    - apply setBalance_moved; [|by left].
      unfold balanceDelta. rewrite !bool_decide_eq_true_2 by done. apply Hincome.
    - apply unmoved. unfold balanceDelta.
      rewrite bool_decide_eq_true_2 by done.
      rewrite (bool_decide_eq_false_2 _ Hw). reflexivity. }
  destruct (bool_decide_reflect (Transaction.type t = "expense")) as [He|He].
  { apply Forall2_fmap_self. intros w. destruct (decide _) as [Hw|Hw].
    - apply setBalance_moved; [|by left].
      unfold balanceDelta. rewrite (bool_decide_eq_false_2 _ Hi).
      rewrite !bool_decide_eq_true_2 by done. rewrite Hexpense. lia.
    - apply unmoved. unfold balanceDelta. rewrite (bool_decide_eq_false_2 _ Hi).
      rewrite bool_decide_eq_true_2 by done.
      rewrite (bool_decide_eq_false_2 _ Hw). reflexivity. }
  destruct (bool_decide_reflect (Transaction.type t = "transfer")) as [Ht|Ht]; simpl.
  2:{ apply Forall2_self. intros w. apply unmoved.
      unfold balanceDelta.
      rewrite (bool_decide_eq_false_2 _ Hi), (bool_decide_eq_false_2 _ He),
        (bool_decide_eq_false_2 _ Ht). reflexivity. }
  destruct (truthy_string (Transaction.toWalletId t)) eqn:Hto; simpl.
  2:{ apply Forall2_self. intros w. apply unmoved.
      unfold balanceDelta.
      rewrite (bool_decide_eq_false_2 _ Hi), (bool_decide_eq_false_2 _ He),
        (bool_decide_eq_true_2 _ Ht), Hto. reflexivity. }
  destruct (truthy_string_Some _ Hto) as (dst & Hdst & Hne).
  cbv [mbind M_bind TransactionService.updateBalance modify set_wallets wallets].
  rewrite updateById_compose. apply Forall2_fmap_self. intros w.
  assert (Hd : balanceDelta t sign (Wallet.id w)
     = (if bool_decide (Wallet.id w = Transaction.walletId t)
        then - (Transaction.amount t + default 0 (Transaction.transferFee t)) * sign else 0)
       + (if bool_decide (Wallet.id w = dst) then Transaction.amount t * sign else 0)).
  { unfold balanceDelta.
    rewrite (bool_decide_eq_false_2 _ Hi), (bool_decide_eq_false_2 _ He),
      (bool_decide_eq_true_2 _ Ht), Hto, Hdst.
    f_equal. apply (f_equal (λ b : bool, if b then _ else _)).
    apply bool_decide_ext. split; congruence. }
  rewrite Hdst. simpl.
  destruct (decide (Wallet.id w = Transaction.walletId t)) as [Hs|Hs]; simpl;
    destruct (decide (Wallet.id w = dst)) as [Hd'|Hd'].
  - split; [reflexivity|]. split; [|intros; contradiction].
    simpl. rewrite Hd, Hdestination, Hsource.
    rewrite !bool_decide_eq_true_2 by done. lia.
  - apply setBalance_moved; [|by left].
    rewrite Hd, Hsource.
    rewrite bool_decide_eq_true_2, bool_decide_eq_false_2 by done. lia.
  - apply setBalance_moved; [|right; congruence].
    rewrite Hd, Hdestination.
    rewrite bool_decide_eq_false_2, bool_decide_eq_true_2 by done. lia.
  - apply unmoved. rewrite Hd.
    rewrite !bool_decide_eq_false_2 by done. lia.
Qed.

Lemma updateWalletBalance_moves (now : Date) (t : Transaction.t) (db : Db) :
  Forall2 (walletMoved t 1) (wallets db)
          (wallets (TransactionService.updateWalletBalance now t db).2).
Proof.
  unfold TransactionService.updateWalletBalance.
  apply branches_move; intros b; rewrite ?or_number_default; lia.
Qed.

Lemma updateWalletBalance_ok (now : Date) (t : Transaction.t) (db : Db) :
  (TransactionService.updateWalletBalance now t db).1 = Ok tt
  ∧ otherTablesKept db (TransactionService.updateWalletBalance now t db).2.
Proof.
  unfold TransactionService.updateWalletBalance, otherTablesKept.
  repeat case_bool_decide; simpl;
    try destruct (truthy_string _); simpl; repeat split; reflexivity.
Qed.

Lemma reverseWalletBalance_ok (now : Date) (t : Transaction.t) (db : Db) :
  (TransactionService.reverseWalletBalance now t db).1 = Ok tt
  ∧ otherTablesKept db (TransactionService.reverseWalletBalance now t db).2.
Proof.
  unfold TransactionService.reverseWalletBalance, otherTablesKept.
  repeat case_bool_decide; simpl;
    try destruct (truthy_string _); simpl; repeat split; reflexivity.
Qed.

(** ** Create, update and delete *)

Section SelectFacts.
Context {Row : Type} (key : Row → string).

Lemma selectById_None (i : string) (tbl : list Row) :
  selectById key i tbl = None ↔ Forall (λ r, key r ≠ i) tbl.
Proof.
  unfold selectById. induction tbl as [|r tbl IH]; simpl.
  - split; [constructor|reflexivity].
  - rewrite filter_cons. destruct (decide (key r = i)) as [He|He]; simpl.
    + split; [discriminate|]. intros H. inversion H; contradiction.
    + rewrite IH. split; [by constructor|]. intros H. by inversion H.
Qed.

Lemma selectById_Some (i : string) (tbl : list Row) (r : Row) :
  selectById key i tbl = Some r → key r = i ∧ r ∈ tbl.
Proof.
  unfold selectById. intros H.
  assert (Hin : r ∈ filter (λ r, key r = i) tbl).
  { destruct (filter _ tbl); simplify_eq/=. left. }
  by apply list_elem_of_filter in Hin as [? ?].
Qed.

Lemma selectById_app_fresh (i : string) (tbl : list Row) (r : Row) :
  selectById key i tbl = None → key r = i →
  selectById key i (tbl ++ [r])%list = Some r.
Proof.
  intros Hn Hk. unfold selectById in *. rewrite filter_app.
  destruct (filter _ tbl); [|discriminate]. simpl.
  rewrite filter_cons. destruct (decide _); [reflexivity|contradiction].
Qed.

Lemma deleteById_app_fresh (i : string) (tbl : list Row) (r : Row) :
  selectById key i tbl = None → key r = i →
  deleteById key i (tbl ++ [r])%list = tbl.
Proof.
  intros Hn%selectById_None Hk. unfold deleteById. rewrite filter_app.
  rewrite filter_cons, decide_False by (intros H; by apply H).
  rewrite filter_nil, app_nil_r.
  induction Hn as [|x l Hx Hl IH]; [reflexivity|].
  rewrite filter_cons, decide_True by done. by rewrite IH.
Qed.

Lemma updateById_absent (i : string) (f : Row → Row) (tbl : list Row) :
  selectById key i tbl = None → updateById key i f tbl = tbl.
Proof.
  intros Hn%selectById_None. unfold updateById.
  induction Hn as [|x l Hx Hl IH]; [reflexivity|].
  rewrite fmap_cons, decide_False by done. by rewrite IH.
Qed.

End SelectFacts.


Section UpdateFacts.
Context {Row : Type} (key : Row → string).

Lemma selectById_updateById (i : string) (f : Row → Row) (tbl : list Row) (r : Row) :
  (∀ x, key (f x) = key x) →
  selectById key i tbl = Some r →
  selectById key i (updateById key i f tbl) = Some (f r).
Proof.
  intros Hf. unfold selectById, updateById.
  induction tbl as [|x tbl IH]; simpl; [discriminate|].
  rewrite !filter_cons. destruct (decide (key x = i)) as [Hx|Hx].
  - rewrite decide_True by (by rewrite Hf). simpl. congruence.
  - rewrite decide_False by done. exact IH.
Qed.

End UpdateFacts.

Lemma sameButBalance_id (w w' : Wallet.t) :
  sameButBalance w w' → Wallet.id w' = Wallet.id w.
Proof. intros ->. reflexivity. Qed.


Lemma update_missing (id : string) (data : TransactionPatch.t) (now : Date) (db : Db) :
  selectById Transaction.id id (transactions db) = None →
  TransactionService.update id data now db
  = (Throw (TypeError "Cannot read properties of undefined (reading 'type')"), db).
Proof.
  intros Hnone. unfold TransactionService.update.
  erewrite bind_Ok with (a := None) (db' := db);
    [|unfold TransactionService.getById, gets; by rewrite Hnone].
  erewrite bind_Ok; [|reflexivity].
  erewrite bind_Ok with (a := None) (db' := db); [reflexivity|].
  unfold TransactionService.updateReturning.
  erewrite bind_Ok with (db' := db).
  - unfold gets. by rewrite Hnone.
  - unfold modify. f_equal. destruct db as [ws ts ls ps bs rs].
    unfold set_transactions. simpl in *. by rewrite updateById_absent.
Qed.

(** C4 (as the code has it). [update] on an id that no transaction has
    applies no patch and leaves every table as it was, but the exception
    it raises is the TypeError of reading [type] on the undefined updated
    row, not a not-found error; on the example database,
    [update("missing", {})] does so. *)
Theorem update_missing_id_throws_TypeError :
  (∀ (id : string) (data : TransactionPatch.t) (now : Date) (db : Db),
     selectById Transaction.id id (transactions db) = None →
     TransactionService.update id data now db
     = (Throw (TypeError "Cannot read properties of undefined (reading 'type')"), db))
  ∧ TransactionService.update "missing" TransactionPatch.empty 2000 exampleDb
    = (Throw (TypeError "Cannot read properties of undefined (reading 'type')"),
       exampleDb).
Proof.
  split; [exact update_missing|]. by apply update_missing.
Qed.

(** ** The debt tracker *)

Ltac run_M :=
  cbv beta delta [mbind M_bind mret M_ret gets modify throw] iota.


Lemma lendBorrow_patchRow_id (data : LendBorrowPatch.t) (now : Date) (r : LendBorrow.t) :
  LendBorrow.id (LendBorrowService.patchRow data now r) = LendBorrow.id r.
Proof. reflexivity. Qed.

Lemma addPayment_existing (lendBorrowId paymentId : string) (now : Date)
    (payment : NewPayment.t) (db : Db) (record : LendBorrow.t) :
  selectById LendBorrow.id lendBorrowId (lendBorrow db) = Some record →
  selectById Payment.id paymentId (lendBorrowPayments db) = None →
  let row := Payment.mk paymentId lendBorrowId (NewPayment.amount payment)
               (NewPayment.paymentDate payment) (NewPayment.notes payment)
               (NewPayment.transactionId payment) now in
  let difference := LendBorrow.remainingAmount record - NewPayment.amount payment in
  let status :=
    if bool_decide (difference ≤ 0) then "completed"
    else if bool_decide (difference < LendBorrow.amount record) then "partial"
    else LendBorrow.status record in
  let patch := LendBorrowService.remainingAndStatus (Z.max 0 difference) status in
  LendBorrowService.addPayment lendBorrowId paymentId now payment db
  = (Ok row,
     set_lendBorrow (updateById LendBorrow.id lendBorrowId
                       (LendBorrowService.patchRow patch now))
       (set_lendBorrowPayments (λ _, (lendBorrowPayments db ++ [row])%list) db)).
Proof.
  intros Hrec Hfresh row difference status patch.
  unfold LendBorrowService.addPayment, LendBorrowService.getById,
    LendBorrowService.update, insertRow.
  run_M. rewrite Hrec. simpl. rewrite Hfresh. reflexivity.
Qed.








Lemma selectById_deleteById {Row : Type} (key : Row → string) (i : string) (tbl : list Row) :
  selectById key i (deleteById key i tbl) = None.
Proof.
  apply selectById_None, Forall_forall. unfold deleteById.
  by intros r [? _]%list_elem_of_filter.
Qed.



Lemma create_returns (id : string) (now : Date) (record : NewLendBorrow.t) (db : Db) :
  selectById LendBorrow.id id (lendBorrow db) = None →
  LendBorrowService.create id now record db
  = (Ok (LendBorrowService.newRow id now record),
     set_lendBorrow (λ _, (lendBorrow db ++ [LendBorrowService.newRow id now record])%list) db).
Proof.
  intros Hfresh. unfold LendBorrowService.create, insertRow.
  change (LendBorrow.id (LendBorrowService.newRow id now record)) with id.
  by rewrite Hfresh.
Qed.

Lemma create_row (id : string) (now : Date) (record : NewLendBorrow.t) (db db' : Db)
    (row : LendBorrow.t) :
  LendBorrowService.create id now record db = (Ok row, db') →
  row = LendBorrowService.newRow id now record.
Proof.
  unfold LendBorrowService.create. destruct (insertRow _ _ _); congruence.
Qed.

(** C9 (as amended). A create request that supplies a remaining amount of
    0 gets a record whose remaining amount is the amount: the zero is
    falsy and the default replaces it. Hence no record with a non-zero
    amount is created with a remaining amount of 0. That state is reached
    afterwards: by a payment of at least the remaining amount
    ([addPayment]), and by [update], which writes the remaining amount of 0
    that it is given, whether payments were made or not. *)
Theorem create_replaces_zero_remaining :
  (∀ (id : string) (now : Date) (record : NewLendBorrow.t) (db : Db),
     NewLendBorrow.remainingAmount record = Some 0 →
     selectById LendBorrow.id id (lendBorrow db) = None →
     ∃ row db',
       LendBorrowService.create id now record db = (Ok row, db')
       ∧ selectById LendBorrow.id id (lendBorrow db') = Some row
       ∧ LendBorrow.remainingAmount row = NewLendBorrow.amount record)
  ∧ (∀ (id : string) (now : Date) (record : NewLendBorrow.t) (db db' : Db)
       (row : LendBorrow.t),
       LendBorrowService.create id now record db = (Ok row, db') →
       NewLendBorrow.amount record ≠ 0 →
       LendBorrow.remainingAmount row ≠ 0)
  ∧ (∀ (lendBorrowId paymentId : string) (now : Date) (payment : NewPayment.t)
       (db : Db) (record : LendBorrow.t),
       selectById LendBorrow.id lendBorrowId (lendBorrow db) = Some record →
       selectById Payment.id paymentId (lendBorrowPayments db) = None →
       LendBorrow.remainingAmount record ≤ NewPayment.amount payment →
       ∃ row db' record',
         LendBorrowService.addPayment lendBorrowId paymentId now payment db = (Ok row, db')
         ∧ selectById LendBorrow.id lendBorrowId (lendBorrow db') = Some record'
         ∧ LendBorrow.remainingAmount record' = 0
         ∧ LendBorrow.status record' = "completed")
  ∧ (∀ (id : string) (data : LendBorrowPatch.t) (now : Date) (db : Db)
       (record : LendBorrow.t),
       selectById LendBorrow.id id (lendBorrow db) = Some record →
       LendBorrowPatch.remainingAmount data = Some 0 →
       ∃ updated db',
         LendBorrowService.update id data now db = (Ok (Some updated), db')
         ∧ selectById LendBorrow.id id (lendBorrow db') = Some updated
         ∧ LendBorrow.remainingAmount updated = 0
         ∧ lendBorrowPayments db' = lendBorrowPayments db).
Proof.
  split; [|split; [|split]].
  - intros id now record db Hzero Hfresh. eexists _, _.
    split; [by apply create_returns|]. split.
    + simpl. by apply selectById_app_fresh.
    + simpl. by rewrite Hzero.
  - intros id now record db db' row Hrun Hamount.
    rewrite (create_row _ _ _ _ _ _ Hrun). simpl. unfold or_number.
    destruct (NewLendBorrow.remainingAmount record) as [r|]; [|done].
    by case_bool_decide.
  - intros lendBorrowId paymentId now payment db record Hrec Hfresh Hpaid.
    eexists _, _, _. split; [by apply addPayment_existing|].
    split; [apply selectById_updateById; [apply lendBorrow_patchRow_id|exact Hrec]|].
    simpl. rewrite bool_decide_eq_true_2 by lia. split; [lia|reflexivity].
  - intros id data now db record Hrec Hzero.
    eexists _, _. split.
    + unfold LendBorrowService.update. erewrite bind_Ok; [|reflexivity].
      unfold gets. simpl. f_equal. f_equal.
      apply selectById_updateById; [apply lendBorrow_patchRow_id|exact Hrec].
    + split; [simpl; apply selectById_updateById;
              [apply lendBorrow_patchRow_id|exact Hrec]|].
      simpl. by rewrite Hzero.
Qed.

(** C9, on a loan of 5000 created with a remaining amount of 0. *)
Lemma create_replaces_zero_remaining_witness :
  NewLendBorrow.remainingAmount (exampleLoan 5000 (Some 0)) = Some 0
  ∧ selectById LendBorrow.id "L" (lendBorrow emptyDb) = None
  ∧ ∃ row db',
      LendBorrowService.create "L" 0 (exampleLoan 5000 (Some 0)) emptyDb = (Ok row, db')
      ∧ LendBorrow.remainingAmount row = 5000.
Proof.
  split; [reflexivity|]. split; [reflexivity|].
  destruct (proj1 create_replaces_zero_remaining "L" 0 (exampleLoan 5000 (Some 0))
              emptyDb eq_refl eq_refl) as (row & db' & Hrun & _ & Hrem).
  exists row, db'. split; [exact Hrun|exact Hrem].
Defined.

(** C9 as stated fails twice. For an amount of 0 the record is created
    with a remaining amount of 0. And a remaining amount of 0 is reached
    without any payment: [update] writes it on the loan of 5000 that holds
    no payment. *)
Lemma zero_remaining_counterexample :
  (∃ row db',
     LendBorrowService.create "L" 0 (exampleLoan 0 (Some 0)) emptyDb = (Ok row, db')
     ∧ NewLendBorrow.remainingAmount (exampleLoan 0 (Some 0)) = Some 0
     ∧ LendBorrow.remainingAmount row = 0
     ∧ debtState "L" db' = Some (0, "pending"))
  ∧ (let db0 := (LendBorrowService.create "L" 0 (exampleLoan 5000 (Some 0)) emptyDb).2 in
     let updated :=
       LendBorrowService.update "L"
         (LendBorrowPatch.mk None None None (Some 0) None None None None None None)
         10 db0 in
     debtState "L" db0 = Some (5000, "pending")
     ∧ (∃ row, updated.1 = Ok (Some row) ∧ LendBorrow.remainingAmount row = 0)
     ∧ lendBorrowPayments updated.2 = []
     ∧ debtState "L" updated.2 = Some (0, "pending")).
Proof.
  split; [eexists _, _; by repeat split|].
  split; [reflexivity|]. split; [eexists; split; reflexivity|]. by split.
Qed.

(** ** The budget upsert *)

Lemma filter_updateById {Row : Type} (key : Row → string) (P : Row → Prop)
    `{!∀ r, Decision (P r)} (i : string) (f : Row → Row) (tbl : list Row) :
  (∀ r, P (f r) ↔ P r) →
  filter P (updateById key i f tbl) = updateById key i f (filter P tbl).
Proof.
  intros Hf. unfold updateById. induction tbl as [|r tbl IH]; [reflexivity|].
  rewrite fmap_cons, !filter_cons.
  destruct (decide (key r = i)) as [Hk|Hk].
  - destruct (decide (P r)) as [Hp|Hp].
    + rewrite decide_True by (by apply Hf).
      rewrite fmap_cons, decide_True by done. by rewrite IH.
    + rewrite decide_False by (by rewrite Hf). exact IH.
  - destruct (decide (P r)) as [Hp|Hp].
    + rewrite fmap_cons, decide_False by done. by rewrite IH.
    + exact IH.
Qed.

Lemma onlyAmount_keeps_period (categoryId : string) (month year amount : Z)
    (now : Date) (b : Budget.t) :
  BudgetService.inCategoryAndPeriod categoryId month year
    (BudgetService.patchRow (BudgetService.onlyAmount amount) now b)
  ↔ BudgetService.inCategoryAndPeriod categoryId month year b.
Proof. reflexivity. Qed.

(** One call: whatever the table held for the period (nothing or one
    row), it holds one row afterwards, with the amount of the call. *)
Lemma upsertBudget_once (categoryId : string) (amount month year : Z) (id : string)
    (now : Date) (db : Db) :
  (length (filter (BudgetService.inCategoryAndPeriod categoryId month year) (budgets db))
   ≤ 1)%nat →
  (filter (BudgetService.inCategoryAndPeriod categoryId month year) (budgets db) = [] →
   selectById Budget.id id (budgets db) = None) →
  ∃ returned db' b,
    BudgetService.upsertBudget categoryId amount month year id now db = (Ok returned, db')
    ∧ filter (BudgetService.inCategoryAndPeriod categoryId month year) (budgets db') = [b]
    ∧ Budget.amount b = amount
    ∧ length (budgets db')
      = (length (budgets db)
         + (if filter (BudgetService.inCategoryAndPeriod categoryId month year) (budgets db)
            is [] then 1 else 0))%nat.
Proof.
  intros Hone Hfresh.
  unfold BudgetService.upsertBudget, BudgetService.getByCategoryAndPeriod.
  destruct (filter _ (budgets db)) as [|b [|b' rest]] eqn:Hfilter.
  - specialize (Hfresh eq_refl).
    eexists _, _, _. split; [|split; [|split]].
    + erewrite bind_Ok; [|unfold gets; cbv beta; by rewrite Hfilter].
      simpl. erewrite bind_Ok; [reflexivity|].
      unfold BudgetService.create, insertRow.
      change (Budget.id (BudgetService.newRow id now ?d)) with id.
      by rewrite Hfresh.
    + simpl. rewrite filter_app, Hfilter, filter_cons, decide_True by done.
      reflexivity.
    + reflexivity.
    + simpl. by rewrite length_app.
  - eexists _, _, _. split; [|split; [|split]].
    + erewrite bind_Ok; [|unfold gets; cbv beta; by rewrite Hfilter].
      simpl. reflexivity.
    + simpl. rewrite filter_updateById by apply onlyAmount_keeps_period.
      rewrite Hfilter. unfold updateById. rewrite fmap_cons, decide_True by done.
      reflexivity.
    + reflexivity.
    + simpl. unfold updateById. rewrite length_fmap. lia.
  - simpl in Hone. lia.
Qed.

(** C8 (as amended). In a table that holds at most one budget row for a
    category and period (and with a fresh id for the row that the first
    call may have to insert), two calls of [upsertBudget] for that category
    and period both succeed and leave exactly one row for them, which
    carries the amount of the second call; the second call inserts
    nothing. *)
Theorem upsertBudget_twice_one_row
    (categoryId : string) (month year amount1 amount2 : Z) (id1 id2 : string)
    (now1 now2 : Date) (db : Db) :
  (length (filter (BudgetService.inCategoryAndPeriod categoryId month year) (budgets db))
   ≤ 1)%nat →
  (filter (BudgetService.inCategoryAndPeriod categoryId month year) (budgets db) = [] →
   selectById Budget.id id1 (budgets db) = None) →
  ∃ returned1 db1 returned2 db2 b,
    BudgetService.upsertBudget categoryId amount1 month year id1 now1 db
    = (Ok returned1, db1)
    ∧ BudgetService.upsertBudget categoryId amount2 month year id2 now2 db1
      = (Ok returned2, db2)
    ∧ filter (BudgetService.inCategoryAndPeriod categoryId month year) (budgets db2) = [b]
    ∧ Budget.amount b = amount2
    ∧ length (budgets db2) = length (budgets db1).
Proof.
  intros Hone Hfresh.
  destruct (upsertBudget_once categoryId amount1 month year id1 now1 db Hone Hfresh)
    as (r1 & db1 & b1 & Hrun1 & Hf1 & _ & _).
  destruct (upsertBudget_once categoryId amount2 month year id2 now2 db1)
    as (r2 & db2 & b2 & Hrun2 & Hf2 & Ha2 & Hlen).
  { rewrite Hf1. simpl. lia. }
  { rewrite Hf1. discriminate. }
  exists r1, db1, r2, db2, b2. repeat split; try assumption.
  rewrite Hlen, Hf1. lia.
Qed.

(** C8, on an empty table: a budget of 10000 and then of 12000 for the
    category food in March 2024 leaves one row, of 12000. *)
Lemma upsertBudget_twice_one_row_witness :
  ∃ returned1 db1 returned2 db2 b,
    BudgetService.upsertBudget "food" 10000 3 2024 "b1" 10 emptyDb = (Ok returned1, db1)
    ∧ BudgetService.upsertBudget "food" 12000 3 2024 "b2" 20 db1 = (Ok returned2, db2)
    ∧ filter (BudgetService.inCategoryAndPeriod "food" 3 2024) (budgets db2) = [b]
    ∧ Budget.amount b = 12000
    ∧ length (budgets db2) = length (budgets db1).
Proof.
  apply (upsertBudget_twice_one_row "food" 3 2024 10000 12000 "b1" "b2" 10 20 emptyDb).
  - simpl. lia.
  - reflexivity.
Defined.

(** C8 as the specification states it fails on a table that holds two
    rows for the category and period, as two calls of [create] leave it (no
    unique index guards the period): both calls of [upsertBudget] update
    the first of the two rows, and two rows remain. *)
Lemma upsertBudget_two_rows_counterexample :
  let draft := λ amount, NewBudget.mk "food" amount "monthly" (Some 3) (Some 2024) in
  let created1 := BudgetService.create "b1" 1 (draft 5000) emptyDb in
  let created2 := BudgetService.create "b2" 2 (draft 6000) created1.2 in
  let upserted1 := BudgetService.upsertBudget "food" 10000 3 2024 "b3" 10 created2.2 in
  let upserted2 := BudgetService.upsertBudget "food" 12000 3 2024 "b4" 20 upserted1.2 in
  let rows := λ db,
    (λ b, (Budget.id b, Budget.amount b))
      <$> filter (BudgetService.inCategoryAndPeriod "food" 3 2024) (budgets db) in
  created1.1 = Ok (BudgetService.newRow "b1" 1 (draft 5000))
  ∧ created2.1 = Ok (BudgetService.newRow "b2" 2 (draft 6000))
  ∧ rows created2.2 = [("b1", 5000); ("b2", 6000)]
  ∧ (∃ updated, upserted1.1 = Ok (Some updated) ∧ Budget.id updated = "b1")
  ∧ rows upserted1.2 = [("b1", 10000); ("b2", 6000)]
  ∧ (∃ updated, upserted2.1 = Ok (Some updated) ∧ Budget.id updated = "b1")
  ∧ rows upserted2.2 = [("b1", 12000); ("b2", 6000)]
  ∧ length (filter (BudgetService.inCategoryAndPeriod "food" 3 2024) (budgets upserted2.2))
    = 2%nat.
Proof.
  intros draft created1 created2 upserted1 upserted2 rows.
  split; [reflexivity|]. split; [reflexivity|]. split; [reflexivity|].
  split; [eexists; split; reflexivity|]. split; [reflexivity|].
  split; [eexists; split; reflexivity|]. split; reflexivity.
Qed.

(** The invariant of the data model, at most one budget row for every
    category and period, is kept by every successful [upsertBudget]. *)
Lemma upsertBudget_keeps_one_row_per_period
    (categoryId : string) (amount month year : Z) (id : string) (now : Date)
    (db db' : Db) (returned : option Budget.t) :
  (∀ c m y, (length (filter (BudgetService.inCategoryAndPeriod c m y) (budgets db))
             ≤ 1)%nat) →
  BudgetService.upsertBudget categoryId amount month year id now db = (Ok returned, db') →
  ∀ c m y, (length (filter (BudgetService.inCategoryAndPeriod c m y) (budgets db'))
            ≤ 1)%nat.
Proof.
  intros Hinv Hrun c m y.
  unfold BudgetService.upsertBudget, BudgetService.getByCategoryAndPeriod in Hrun.
  destruct (filter (BudgetService.inCategoryAndPeriod categoryId month year) (budgets db))
    as [|b rest] eqn:Hfilter.
  - erewrite bind_Ok in Hrun; [|unfold gets; cbv beta; by rewrite Hfilter].
    simpl in Hrun. unfold mbind, M_bind, BudgetService.create in Hrun.
    destruct (insertRow _ _ _) as [tbl|e] eqn:Hinsert; [|discriminate].
    unfold insertRow in Hinsert. destruct (selectById _ _ _); [discriminate|].
    unfold mret, M_ret in Hrun. simplify_eq/=.
    rewrite filter_app, length_app, filter_cons.
    destruct (decide _) as [Hnew|Hnew]; simpl; [|specialize (Hinv c m y); lia].
    destruct Hnew as (Hc & Hm & Hy). simpl in Hc, Hm, Hy. simplify_eq.
    rewrite Hfilter. simpl. lia.
  - erewrite bind_Ok in Hrun; [|unfold gets; cbv beta; by rewrite Hfilter].
    simpl in Hrun. unfold BudgetService.update in Hrun.
    erewrite bind_Ok in Hrun; [|reflexivity]. unfold gets in Hrun.
    simplify_eq/=. rewrite filter_updateById by apply onlyAmount_keeps_period.
    unfold updateById. rewrite length_fmap. apply Hinv.
Qed.

(** ** Recurring bill reminders *)

Lemma selectById_updateById_fresh {Row : Type} (key : Row → string) (i j : string)
    (f : Row → Row) (tbl : list Row) :
  (∀ x, key (f x) = key x) →
  selectById key j tbl = None →
  selectById key j (updateById key i f tbl) = None.
Proof.
  intros Hf Hnone. unfold selectById in *.
  rewrite filter_updateById by (intros r; by rewrite Hf).
  by destruct (filter _ tbl).
Qed.

Lemma billReminder_patchRow_id (data : BillReminderPatch.t) (now : Date)
    (r : BillReminder.t) :
  BillReminder.id (BillReminderService.patchRow data now r) = BillReminder.id r.
Proof. reflexivity. Qed.

Lemma markAsPaid_missing (tza : Z) (id : string) (transactionId : option string)
    (newId : string) (now : Date) (db : Db) :
  selectById BillReminder.id id (billReminders db) = None →
  BillReminderService.markAsPaid tza id transactionId newId now db
  = (Throw (Error "Bill reminder not found"), db).
Proof.
  intros Hnone. unfold BillReminderService.markAsPaid, BillReminderService.getById.
  run_M. by rewrite Hnone.
Qed.

Lemma createNextRecurring_unrecognized (tza : Z) (id : string) (now : Date)
    (reminder : BillReminder.t) (db : Db) :
  BillReminder.frequency reminder ≠ Some "monthly" →
  BillReminder.frequency reminder ≠ Some "yearly" →
  BillReminderService.createNextRecurring tza id now reminder db = (Ok None, db).
Proof.
  intros Hm Hy. unfold BillReminderService.createNextRecurring,
    BillReminderService.nextDueDate.
  rewrite !bool_decide_eq_false_2 by done.
  by destruct (negb _ || negb _).
Qed.

Lemma recognized_truthy (frequency : option string) :
  frequency = Some "monthly" ∨ frequency = Some "yearly" →
  truthy_string frequency = true.
Proof. intros [-> | ->]; reflexivity. Qed.

Lemma recognized_nextDueDate (tza : Z) (reminder : BillReminder.t) :
  BillReminder.frequency reminder = Some "monthly"
  ∨ BillReminder.frequency reminder = Some "yearly" →
  ∃ next, BillReminderService.nextDueDate tza reminder = Some next.
Proof.
  unfold BillReminderService.nextDueDate. intros [-> | ->]; simpl; eauto.
Qed.

(** One call of [markAsPaid] on a recurring reminder with a recognized
    frequency, paid already or not. *)
Lemma markAsPaid_recurring (tza : Z) (id : string) (transactionId : option string)
    (newId : string) (now : Date) (db : Db) (reminder : BillReminder.t) (next : Date) :
  selectById BillReminder.id id (billReminders db) = Some reminder →
  BillReminder.isRecurring reminder = true →
  BillReminder.frequency reminder = Some "monthly"
  ∨ BillReminder.frequency reminder = Some "yearly" →
  BillReminderService.nextDueDate tza reminder = Some next →
  selectById BillReminder.id newId (billReminders db) = None →
  let paid := BillReminderService.patchRow
                (BillReminderService.paidAndTransaction true (or_null transactionId)) now in
  BillReminderService.markAsPaid tza id transactionId newId now db
  = (Ok (Some (paid reminder)),
     set_billReminders
       (λ _, (updateById BillReminder.id id paid (billReminders db)
              ++ [successorRow newId now reminder next])%list) db).
Proof.
  intros Hrec Hrecurring Hfreq Hnext Hfresh paid.
  unfold BillReminderService.markAsPaid.
  erewrite bind_Ok with (a := Some reminder) (db' := db);
    [|unfold BillReminderService.getById, gets; by rewrite Hrec].
  erewrite bind_Ok with (a := Some (paid reminder));
    [|unfold BillReminderService.update; erewrite bind_Ok; [|reflexivity];
      unfold gets; simpl; f_equal; f_equal;
      apply selectById_updateById; [apply billReminder_patchRow_id|exact Hrec]].
  rewrite Hrecurring, (recognized_truthy _ Hfreq). simpl.
  erewrite bind_Ok; [reflexivity|].
  erewrite bind_Ok; [reflexivity|].
  unfold BillReminderService.createNextRecurring.
  rewrite Hrecurring, (recognized_truthy _ Hfreq), Hnext. simpl.
  erewrite bind_Ok; [reflexivity|].
  unfold BillReminderService.create, insertRow. simpl.
  rewrite selectById_updateById_fresh;
    [reflexivity|apply billReminder_patchRow_id|exact Hfresh].
Qed.

(** *** The calendar behind [setMonth] and [setFullYear] *)

Lemma msPerDay_pos : 0 < JsDate.msPerDay.
Proof. reflexivity. Qed.

Lemma Day_MakeDate (day time : Z) :
  JsDate.Day (JsDate.MakeDate day (JsDate.TimeWithinDay time)) = day.
Proof.
  unfold JsDate.Day, JsDate.MakeDate, JsDate.TimeWithinDay.
  pose proof msPerDay_pos.
  rewrite Z.add_comm, Z.div_add by lia.
  rewrite Z.div_small by (apply Z.mod_pos_bound; lia). lia.
Qed.

Lemma TimeWithinDay_MakeDate (day time : Z) :
  JsDate.TimeWithinDay (JsDate.MakeDate day (JsDate.TimeWithinDay time))
  = JsDate.TimeWithinDay time.
Proof.
  unfold JsDate.MakeDate, JsDate.TimeWithinDay.
  pose proof msPerDay_pos.
  rewrite Z.add_comm, Z.mod_add by lia. apply Z.mod_mod. lia.
Qed.

Ltac div_lia := Z.div_mod_to_equations; lia.

Lemma yearOfDay_bounds (d : Z) :
  JsDate.DayFromYear (JsDate.yearOfDay d) ≤ d < JsDate.DayFromYear (JsDate.yearOfDay d + 1).
Proof.
  unfold JsDate.yearOfDay.
  repeat case_bool_decide; unfold JsDate.DayFromYear in *; div_lia.
Qed.

Lemma DayFromYear_next (y : Z) :
  JsDate.DayFromYear (y + 1) = JsDate.DayFromYear y + JsDate.DaysInYear y.
Proof.
  unfold JsDate.DayFromYear, JsDate.DaysInYear.
  repeat case_bool_decide; div_lia.
Qed.

Lemma DayFromYear_mono (y y' : Z) :
  y ≤ y' → JsDate.DayFromYear y ≤ JsDate.DayFromYear y'.
Proof. unfold JsDate.DayFromYear. intros. div_lia. Qed.

Lemma yearOfDay_unique (y d : Z) :
  JsDate.DayFromYear y ≤ d < JsDate.DayFromYear (y + 1) → JsDate.yearOfDay d = y.
Proof.
  intros Hd. pose proof (yearOfDay_bounds d) as Hb.
  destruct (Z.lt_trichotomy (JsDate.yearOfDay d) y) as [Hlt|[Heq|Hgt]]; [|exact Heq|].
  - pose proof (DayFromYear_mono (JsDate.yearOfDay d + 1) y). lia.
  - pose proof (DayFromYear_mono (y + 1) (JsDate.yearOfDay d)). lia.
Qed.

Lemma DaysInYear_cases (y : Z) : JsDate.DaysInYear y = 365 ∨ JsDate.DaysInYear y = 366.
Proof. unfold JsDate.DaysInYear. repeat case_bool_decide; auto. Qed.

Lemma month_of_start (m leap date : Z) :
  0 ≤ m ≤ 11 → 0 ≤ leap ≤ 1 → 1 ≤ date ≤ daysInMonth m leap →
  JsDate.monthOfDayWithinYear (JsDate.monthStart m leap + date - 1) leap = m
  ∧ 0 ≤ JsDate.monthStart m leap + date - 1 < 365 + leap.
Proof.
  intros Hm Hleap Hdate.
  assert (m = 0 ∨ m = 1 ∨ m = 2 ∨ m = 3 ∨ m = 4 ∨ m = 5 ∨ m = 6 ∨ m = 7 ∨ m = 8
          ∨ m = 9 ∨ m = 10 ∨ m = 11) as Hcases by lia.
  unfold daysInMonth in Hdate.
  unfold JsDate.monthStart.
  destruct Hcases as [->|[->|[->|[->|[->|[->|[->|[->|[->|[->|[->| ->]]]]]]]]]]];
    repeat (case_bool_decide; try lia);
    unfold JsDate.monthOfDayWithinYear;
    (split; [repeat (case_bool_decide; try lia)|lia]).
Qed.

Lemma civilOfDay_MakeDay (y m date : Z) :
  1 ≤ date ≤ daysInMonth (m `mod` 12)
               (if bool_decide (JsDate.DaysInYear (y + m `div` 12) = 366) then 1 else 0) →
  civilOfDay (JsDate.MakeDay y m date) = (y + m `div` 12, m `mod` 12, date).
Proof.
  intros Hdate. unfold JsDate.MakeDay.
  set (ym := y + m `div` 12) in *. set (mn := m `mod` 12) in *.
  set (leap := if bool_decide (JsDate.DaysInYear ym = 366) then 1 else 0) in *.
  assert (Hmn : 0 ≤ mn ≤ 11) by (unfold mn; div_lia).
  assert (Hleap : 0 ≤ leap ≤ 1) by (unfold leap; case_bool_decide; lia).
  destruct (month_of_start mn leap date Hmn Hleap Hdate) as [Hmonth Hwithin].
  assert (Hyear : JsDate.yearOfDay (JsDate.DayFromYear ym + JsDate.monthStart mn leap
                                    + date - 1) = ym).
  { apply yearOfDay_unique. rewrite DayFromYear_next.
    unfold leap in *. destruct (DaysInYear_cases ym); case_bool_decide; lia. }
  unfold civilOfDay. rewrite Hyear. fold leap.
  replace (JsDate.DayFromYear ym + JsDate.monthStart mn leap + date - 1
           - JsDate.DayFromYear ym)
    with (JsDate.monthStart mn leap + date - 1) by lia.
  rewrite Hmonth. f_equal. lia.
Qed.

Lemma civilOfDay_valid (d : Z) :
  let '(year, month, date) := civilOfDay d in
  0 ≤ month ≤ 11
  ∧ 1 ≤ date ≤ daysInMonth month (if bool_decide (JsDate.DaysInYear year = 366) then 1 else 0)
  ∧ JsDate.MakeDay year month date = d.
Proof.
  unfold civilOfDay.
  set (year := JsDate.yearOfDay d).
  set (leap := if bool_decide (JsDate.DaysInYear year = 366) then 1 else 0).
  set (within := d - JsDate.DayFromYear year).
  assert (Hwithin : 0 ≤ within < 365 + leap).
  { pose proof (yearOfDay_bounds d) as Hb. fold year in Hb.
    rewrite DayFromYear_next in Hb. unfold within, leap.
    destruct (DaysInYear_cases year); case_bool_decide; lia. }
  assert (Hleap : 0 ≤ leap ≤ 1) by (unfold leap; case_bool_decide; lia).
  assert (Hfields : 0 ≤ JsDate.monthOfDayWithinYear within leap ≤ 11
    ∧ 1 ≤ within + 1 - JsDate.monthStart (JsDate.monthOfDayWithinYear within leap) leap
      ≤ daysInMonth (JsDate.monthOfDayWithinYear within leap) leap).
  { unfold JsDate.monthOfDayWithinYear.
    repeat (case_bool_decide;
            [unfold daysInMonth, JsDate.monthStart;
             repeat (case_bool_decide; try lia)|]).
    unfold daysInMonth, JsDate.monthStart. repeat (case_bool_decide; try lia). }
  destruct Hfields as [Hmonth Hdate]. split; [exact Hmonth|]. split; [exact Hdate|].
  unfold JsDate.MakeDay.
  rewrite (Z.div_small _ 12), (Z.mod_small _ 12), Z.add_0_r by lia.
  fold leap. unfold within. lia.
Qed.

Lemma civilOfDay_fields (day : Z) :
  civilOfDay day = (JsDate.yearOfDay day, JsDate.monthOfDay day, JsDate.dateOfDay day).
Proof. reflexivity. Qed.

Lemma LocalTime_UTC (tza t : Z) : JsDate.LocalTime tza (JsDate.UTC tza t) = t.
Proof. unfold JsDate.LocalTime, JsDate.UTC. lia. Qed.

Lemma daysInMonth_28 (m leap : Z) : 0 ≤ leap ≤ 1 → 28 ≤ daysInMonth m leap.
Proof. intros. unfold daysInMonth. repeat case_bool_decide; lia. Qed.

Lemma daysInFollowingMonth_28 (tza : Z) (due : Date) :
  28 ≤ daysInFollowingMonth tza due.
Proof. apply daysInMonth_28. case_bool_decide; lia. Qed.

(** [setMonth(getMonth() + 1)] on a date whose day of the month the
    following month has gives the same day and time of day in the following
    month. *)
Lemma setMonth_next_month (tza : Z) (due : Date) :
  JsDate.getDate tza due ≤ daysInFollowingMonth tza due →
  let due' := JsDate.setMonth tza due (JsDate.getMonth tza due + 1) in
  JsDate.getFullYear tza due'
  = JsDate.getFullYear tza due + (JsDate.getMonth tza due + 1) `div` 12
  ∧ JsDate.getMonth tza due' = (JsDate.getMonth tza due + 1) `mod` 12
  ∧ JsDate.getDate tza due' = JsDate.getDate tza due
  ∧ JsDate.TimeWithinDay (JsDate.LocalTime tza due')
    = JsDate.TimeWithinDay (JsDate.LocalTime tza due).
Proof.
  intros Hdate due'. subst due'.
  unfold daysInFollowingMonth in Hdate.
  unfold JsDate.getFullYear, JsDate.getMonth, JsDate.getDate, JsDate.setMonth in *.
  rewrite !LocalTime_UTC. set (t := JsDate.LocalTime tza due) in *.
  unfold JsDate.YearFromTime, JsDate.MonthFromTime, JsDate.DateFromTime in *.
  rewrite Day_MakeDate, TimeWithinDay_MakeDate.
  pose proof (civilOfDay_valid (JsDate.Day t)) as Hvalid.
  rewrite civilOfDay_fields in Hvalid. destruct Hvalid as (_ & [Hlow _] & _).
  pose proof (civilOfDay_MakeDay (JsDate.yearOfDay (JsDate.Day t))
                (JsDate.monthOfDay (JsDate.Day t) + 1)
                (JsDate.dateOfDay (JsDate.Day t)) (conj Hlow Hdate)) as Hnext.
  rewrite civilOfDay_fields in Hnext.
  by simplify_eq.
Qed.

(** [setFullYear(getFullYear() + 1)] on a date other than the 29th of
    February gives the same day, month and time of day in the following
    year. *)
Lemma setFullYear_next_year (tza : Z) (due : Date) :
  ¬ (JsDate.getMonth tza due = 1 ∧ JsDate.getDate tza due = 29) →
  let due' := JsDate.setFullYear tza due (JsDate.getFullYear tza due + 1) in
  JsDate.getFullYear tza due' = JsDate.getFullYear tza due + 1
  ∧ JsDate.getMonth tza due' = JsDate.getMonth tza due
  ∧ JsDate.getDate tza due' = JsDate.getDate tza due
  ∧ JsDate.TimeWithinDay (JsDate.LocalTime tza due')
    = JsDate.TimeWithinDay (JsDate.LocalTime tza due).
Proof.
  intros Hdate due'. subst due'.
  unfold JsDate.getFullYear, JsDate.getMonth, JsDate.getDate, JsDate.setFullYear in *.
  rewrite !LocalTime_UTC. set (t := JsDate.LocalTime tza due) in *.
  unfold JsDate.YearFromTime, JsDate.MonthFromTime, JsDate.DateFromTime in *.
  rewrite Day_MakeDate, TimeWithinDay_MakeDate.
  pose proof (civilOfDay_valid (JsDate.Day t)) as Hvalid.
  rewrite civilOfDay_fields in Hvalid. destruct Hvalid as (Hmonth & Hvalid & _).
  pose proof (civilOfDay_MakeDay (JsDate.yearOfDay (JsDate.Day t) + 1)
                (JsDate.monthOfDay (JsDate.Day t))
                (JsDate.dateOfDay (JsDate.Day t))) as Hnext.
  rewrite civilOfDay_fields in Hnext.
  rewrite (Z.div_small _ 12), (Z.mod_small _ 12), Z.add_0_r in Hnext by lia.
  assert (Hfits : 1 ≤ JsDate.dateOfDay (JsDate.Day t)
                  ≤ daysInMonth (JsDate.monthOfDay (JsDate.Day t))
                      (if bool_decide (JsDate.DaysInYear
                                         (JsDate.yearOfDay (JsDate.Day t) + 1) = 366)
                       then 1 else 0)).
  { revert Hvalid. unfold daysInMonth. repeat case_bool_decide; lia. }
  specialize (Hnext Hfits). by simplify_eq.
Qed.

(** C7 (as amended). [markAsPaid] on an id that no reminder has throws
    the not-found error and changes nothing. On an existing recurring
    reminder whose frequency is monthly or yearly (and with a fresh id for
    the new row) it marks the reminder paid and appends exactly one
    successor: unpaid, recurring with the same frequency, due at the
    original due date moved by [setMonth(getMonth() + 1)] (monthly) or
    [setFullYear(getFullYear() + 1)] (yearly), and reminding as long before
    its due date as the original did. In local time that due date is the
    same day and time of day of the following month when the following
    month has that day of the month (as it has every day up to 28), and of
    the following year for every date but the 29th of February. A monthly
    reminder due 2024-03-15 with reminder date 2024-03-12 gets a successor
    due 2024-04-15 with reminder date 2024-04-12. [createNextRecurring]
    returns null, inserting nothing, for any other frequency. *)
Theorem markAsPaid_spawns_successor :
  (∀ (tza : Z) (id : string) (transactionId : option string) (newId : string)
     (now : Date) (db : Db),
     selectById BillReminder.id id (billReminders db) = None →
     BillReminderService.markAsPaid tza id transactionId newId now db
     = (Throw (Error "Bill reminder not found"), db))
  ∧ (∀ (tza : Z) (id : string) (transactionId : option string) (newId : string)
       (now : Date) (db : Db) (reminder : BillReminder.t),
       selectById BillReminder.id id (billReminders db) = Some reminder →
       BillReminder.isRecurring reminder = true →
       BillReminder.frequency reminder = Some "monthly"
       ∨ BillReminder.frequency reminder = Some "yearly" →
       selectById BillReminder.id newId (billReminders db) = None →
       ∃ updated successor db',
         BillReminderService.markAsPaid tza id transactionId newId now db
         = (Ok (Some updated), db')
         ∧ billReminders db'
           = (updateById BillReminder.id id
                (BillReminderService.patchRow
                   (BillReminderService.paidAndTransaction true (or_null transactionId))
                   now)
                (billReminders db)
              ++ [successor])%list
         ∧ BillReminder.id updated = id
         ∧ BillReminder.isPaid updated = true
         ∧ BillReminder.id successor = newId
         ∧ BillReminder.isPaid successor = false
         ∧ BillReminder.isRecurring successor = true
         ∧ BillReminder.frequency successor = BillReminder.frequency reminder
         ∧ BillReminder.title successor = BillReminder.title reminder
         ∧ BillReminder.amount successor = BillReminder.amount reminder
         ∧ (BillReminder.frequency reminder = Some "monthly" →
            BillReminder.dueDate successor
            = JsDate.setMonth tza (BillReminder.dueDate reminder)
                (JsDate.getMonth tza (BillReminder.dueDate reminder) + 1))
         ∧ (BillReminder.frequency reminder = Some "yearly" →
            BillReminder.dueDate successor
            = JsDate.setFullYear tza (BillReminder.dueDate reminder)
                (JsDate.getFullYear tza (BillReminder.dueDate reminder) + 1))
         ∧ match BillReminder.reminderDate reminder with
           | Some reminderDate =>
             ∃ reminderDate',
               BillReminder.reminderDate successor = Some reminderDate'
               ∧ BillReminder.dueDate successor - reminderDate'
                 = BillReminder.dueDate reminder - reminderDate
           | None => BillReminder.reminderDate successor = None
           end)
  ∧ (∀ (tza : Z) (due : Date),
       JsDate.getDate tza due ≤ daysInFollowingMonth tza due →
       let due' := JsDate.setMonth tza due (JsDate.getMonth tza due + 1) in
       JsDate.getFullYear tza due'
       = JsDate.getFullYear tza due + (JsDate.getMonth tza due + 1) `div` 12
       ∧ JsDate.getMonth tza due' = (JsDate.getMonth tza due + 1) `mod` 12
       ∧ JsDate.getDate tza due' = JsDate.getDate tza due
       ∧ JsDate.TimeWithinDay (JsDate.LocalTime tza due')
         = JsDate.TimeWithinDay (JsDate.LocalTime tza due))
  ∧ (∀ (tza : Z) (due : Date),
       ¬ (JsDate.getMonth tza due = 1 ∧ JsDate.getDate tza due = 29) →
       let due' := JsDate.setFullYear tza due (JsDate.getFullYear tza due + 1) in
       JsDate.getFullYear tza due' = JsDate.getFullYear tza due + 1
       ∧ JsDate.getMonth tza due' = JsDate.getMonth tza due
       ∧ JsDate.getDate tza due' = JsDate.getDate tza due
       ∧ JsDate.TimeWithinDay (JsDate.LocalTime tza due')
         = JsDate.TimeWithinDay (JsDate.LocalTime tza due))
  ∧ (let db0 := (BillReminderService.create "r1" 0 exampleBill emptyDb).2 in
     let db1 := (BillReminderService.markAsPaid 0 "r1" None "r2" 10 db0).2 in
     billStates db0
     = [("r1", JsDate.utcDate 2024 3 15, Some (JsDate.utcDate 2024 3 12), false)]
     ∧ billStates db1
       = [("r1", JsDate.utcDate 2024 3 15, Some (JsDate.utcDate 2024 3 12), true);
          ("r2", JsDate.utcDate 2024 4 15, Some (JsDate.utcDate 2024 4 12), false)]
     ∧ JsDate.setMonth 0 (JsDate.utcDate 2024 1 31) (0 + 1) = JsDate.utcDate 2024 3 2)
  ∧ (∀ (tza : Z) (id : string) (now : Date) (reminder : BillReminder.t) (db : Db),
       BillReminder.frequency reminder ≠ Some "monthly" →
       BillReminder.frequency reminder ≠ Some "yearly" →
       BillReminderService.createNextRecurring tza id now reminder db = (Ok None, db))
  ∧ (∀ (tza : Z) (due : Date), 28 ≤ daysInFollowingMonth tza due).
Proof.
  split; [exact markAsPaid_missing|].
  split; [|split; [exact setMonth_next_month|split; [exact setFullYear_next_year|
           split; [vm_compute; by repeat split|
           split; [exact createNextRecurring_unrecognized|
                   exact daysInFollowingMonth_28]]]]].
  intros tza id transactionId newId now db reminder Hrec Hrecurring Hfreq Hfresh.
  destruct (recognized_nextDueDate tza reminder Hfreq) as [next Hnext].
  eexists _, (successorRow newId now reminder next), _.
  split; [by apply (markAsPaid_recurring tza id transactionId newId now db reminder next)|].
  split; [reflexivity|].
  split; [exact (proj1 (selectById_Some BillReminder.id id _ reminder Hrec))|].
  do 7 (split; [reflexivity|]).
  unfold BillReminderService.nextDueDate in Hnext.
  split; [|split].
  - intros Hm. rewrite Hm in Hnext. simpl in Hnext. by simplify_eq.
  - intros Hy. rewrite Hy in Hnext. simpl in Hnext. by simplify_eq.
  - simpl. destruct (BillReminder.reminderDate reminder) as [rd|]; [|reflexivity].
    eexists. split; [reflexivity|]. unfold JsDate.getTime. lia.
Qed.

(** C7, on the example: the monthly bill due 2024-03-15 is marked paid. *)
Lemma markAsPaid_spawns_successor_witness :
  let db0 := (BillReminderService.create "r1" 0 exampleBill emptyDb).2 in
  selectById BillReminder.id "r1" (billReminders db0)
  = Some (BillReminderService.newRow "r1" 0 exampleBill)
  ∧ selectById BillReminder.id "r2" (billReminders db0) = None
  ∧ ∃ updated successor db',
      BillReminderService.markAsPaid 0 "r1" None "r2" 10 db0 = (Ok (Some updated), db')
      ∧ BillReminder.isPaid updated = true
      ∧ BillReminder.isPaid successor = false
      ∧ BillReminder.dueDate successor = JsDate.utcDate 2024 4 15.
Proof.
  intros db0. split; [reflexivity|]. split; [reflexivity|].
  destruct (proj1 (proj2 markAsPaid_spawns_successor) 0 "r1" None "r2" 10 db0
              (BillReminderService.newRow "r1" 0 exampleBill)
              eq_refl eq_refl (or_introl eq_refl) eq_refl)
    as (updated & successor & db' & Hrun & _ & _ & Hpaid & _ & Hunpaid & _ & _ & _ & _
        & Hmonthly & _).
  exists updated, successor, db'.
  split; [exact Hrun|]. split; [exact Hpaid|]. split; [exact Hunpaid|].
  rewrite (Hmonthly eq_refl). reflexivity.
Defined.

(** C7 as the specification states it fails at the end of a month. A
    monthly reminder due 2024-01-31 gets a successor due 2024-03-02, which
    is not in February, and a yearly reminder due 2024-02-29 a successor due
    2025-03-01, which is not in a February (the host is on UTC). *)
Lemma markAsPaid_month_end_counterexample :
  (let due := JsDate.utcDate 2024 1 31 in
   let db0 :=
     (BillReminderService.create "r1" 0 (billDue "monthly" due (JsDate.utcDate 2024 1 28))
        emptyDb).2 in
   let db1 := (BillReminderService.markAsPaid 0 "r1" None "r2" 10 db0).2 in
   billStates db1
   = [("r1", due, Some (JsDate.utcDate 2024 1 28), true);
      ("r2", JsDate.utcDate 2024 3 2, Some (JsDate.utcDate 2024 2 28), false)]
   ∧ JsDate.getMonth 0 due = 0
   ∧ JsDate.getMonth 0 (JsDate.utcDate 2024 3 2) = 2
   ∧ ¬ inFollowingMonth 0 due (JsDate.utcDate 2024 3 2))
  ∧ (let due := JsDate.utcDate 2024 2 29 in
     let db0 :=
       (BillReminderService.create "r1" 0 (billDue "yearly" due (JsDate.utcDate 2024 2 26))
          emptyDb).2 in
     let db1 := (BillReminderService.markAsPaid 0 "r1" None "r2" 10 db0).2 in
     billStates db1
     = [("r1", due, Some (JsDate.utcDate 2024 2 26), true);
        ("r2", JsDate.utcDate 2025 3 1, Some (JsDate.utcDate 2025 2 26), false)]
     ∧ JsDate.getMonth 0 due = 1
     ∧ JsDate.getMonth 0 (JsDate.utcDate 2025 3 1) = 2
     ∧ ¬ inSameMonthNextYear 0 due (JsDate.utcDate 2025 3 1)).
Proof.
  split.
  - split; [by vm_compute|]. split; [by vm_compute|]. split; [by vm_compute|].
    intros [_ Hmonth]. vm_compute in Hmonth. discriminate Hmonth.
  - split; [by vm_compute|]. split; [by vm_compute|]. split; [by vm_compute|].
    intros [_ Hmonth]. vm_compute in Hmonth. discriminate Hmonth.
Qed.

Section SelectMore.
Context {Row : Type} (key : Row → string).

Lemma selectById_app_l (i : string) (l1 l2 : list Row) (r : Row) :
  selectById key i l1 = Some r → selectById key i (l1 ++ l2)%list = Some r.
Proof.
  unfold selectById. rewrite filter_app. by destruct (filter _ l1).
Qed.

Lemma selectById_app_r (i : string) (l1 l2 : list Row) :
  selectById key i l1 = None → selectById key i (l1 ++ l2)%list = selectById key i l2.
Proof.
  unfold selectById. rewrite filter_app. by destruct (filter _ l1).
Qed.

Lemma selectById_cons (i : string) (r : Row) (l : list Row) :
  selectById key i (r :: l) = if decide (key r = i) then Some r else selectById key i l.
Proof. unfold selectById. rewrite filter_cons. by destruct (decide _). Qed.

Lemma selectById_updateById_ne (i j : string) (f : Row → Row) (tbl : list Row) :
  (∀ x, key (f x) = key x) → i ≠ j →
  selectById key j (updateById key i f tbl) = selectById key j tbl.
Proof.
  intros Hf Hne. unfold selectById.
  rewrite filter_updateById by (intros r; by rewrite Hf).
  f_equal. unfold updateById.
  induction tbl as [|r tbl IH]; [reflexivity|].
  rewrite filter_cons. destruct (decide (key r = j)) as [Hr|Hr]; [|exact IH].
  rewrite fmap_cons, decide_False by congruence. by rewrite IH.
Qed.

End SelectMore.

Lemma markAsUnpaid_run (id : string) (now : Date) (db : Db) :
  ∃ returned,
    BillReminderService.markAsUnpaid id now db
    = (Ok returned,
       set_billReminders
         (updateById BillReminder.id id
            (BillReminderService.patchRow
               (BillReminderService.paidAndTransaction false None) now)) db).
Proof. eexists. reflexivity. Qed.

(** C10. [markAsPaid] is not idempotent on a recurring reminder with a
    monthly or yearly frequency: each call (with a fresh id for its new
    row) appends one more successor, whether the reminder was already paid
    or not, so that two calls in a row leave two successors, both unpaid
    and due on the same date; [markAsUnpaid] afterwards removes neither. *)
Theorem markAsPaid_twice_two_successors
    (tza : Z) (id : string) (transactionId1 transactionId2 : option string)
    (newId1 newId2 : string) (now1 now2 now3 : Date) (db : Db)
    (reminder : BillReminder.t) :
  selectById BillReminder.id id (billReminders db) = Some reminder →
  BillReminder.isRecurring reminder = true →
  BillReminder.frequency reminder = Some "monthly"
  ∨ BillReminder.frequency reminder = Some "yearly" →
  selectById BillReminder.id newId1 (billReminders db) = None →
  selectById BillReminder.id newId2 (billReminders db) = None →
  newId1 ≠ newId2 →
  ∃ returned1 db1 paid1 returned2 db2 returned3 db3 successor1 successor2,
    BillReminderService.markAsPaid tza id transactionId1 newId1 now1 db
    = (Ok returned1, db1)
    ∧ selectById BillReminder.id id (billReminders db1) = Some paid1
    ∧ BillReminder.isPaid paid1 = true
    ∧ BillReminderService.markAsPaid tza id transactionId2 newId2 now2 db1
      = (Ok returned2, db2)
    ∧ BillReminderService.markAsUnpaid id now3 db2 = (Ok returned3, db3)
    ∧ length (billReminders db1) = S (length (billReminders db))
    ∧ length (billReminders db2) = S (S (length (billReminders db)))
    ∧ length (billReminders db3) = S (S (length (billReminders db)))
    ∧ selectById BillReminder.id newId1 (billReminders db1) = Some successor1
    ∧ selectById BillReminder.id newId1 (billReminders db2) = Some successor1
    ∧ selectById BillReminder.id newId2 (billReminders db2) = Some successor2
    ∧ selectById BillReminder.id newId1 (billReminders db3) = Some successor1
    ∧ selectById BillReminder.id newId2 (billReminders db3) = Some successor2
    ∧ BillReminder.isPaid successor1 = false
    ∧ BillReminder.isPaid successor2 = false
    ∧ BillReminder.dueDate successor2 = BillReminder.dueDate successor1.
Proof.
  intros Hrec Hrecurring Hfreq Hfresh1 Hfresh2 Hne.
  destruct (recognized_nextDueDate tza reminder Hfreq) as [next Hnext].
  destruct (selectById_Some _ _ _ _ Hrec) as [Hid _].
  assert (Hid1 : id ≠ newId1).
  { intros ->. rewrite Hrec in Hfresh1. discriminate. }
  assert (Hid2 : id ≠ newId2).
  { intros ->. rewrite Hrec in Hfresh2. discriminate. }
  set (paid1 := BillReminderService.patchRow
                  (BillReminderService.paidAndTransaction true (or_null transactionId1))
                  now1).
  set (paid2 := BillReminderService.patchRow
                  (BillReminderService.paidAndTransaction true (or_null transactionId2))
                  now2).
  set (unpaid := BillReminderService.patchRow
                   (BillReminderService.paidAndTransaction false None) now3).
  set (s1 := successorRow newId1 now1 reminder next).
  set (s2 := successorRow newId2 now2 (paid1 reminder) next).
  set (tbl := billReminders db) in *.
  set (tbl1 := (updateById BillReminder.id id paid1 tbl ++ [s1])%list).
  set (tbl2 := (updateById BillReminder.id id paid2 tbl1 ++ [s2])%list).
  set (db1 := set_billReminders (λ _, tbl1) db).
  set (db2 := set_billReminders (λ _, tbl2) db1).
  assert (Hrec1 : selectById BillReminder.id id tbl1 = Some (paid1 reminder)).
  { apply selectById_app_l, selectById_updateById;
      [apply billReminder_patchRow_id|exact Hrec]. }
  assert (Hfresh21 : selectById BillReminder.id newId2 tbl1 = None).
  { unfold tbl1. rewrite selectById_app_r
      by (apply selectById_updateById_fresh;
          [apply billReminder_patchRow_id|exact Hfresh2]).
    rewrite selectById_cons, decide_False by exact Hne. reflexivity. }
  assert (Hs1 : selectById BillReminder.id newId1 tbl1 = Some s1).
  { unfold tbl1. rewrite selectById_app_r
      by (apply selectById_updateById_fresh;
          [apply billReminder_patchRow_id|exact Hfresh1]).
    rewrite selectById_cons, decide_True by reflexivity. reflexivity. }
  assert (Hs12 : selectById BillReminder.id newId1 tbl2 = Some s1).
  { unfold tbl2. apply selectById_app_l.
    rewrite selectById_updateById_ne;
      [exact Hs1|apply billReminder_patchRow_id|exact Hid1]. }
  assert (Hs22 : selectById BillReminder.id newId2 tbl2 = Some s2).
  { unfold tbl2. rewrite selectById_app_r
      by (apply selectById_updateById_fresh;
          [apply billReminder_patchRow_id|exact Hfresh21]).
    rewrite selectById_cons, decide_True by reflexivity. reflexivity. }
  destruct (markAsUnpaid_run id now3 db2) as [returned3 Hrun3].
  eexists _, db1, (paid1 reminder), _, db2, returned3, _, s1, s2.
  split; [by apply (markAsPaid_recurring tza id transactionId1 newId1 now1 db reminder next)|].
  split; [exact Hrec1|]. split; [reflexivity|].
  split; [by apply (markAsPaid_recurring tza id transactionId2 newId2 now2 db1
                      (paid1 reminder) next)|].
  split; [exact Hrun3|].
  split; [simpl; unfold tbl1, updateById; rewrite length_app, length_fmap; simpl; lia|].
  split; [simpl; unfold tbl2, tbl1, updateById;
          rewrite !length_app, !length_fmap, length_app, length_fmap; simpl; lia|].
  split; [simpl; unfold tbl2, tbl1, updateById;
          rewrite length_fmap, !length_app, !length_fmap, length_app, length_fmap;
          simpl; lia|].
  split; [exact Hs1|]. split; [exact Hs12|]. split; [exact Hs22|].
  split; [simpl; rewrite selectById_updateById_ne;
          [exact Hs12|apply billReminder_patchRow_id|exact Hid1]|].
  split; [simpl; rewrite selectById_updateById_ne;
          [exact Hs22|apply billReminder_patchRow_id|exact Hid2]|].
  repeat split.
Qed.

(** C10, on the example: the bill due 2024-03-15 is marked paid twice and
    then unpaid; the table keeps both successors, due 2024-04-15. *)
Lemma markAsPaid_twice_two_successors_witness :
  let db0 := (BillReminderService.create "r1" 0 exampleBill emptyDb).2 in
  let db1 := (BillReminderService.markAsPaid 0 "r1" None "r2" 10 db0).2 in
  let db2 := (BillReminderService.markAsPaid 0 "r1" None "r3" 20 db1).2 in
  let db3 := (BillReminderService.markAsUnpaid "r1" 30 db2).2 in
  billStates db3
  = [("r1", JsDate.utcDate 2024 3 15, Some (JsDate.utcDate 2024 3 12), false);
     ("r2", JsDate.utcDate 2024 4 15, Some (JsDate.utcDate 2024 4 12), false);
     ("r3", JsDate.utcDate 2024 4 15, Some (JsDate.utcDate 2024 4 12), false)]
  ∧ ∃ successor1 successor2,
      selectById BillReminder.id "r2" (billReminders db3) = Some successor1
      ∧ selectById BillReminder.id "r3" (billReminders db3) = Some successor2
      ∧ BillReminder.dueDate successor2 = BillReminder.dueDate successor1.
Proof.
  intros db0 db1 db2 db3. split; [by vm_compute|].
  destruct (markAsPaid_twice_two_successors 0 "r1" None None "r2" "r3" 10 20 30 db0
              (BillReminderService.newRow "r1" 0 exampleBill)
              eq_refl eq_refl (or_introl eq_refl) eq_refl eq_refl)
    as (r1 & d1 & p1 & r2 & d2 & r3 & d3 & s1 & s2 & Hrun1 & _ & _ & Hrun2 & Hrun3
        & _ & _ & _ & _ & _ & _ & Hs1 & Hs2 & _ & _ & Hdue).
  { discriminate. }
  exists s1, s2.
  assert (d1 = db1) as -> by (unfold db1; by rewrite Hrun1).
  assert (d2 = db2) as -> by (unfold db2; by rewrite Hrun2).
  assert (d3 = db3) as -> by (unfold db3; by rewrite Hrun3).
  by repeat split.
Defined.

(** ** Doubles: when a sum or a difference is a number *)

Lemma SFcompare_refl (s : spec_float) : s ≠ S754_nan → SFcompare s s = Some Eq.
Proof.
  destruct s as [sg|sg| |sg m e]; intros H; simpl; try done.
  - by destruct sg.
  - rewrite Z.compare_refl, Pos.compare_cont_refl. by destruct sg.
Qed.

Lemma is_nan_Prim2SF (x : float) : PrimFloat.is_nan x = true ↔ Prim2SF x = S754_nan.
Proof.
  unfold PrimFloat.is_nan. rewrite eqb_spec. unfold SFeqb. split.
  - intros H. destruct (Prim2SF x) eqn:Hx; try reflexivity;
      rewrite SFcompare_refl in H by done; discriminate.
  - by intros ->.
Qed.

Lemma is_nan_false_Prim2SF (x : float) :
  PrimFloat.is_nan x = false ↔ Prim2SF x ≠ S754_nan.
Proof.
  rewrite <- is_nan_Prim2SF. by destruct (PrimFloat.is_nan x).
Qed.

Lemma is_nan_add_l (x y : float) :
  PrimFloat.is_nan x = true → PrimFloat.is_nan (x + y) = true.
Proof. rewrite !is_nan_Prim2SF, add_spec. by intros ->. Qed.

Lemma is_nan_sub_l (x y : float) :
  PrimFloat.is_nan x = true → PrimFloat.is_nan (x - y) = true.
Proof. rewrite !is_nan_Prim2SF, sub_spec. by intros ->. Qed.

Lemma is_finite_Prim2SF (x : float) :
  PrimFloat.is_finite x = true →
  (∃ s, Prim2SF x = S754_zero s) ∨ (∃ s m e, Prim2SF x = S754_finite s m e).
Proof.
  unfold PrimFloat.is_finite, PrimFloat.is_infinity, PrimFloat.is_nan.
  rewrite !eqb_spec, abs_spec.
  change (Prim2SF infinity) with (S754_infinity false).
  destruct (Prim2SF x) as [s|s| |s m e]; intros H; [eauto| | |eauto 10].
  - by destruct s.
  - discriminate H.
Qed.

Lemma shr_1_nonneg (mrs : shr_record) : 0 ≤ shr_m mrs → 0 ≤ shr_m (shr_1 mrs).
Proof.
  destruct mrs as [m r s]. simpl. intros Hm.
  destruct m as [|p|p]; [done| |lia]. by destruct p.
Qed.

Lemma iter_pos_shr_1_nonneg (p : positive) (mrs : shr_record) :
  0 ≤ shr_m mrs → 0 ≤ shr_m (iter_pos shr_1 p mrs).
Proof.
  revert mrs. induction p as [p IH|p IH|]; intros mrs Hm; simpl.
  - apply IH, IH, shr_1_nonneg, Hm.
  - apply IH, IH, Hm.
  - apply shr_1_nonneg, Hm.
Qed.

Lemma shr_fexp_nonneg (m e : Z) (l : location) :
  0 ≤ m → 0 ≤ shr_m (shr_fexp prec emax m e l).1.
Proof.
  intros Hm. unfold shr_fexp, shr.
  assert (Hrec : 0 ≤ shr_m (shr_record_of_loc m l))
    by (destruct l as [|[]]; exact Hm).
  destruct (_ - e); simpl; [done| |done]. by apply iter_pos_shr_1_nonneg.
Qed.

Lemma round_nearest_even_nonneg (m : Z) (l : location) :
  0 ≤ m → 0 ≤ round_nearest_even m l.
Proof.
  intros Hm. unfold round_nearest_even. destruct l as [|[]]; try lia.
  destruct (IntDef.Z.even m); lia.
Qed.

Lemma binary_round_aux_number (sx : bool) (mx ex : Z) (lx : location) :
  0 ≤ mx → binary_round_aux prec emax sx mx ex lx ≠ S754_nan.
Proof.
  intros Hm. unfold binary_round_aux.
  pose proof (shr_fexp_nonneg mx ex lx Hm) as H1.
  destruct (shr_fexp prec emax mx ex lx) as [mrs' e']. simpl in H1.
  pose proof (shr_fexp_nonneg (round_nearest_even (shr_m mrs') (loc_of_shr_record mrs'))
                e' loc_Exact (round_nearest_even_nonneg _ _ H1)) as H2.
  destruct (shr_fexp prec emax _ e' loc_Exact) as [mrs'' e'']. simpl in H2.
  destruct (shr_m mrs''); [done| |lia]. by destruct (_ <=? _).
Qed.

Lemma binary_normalize_number (m e : Z) (szero : bool) :
  binary_normalize prec emax m e szero ≠ S754_nan.
Proof.
  unfold binary_normalize, binary_round. destruct m as [|p|p]; [done| |].
  - destruct (shl_align _ _ _). by apply binary_round_aux_number.
  - destruct (shl_align _ _ _). by apply binary_round_aux_number.
Qed.

Lemma SF64add_number (x y : spec_float) :
  x ≠ S754_nan →
  (∃ sg, y = S754_zero sg) ∨ (∃ sg m e, y = S754_finite sg m e) → SF64add x y ≠ S754_nan.
Proof.
  intros Hx [[sy ->]|(sy & my & ey & ->)]; unfold SF64add, SFadd;
    destruct x as [sx|sx| |sx mx ex]; try done.
  - by destruct sx, sy.
  - apply binary_normalize_number.
Qed.

Lemma SF64sub_number (x y : spec_float) :
  x ≠ S754_nan →
  (∃ sg, y = S754_zero sg) ∨ (∃ sg m e, y = S754_finite sg m e) → SF64sub x y ≠ S754_nan.
Proof.
  intros Hx [[sy ->]|(sy & my & ey & ->)]; unfold SF64sub, SFsub;
    destruct x as [sx|sx| |sx mx ex]; try done.
  - by destruct sx, sy.
  - apply binary_normalize_number.
Qed.

Lemma add_number (x y : float) :
  PrimFloat.is_nan x = false → PrimFloat.is_finite y = true →
  PrimFloat.is_nan (x + y) = false.
Proof.
  rewrite !is_nan_false_Prim2SF, add_spec. intros Hx Hy.
  apply SF64add_number; [exact Hx|]. by apply is_finite_Prim2SF.
Qed.

Lemma sub_number (x y : float) :
  PrimFloat.is_nan x = false → PrimFloat.is_finite y = true →
  PrimFloat.is_nan (x - y) = false.
Proof.
  rewrite !is_nan_false_Prim2SF, sub_spec. intros Hx Hy.
  apply SF64sub_number; [exact Hx|]. by apply is_finite_Prim2SF.
Qed.

(** ** The balance effect in double precision *)

Lemma real_bind_Ok {A B : Type} (m : Real.M A) (f : A → Real.M B) (db db' : Real.Db)
    (a : A) :
  m db = (Ok a, db') → (m ≫= f) db = f a db'.
Proof. intros H. unfold mbind, Real.M_bind. by rewrite H. Qed.

Lemma real_bind_Throw {A B : Type} (m : Real.M A) (f : A → Real.M B) (db db' : Real.Db)
    (e : exn) :
  m db = (Throw e, db') → (m ≫= f) db = (Throw e, db').
Proof. intros H. unfold mbind, Real.M_bind. by rewrite H. Qed.

Lemma real_set_wallets_id (db : Real.Db) :
  Real.set_wallets (fmap (λ w, w)) db = db.
Proof. destruct db. unfold Real.set_wallets. simpl. by rewrite list_fmap_id. Qed.

Lemma real_set_wallets_ext (f g : Real.Wallet.t → Real.Wallet.t) (db : Real.Db) :
  (∀ w, f w = g w) → Real.set_wallets (fmap f) db = Real.set_wallets (fmap g) db.
Proof.
  intros Hfg. unfold Real.set_wallets. f_equal. apply list_fmap_ext. auto.
Qed.

Lemma real_set_wallets_compose (f g : Real.Wallet.t → Real.Wallet.t) (db : Real.Db) :
  Real.set_wallets (fmap g) (Real.set_wallets (fmap f) db)
  = Real.set_wallets (fmap (g ∘ f)) db.
Proof. unfold Real.set_wallets. simpl. by rewrite <- list_fmap_compose. Qed.

Lemma forallb_pointwise {A : Type} (f g : A → bool) (l : list A) :
  (∀ x, f x = g x) → forallb f l = forallb g l.
Proof. intros H. induction l as [|x l IH]; simpl; [done|]. by rewrite H, IH. Qed.

Lemma forallb_both {A : Type} (f g : A → bool) (l : list A) :
  forallb (λ x, f x && g x) l = forallb f l && forallb g l.
Proof.
  induction l as [|x l IH]; simpl; [done|]. rewrite IH.
  by destruct (f x), (g x), (forallb f l), (forallb g l).
Qed.

Lemma forallb_fmap {A B : Type} (h : A → B) (f : B → bool) (l : list A) :
  forallb f (h <$> l) = forallb (f ∘ h) l.
Proof.
  induction l as [|x l IH]; [done|]. rewrite fmap_cons. cbn [forallb]. by rewrite IH.
Qed.

Lemma forallb_elem_of {A : Type} (f : A → bool) (l : list A) :
  forallb f l = true ↔ ∀ x, x ∈ l → f x = true.
Proof.
  induction l as [|x l IH]; simpl.
  - split; [intros _ y Hy; by apply elem_of_nil in Hy|done].
  - rewrite andb_true_iff, IH. split.
    + intros [Hx Hl] y [->|Hy]%elem_of_cons; auto.
    + intros H. split; [apply H; left|intros y Hy; apply H; by right].
Qed.

(** One [UPDATE] of a balance, seen as an effect on the wallet table. *)
Lemma one_statement (i : string) (f : float → float) (now : Date) (db : Real.Db)
    (g : string → float → float) (written : string → bool) :
  (∀ id, written id = bool_decide (id = i)) →
  (∀ b, g i b = f b) →
  let run := Real.TransactionService.updateBalance i f now db in
  run.1 = (if writable g written db then Ok tt else Throw balanceRefused)
  ∧ (writable g written db = true →
     run.2 = Real.set_wallets (fmap (walletAfter g written now)) db)
  ∧ otherRealTablesKept db run.2.
Proof.
  intros Hwritten Hg run. subst run. unfold Real.TransactionService.updateBalance.
  assert (Hcond :
    forallb (λ w, negb (bool_decide (Real.Wallet.id w = i)
                        && PrimFloat.is_nan (f (Real.Wallet.balance w)))) (Real.wallets db)
    = writable g written db).
  { apply forallb_pointwise. intros w. rewrite Hwritten.
    case_bool_decide as Hw; [|reflexivity]. by rewrite Hw, Hg. }
  rewrite Hcond. destruct (writable g written db); simpl.
  - split; [reflexivity|]. split; [|by repeat split]. intros _.
    unfold updateById. apply real_set_wallets_ext. intros w. unfold walletAfter.
    rewrite Hwritten. destruct (decide (Real.Wallet.id w = i)) as [Hw|Hw].
    + rewrite bool_decide_eq_true_2 by done. by rewrite Hw, Hg.
    + by rewrite bool_decide_eq_false_2.
  - split; [reflexivity|]. split; [discriminate|by repeat split].
Qed.

(** Two [UPDATE]s in a row, the second of which keeps a NaN. *)
Lemma two_statements (i1 i2 : string) (f1 f2 : float → float) (now : Date) (db : Real.Db)
    (g : string → float → float) (written : string → bool) :
  (∀ id, written id = bool_decide (id = i1) || bool_decide (id = i2)) →
  (∀ id b, g id b = let b1 := if bool_decide (id = i1) then f1 b else b in
                    if bool_decide (id = i2) then f2 b1 else b1) →
  (∀ b, PrimFloat.is_nan b = true → PrimFloat.is_nan (f2 b) = true) →
  let run := (Real.TransactionService.updateBalance i1 f1 now ;;
              Real.TransactionService.updateBalance i2 f2 now) db in
  run.1 = (if writable g written db then Ok tt else Throw balanceRefused)
  ∧ (writable g written db = true →
     run.2 = Real.set_wallets (fmap (walletAfter g written now)) db)
  ∧ otherRealTablesKept db run.2.
Proof.
  intros Hwritten Hg Hnan run. subst run.
  set (g1 := λ (id : string) (b : float), if bool_decide (id = i1) then f1 b else b).
  set (g2 := λ (id : string) (b : float), if bool_decide (id = i2) then f2 b else b).
  set (w1 := λ id : string, bool_decide (id = i1)).
  set (w2 := λ id : string, bool_decide (id = i2)).
  destruct (one_statement i1 f1 now db g1 w1) as (Hr1 & Hdb1 & Hkept1);
    [done|by unfold g1; rewrite bool_decide_eq_true_2| ].
  set (db1 := Real.set_wallets (fmap (walletAfter g1 w1 now)) db).
  destruct (one_statement i2 f2 now db1 g2 w2) as (Hr2 & Hdb2 & Hkept2);
    [done|by unfold g2; rewrite bool_decide_eq_true_2| ].
  assert (Hboth : writable g written db = writable g1 w1 db && writable g2 w2 db1).
  { unfold writable, db1. simpl. rewrite forallb_fmap, <- forallb_both.
    apply forallb_pointwise. intros w. simpl. rewrite Hwritten, Hg.
    unfold walletAfter, g1, g2, w1, w2.
    destruct (bool_decide (Real.Wallet.id w = i1)) eqn:E1; simpl;
      destruct (bool_decide (Real.Wallet.id w = i2)) eqn:E2; simpl;
      rewrite ?E2; simpl.
    all: try reflexivity.
    - destruct (PrimFloat.is_nan (f1 (Real.Wallet.balance w))) eqn:Hn; simpl;
        [by rewrite Hnan|reflexivity].
    - by rewrite andb_true_r. }
  rewrite Hboth.
  destruct (Real.TransactionService.updateBalance i1 f1 now db) as [r1 d1] eqn:Hrun1.
  simpl in Hr1, Hdb1, Hkept1.
  destruct (writable g1 w1 db); simpl.
  - specialize (Hdb1 eq_refl). subst r1 d1. fold db1 in Hrun1.
    rewrite (real_bind_Ok _ _ _ _ _ Hrun1).
    destruct (Real.TransactionService.updateBalance i2 f2 now db1) as [r2 d2].
    simpl in Hr2, Hdb2, Hkept2. simpl. split; [exact Hr2|]. split.
    + intros Hok. rewrite (Hdb2 Hok). unfold db1. rewrite real_set_wallets_compose.
      apply real_set_wallets_ext. intros w. simpl.
      unfold walletAfter, g1, g2, w1, w2. rewrite Hwritten, Hg.
      destruct (bool_decide (Real.Wallet.id w = i1)) eqn:E1; simpl;
        destruct (bool_decide (Real.Wallet.id w = i2)) eqn:E2; simpl;
        rewrite ?E2; reflexivity.
    + destruct Hkept2 as (? & ? & ? & ? & ?). by repeat split.
  - subst r1. rewrite (real_bind_Throw _ _ _ _ _ Hrun1). simpl.
    split; [reflexivity|]. split; [discriminate|exact Hkept1].
Qed.

Lemma no_statement (now : Date) (db : Real.Db) (g : string → float → float)
    (written : string → bool) :
  (∀ id, written id = false) →
  writable g written db = true
  ∧ Real.set_wallets (fmap (walletAfter g written now)) db = db.
Proof.
  intros Hnone. split.
  - apply forallb_elem_of. intros w _. by rewrite Hnone.
  - rewrite <- (real_set_wallets_id db) at 2. apply real_set_wallets_ext.
    intros w. unfold walletAfter. by rewrite Hnone.
Qed.

(** The four cases of the two methods. *)
Lemma effect_cases (t : Real.Transaction.t) :
  (Real.Transaction.type t = "income")
  ∨ (Real.Transaction.type t ≠ "income" ∧ Real.Transaction.type t = "expense")
  ∨ (Real.Transaction.type t ≠ "income" ∧ Real.Transaction.type t ≠ "expense"
     ∧ Real.Transaction.type t = "transfer"
     ∧ ∃ destination, Real.Transaction.toWalletId t = Some destination
                      ∧ destination ≠ "")
  ∨ (Real.Transaction.type t ≠ "income" ∧ Real.Transaction.type t ≠ "expense"
     ∧ bool_decide (Real.Transaction.type t = "transfer")
       && truthy_string (Real.Transaction.toWalletId t) = false).
Proof.
  destruct (decide (Real.Transaction.type t = "income")) as [|Hi]; [by left|right].
  destruct (decide (Real.Transaction.type t = "expense")) as [|He]; [by left|right].
  destruct (bool_decide (Real.Transaction.type t = "transfer")
            && truthy_string (Real.Transaction.toWalletId t)) eqn:Hcond; [left|by right].
  apply andb_true_iff in Hcond as [Ht%bool_decide_eq_true Hto].
  repeat (split; [done|]).
  destruct (Real.Transaction.toWalletId t) as [destination|]; [|discriminate].
  exists destination. split; [reflexivity|]. simpl in Hto.
  by apply bool_decide_eq_true in Hto.
Qed.

Lemma bool_decide_Some (x y : string) :
  bool_decide (Some x = Some y) = bool_decide (x = y).
Proof. apply bool_decide_ext. split; congruence. Qed.

Lemma updateWalletBalance_run (now : Date) (t : Real.Transaction.t) (db : Real.Db) :
  let run := Real.TransactionService.updateWalletBalance now t db in
  run.1 = (if writable (appliedBalance t) (referenced t) db
           then Ok tt else Throw balanceRefused)
  ∧ (writable (appliedBalance t) (referenced t) db = true →
     run.2 = Real.set_wallets
               (fmap (walletAfter (appliedBalance t) (referenced t) now)) db)
  ∧ otherRealTablesKept db run.2.
Proof.
  unfold Real.TransactionService.updateWalletBalance.
  destruct (effect_cases t) as [Hi|[[Hi He]|[(Hi & He & Ht & d & Hd & Hne)|(Hi & He & Hno)]]].
  - rewrite (bool_decide_eq_true_2 _ Hi). apply one_statement.
    + intros id. unfold referenced. by rewrite (bool_decide_eq_true_2 _ Hi).
    + intros b. unfold appliedBalance.
      by rewrite (bool_decide_eq_true_2 _ Hi), bool_decide_eq_true_2.
  - rewrite (bool_decide_eq_false_2 _ Hi), (bool_decide_eq_true_2 _ He).
    apply one_statement.
    + intros id. unfold referenced.
      by rewrite (bool_decide_eq_false_2 _ Hi), (bool_decide_eq_true_2 _ He).
    + intros b. unfold appliedBalance.
      by rewrite (bool_decide_eq_false_2 _ Hi), (bool_decide_eq_true_2 _ He),
        bool_decide_eq_true_2.
  - rewrite (bool_decide_eq_false_2 _ Hi), (bool_decide_eq_false_2 _ He),
      (bool_decide_eq_true_2 _ Ht), Hd. simpl.
    rewrite (bool_decide_eq_true_2 (d ≠ "")) by exact Hne. simpl.
    apply two_statements.
    + intros id. unfold referenced.
      rewrite (bool_decide_eq_false_2 _ Hi), (bool_decide_eq_false_2 _ He),
        (bool_decide_eq_true_2 _ Ht), Hd. simpl.
      by rewrite (bool_decide_eq_true_2 (d ≠ "")), bool_decide_Some.
    + intros id b. unfold appliedBalance.
      rewrite (bool_decide_eq_false_2 _ Hi), (bool_decide_eq_false_2 _ He),
        (bool_decide_eq_true_2 _ Ht), Hd. simpl.
      by rewrite (bool_decide_eq_true_2 (d ≠ "")), bool_decide_Some.
    + intros b. apply is_nan_add_l.
  - rewrite (bool_decide_eq_false_2 _ Hi), (bool_decide_eq_false_2 _ He), Hno.
    destruct (no_statement now db (appliedBalance t) (referenced t)) as [Hw Hdb].
    { intros id. unfold referenced.
      by rewrite (bool_decide_eq_false_2 _ Hi), (bool_decide_eq_false_2 _ He), Hno. }
    rewrite Hw, Hdb. simpl. by repeat split.
Qed.

Lemma reverseWalletBalance_run (now : Date) (t : Real.Transaction.t) (db : Real.Db) :
  let run := Real.TransactionService.reverseWalletBalance now t db in
  run.1 = (if writable (reversedBalance t) (referenced t) db
           then Ok tt else Throw balanceRefused)
  ∧ (writable (reversedBalance t) (referenced t) db = true →
     run.2 = Real.set_wallets
               (fmap (walletAfter (reversedBalance t) (referenced t) now)) db)
  ∧ otherRealTablesKept db run.2.
Proof.
  unfold Real.TransactionService.reverseWalletBalance.
  destruct (effect_cases t) as [Hi|[[Hi He]|[(Hi & He & Ht & d & Hd & Hne)|(Hi & He & Hno)]]].
  - rewrite (bool_decide_eq_true_2 _ Hi). apply one_statement.
    + intros id. unfold referenced. by rewrite (bool_decide_eq_true_2 _ Hi).
    + intros b. unfold reversedBalance.
      by rewrite (bool_decide_eq_true_2 _ Hi), bool_decide_eq_true_2.
  - rewrite (bool_decide_eq_false_2 _ Hi), (bool_decide_eq_true_2 _ He).
    apply one_statement.
    + intros id. unfold referenced.
      by rewrite (bool_decide_eq_false_2 _ Hi), (bool_decide_eq_true_2 _ He).
    + intros b. unfold reversedBalance.
      by rewrite (bool_decide_eq_false_2 _ Hi), (bool_decide_eq_true_2 _ He),
        bool_decide_eq_true_2.
  - rewrite (bool_decide_eq_false_2 _ Hi), (bool_decide_eq_false_2 _ He),
      (bool_decide_eq_true_2 _ Ht), Hd. simpl.
    rewrite (bool_decide_eq_true_2 (d ≠ "")) by exact Hne. simpl.
    apply two_statements.
    + intros id. unfold referenced.
      rewrite (bool_decide_eq_false_2 _ Hi), (bool_decide_eq_false_2 _ He),
        (bool_decide_eq_true_2 _ Ht), Hd. simpl.
      by rewrite (bool_decide_eq_true_2 (d ≠ "")), bool_decide_Some.
    + intros id b. unfold reversedBalance.
      rewrite (bool_decide_eq_false_2 _ Hi), (bool_decide_eq_false_2 _ He),
        (bool_decide_eq_true_2 _ Ht), Hd. simpl.
      by rewrite (bool_decide_eq_true_2 (d ≠ "")), bool_decide_Some.
    + intros b. apply is_nan_sub_l.
  - rewrite (bool_decide_eq_false_2 _ Hi), (bool_decide_eq_false_2 _ He), Hno.
    destruct (no_statement now db (reversedBalance t) (referenced t)) as [Hw Hdb].
    { intros id. unfold referenced.
      by rewrite (bool_decide_eq_false_2 _ Hi), (bool_decide_eq_false_2 _ He), Hno. }
    rewrite Hw, Hdb. simpl. by repeat split.
Qed.

Lemma is_finite_number (x : float) :
  PrimFloat.is_finite x = true → PrimFloat.is_nan x = false.
Proof.
  unfold PrimFloat.is_finite. by destruct (PrimFloat.is_nan x).
Qed.

Lemma appliedBalance_number (t : Real.Transaction.t) (id : string) (b : float) :
  finiteAmounts t = true → PrimFloat.is_nan b = false →
  PrimFloat.is_nan (appliedBalance t id b) = false.
Proof.
  unfold finiteAmounts, appliedBalance. intros [Ha Hf]%andb_true_iff Hb.
  repeat match goal with |- context [if ?c then _ else _] => destruct c end;
    auto using add_number, sub_number.
Qed.

Lemma reversedBalance_number (t : Real.Transaction.t) (id : string) (b : float) :
  finiteAmounts t = true → PrimFloat.is_nan b = false →
  PrimFloat.is_nan (reversedBalance t id b) = false.
Proof.
  unfold finiteAmounts, reversedBalance. intros [Ha Hf]%andb_true_iff Hb.
  repeat match goal with |- context [if ?c then _ else _] => destruct c end;
    auto using add_number, sub_number.
Qed.

Lemma writable_numbers (g : string → float → float) (written : string → bool)
    (db : Real.Db) :
  (∀ id b, PrimFloat.is_nan b = false → PrimFloat.is_nan (g id b) = false) →
  balancesAreNumbers db = true → writable g written db = true.
Proof.
  intros Hg Hdb. apply forallb_elem_of. intros w Hw.
  apply (proj1 (forallb_elem_of _ _) Hdb) in Hw. apply negb_true_iff in Hw.
  by rewrite (Hg _ _ Hw), andb_false_r.
Qed.

Lemma balancesAreNumbers_after (g : string → float → float) (written : string → bool)
    (now : Date) (db : Real.Db) :
  (∀ id b, PrimFloat.is_nan b = false → PrimFloat.is_nan (g id b) = false) →
  balancesAreNumbers db = true →
  balancesAreNumbers (Real.set_wallets (fmap (walletAfter g written now)) db) = true.
Proof.
  intros Hg Hdb. unfold balancesAreNumbers. simpl. rewrite forallb_fmap.
  apply forallb_elem_of. intros w Hw.
  apply (proj1 (forallb_elem_of _ _) Hdb) in Hw. apply negb_true_iff in Hw.
  simpl. unfold walletAfter. destruct (written _); simpl; [|by rewrite Hw].
  by rewrite (Hg _ _ Hw).
Qed.

Lemma float_neq (x y : float) : Prim2SF x ≠ Prim2SF y → x ≠ y.
Proof. intros H ->. by apply H. Qed.

Lemma real_updateWalletBalance_ok (now : Date) (t : Real.Transaction.t) (db : Real.Db) :
  writable (appliedBalance t) (referenced t) db = true →
  Real.TransactionService.updateWalletBalance now t db
  = (Ok tt,
     Real.set_wallets (fmap (walletAfter (appliedBalance t) (referenced t) now)) db).
Proof.
  intros Hw. destruct (updateWalletBalance_run now t db) as (Hr & Hdb & _).
  rewrite Hw in Hr. specialize (Hdb Hw).
  destruct (Real.TransactionService.updateWalletBalance now t db). simpl in *.
  by subst.
Qed.

Lemma real_reverseWalletBalance_ok (now : Date) (t : Real.Transaction.t) (db : Real.Db) :
  writable (reversedBalance t) (referenced t) db = true →
  Real.TransactionService.reverseWalletBalance now t db
  = (Ok tt,
     Real.set_wallets (fmap (walletAfter (reversedBalance t) (referenced t) now)) db).
Proof.
  intros Hw. destruct (reverseWalletBalance_run now t db) as (Hr & Hdb & _).
  rewrite Hw in Hr. specialize (Hdb Hw).
  destruct (Real.TransactionService.reverseWalletBalance now t db). simpl in *.
  by subst.
Qed.

(** C1 (as amended). On the double-precision balances that the code
    keeps, applying a transaction's effect ([updateWalletBalance]) performs,
    on every wallet row, the operations of the balance rules, each rounded:
    an income adds the amount to the wallet, an expense subtracts it, a
    transfer with a destination subtracts the amount and then the fee from
    the source and adds the amount to the destination; a transfer whose
    destination is absent leaves the whole database as it was. Reversing
    ([reverseWalletBalance]) performs the opposite operation in each place,
    with the same operands in the same order. Each succeeds exactly when
    every balance that it writes is a number, which is so whenever the
    amount and the fee are finite and no stored balance is NaN, and fails
    with the constraint error of SQLite otherwise. Neither writes another
    table, a wallet that the transaction does not reference, or a column
    other than the balance and the modification time of a wallet. *)
Theorem balance_effect_operations :
  (∀ (now : Date) (t : Real.Transaction.t) (db : Real.Db),
     let applied := Real.TransactionService.updateWalletBalance now t db in
     let reversed := Real.TransactionService.reverseWalletBalance now t db in
     applied.1 = (if writable (appliedBalance t) (referenced t) db
                  then Ok tt else Throw balanceRefused)
     ∧ reversed.1 = (if writable (reversedBalance t) (referenced t) db
                     then Ok tt else Throw balanceRefused)
     ∧ (writable (appliedBalance t) (referenced t) db = true →
        Real.wallets applied.2
        = walletAfter (appliedBalance t) (referenced t) now <$> Real.wallets db)
     ∧ (writable (reversedBalance t) (referenced t) db = true →
        Real.wallets reversed.2
        = walletAfter (reversedBalance t) (referenced t) now <$> Real.wallets db)
     ∧ otherRealTablesKept db applied.2 ∧ otherRealTablesKept db reversed.2
     ∧ (finiteAmounts t = true → balancesAreNumbers db = true →
        writable (appliedBalance t) (referenced t) db = true
        ∧ writable (reversedBalance t) (referenced t) db = true)
     ∧ (Real.Transaction.type t = "transfer" →
        truthy_string (Real.Transaction.toWalletId t) = false →
        applied = (Ok tt, db) ∧ reversed = (Ok tt, db)))
  ∧ (let apply t :=
       realBalances (Real.TransactionService.updateWalletBalance 2000 t realExampleDb).2 in
     let reverse t :=
       realBalances (Real.TransactionService.reverseWalletBalance 2000 t realExampleDb).2 in
     realBalances realExampleDb = [("A", 1000%float); ("B", 0%float)]
     ∧ apply (realRow "income" 500 "A" None None) = [("A", 1500%float); ("B", 0%float)]
     ∧ apply (realRow "expense" 200 "A" None None) = [("A", 800%float); ("B", 0%float)]
     ∧ apply (realRow "transfer" 300 "A" (Some "B") (Some 10%float))
       = [("A", 690%float); ("B", 300%float)]
     ∧ apply (realRow "transfer" 300 "A" None (Some 10%float))
       = [("A", 1000%float); ("B", 0%float)]
     ∧ reverse (realRow "income" 500 "A" None None) = [("A", 500%float); ("B", 0%float)]
     ∧ reverse (realRow "expense" 200 "A" None None) = [("A", 1200%float); ("B", 0%float)]
     ∧ reverse (realRow "transfer" 300 "A" (Some "B") (Some 10%float))
       = [("A", 1310%float); ("B", (-300)%float)]
     ∧ reverse (realRow "transfer" 300 "A" None (Some 10%float))
       = [("A", 1000%float); ("B", 0%float)]).
Proof.
  split; [|vm_compute; repeat split; reflexivity].
  intros now t db applied reversed. subst applied reversed.
  destruct (updateWalletBalance_run now t db) as (Ha1 & Ha2 & Ha3).
  destruct (reverseWalletBalance_run now t db) as (Hr1 & Hr2 & Hr3).
  split; [exact Ha1|]. split; [exact Hr1|].
  split; [intros Hw; by rewrite (Ha2 Hw)|]. split; [intros Hw; by rewrite (Hr2 Hw)|].
  split; [exact Ha3|]. split; [exact Hr3|]. split.
  - intros Hfinite Hnumbers. split; apply writable_numbers; try done.
    + intros id b. by apply appliedBalance_number.
    + intros id b. by apply reversedBalance_number.
  - intros Ht Hto.
    assert (Hnone : ∀ id, referenced t id = false).
    { intros id. unfold referenced. rewrite Hto, andb_false_r.
      rewrite !bool_decide_eq_false_2 by (rewrite Ht; discriminate). reflexivity. }
    destruct (no_statement now db (appliedBalance t) (referenced t) Hnone) as [Hwa Hdba].
    destruct (no_statement now db (reversedBalance t) (referenced t) Hnone) as [Hwr Hdbr].
    by rewrite (real_updateWalletBalance_ok now t db Hwa),
      (real_reverseWalletBalance_ok now t db Hwr), Hdba, Hdbr.
Qed.

(** C1 as the specification states it fails on doubles. A transfer of 0.1
    with a fee of 0.2 out of a wallet holding 0.3 leaves (0.3 − 0.1) − 0.2,
    which is not 0.3 − (0.1 + 0.2), the balance less amount plus fee. On a
    balance of 2^53 an income of 1 changes nothing when it is applied,
    while reversing it takes 1 away: the two do not move the balance by
    opposite amounts. And an expense of infinity on a balance of infinity
    is refused: nothing is subtracted. *)
Lemma balance_effect_counterexample :
  (let t := realRow "transfer" (1 / 10) "A" (Some "B") (Some (2 / 10)%float) in
   let db := Real.mkDb [realWallet "A" (3 / 10); realWallet "B" 0] [] [] [] [] [] in
   let applied := (Real.TransactionService.updateWalletBalance 2000 t db).2 in
   realBalances applied
   = [("A", (3 / 10 - 1 / 10 - 2 / 10)%float); ("B", (0 + 1 / 10)%float)]
   ∧ (3 / 10 - 1 / 10 - 2 / 10)%float ≠ (3 / 10 - (1 / 10 + 2 / 10))%float
   ∧ ¬ Forall2 (movedAsStated t 1) (Real.wallets db) (Real.wallets applied))
  ∧ (let t := realRow "income" 1 "A" None None in
     let db := realOneWallet 9007199254740992 in
     realBalances (Real.TransactionService.updateWalletBalance 2000 t db).2
     = [("A", 9007199254740992%float)]
     ∧ realBalances (Real.TransactionService.reverseWalletBalance 2000 t db).2
       = [("A", 9007199254740991%float)])
  ∧ (let t := realRow "expense" infinity "A" None None in
     let db := realOneWallet infinity in
     Real.TransactionService.updateWalletBalance 2000 t db = (Throw balanceRefused, db)).
Proof.
  split; [|split; by vm_compute].
  split; [by vm_compute|]. split.
  - apply float_neq. by vm_compute.
  - intros Hstated. apply Forall2_cons_1 in Hstated as [Hmoved _].
    unfold movedAsStated in Hmoved. revert Hmoved. apply float_neq. by vm_compute.
Qed.

(** ** Create, update and delete in double precision *)

Lemma real_create_run (id : string) (now : Date) (draft : Real.NewTransaction.t)
    (db : Real.Db) :
  let row := Real.TransactionService.newRow id now draft in
  selectById Real.Transaction.id id (Real.transactions db) = None →
  PrimFloat.is_nan (Real.Transaction.amount row) = false →
  writable (appliedBalance row) (referenced row) db = true →
  Real.TransactionService.create id now draft db
  = (Ok row,
     Real.set_wallets (fmap (walletAfter (appliedBalance row) (referenced row) now))
       (Real.set_transactions (λ _, (Real.transactions db ++ [row])%list) db)).
Proof.
  intros row Hfresh Hamount Hw. unfold Real.TransactionService.create.
  erewrite real_bind_Ok.
  2:{ unfold Real.TransactionService.insertReturning, insertRow. fold row.
      rewrite Hamount.
      change (Real.Transaction.id row) with id.
      rewrite Hfresh. reflexivity. }
  erewrite real_bind_Ok; [reflexivity|]. by apply real_updateWalletBalance_ok.
Qed.

Lemma real_delete_run (id : string) (now : Date) (db : Real.Db)
    (row : Real.Transaction.t) :
  selectById Real.Transaction.id id (Real.transactions db) = Some row →
  writable (reversedBalance row) (referenced row) db = true →
  Real.TransactionService.delete id now db
  = (Ok tt,
     Real.set_transactions (deleteById Real.Transaction.id id)
       (Real.set_wallets (fmap (walletAfter (reversedBalance row) (referenced row) now))
          db)).
Proof.
  intros Hrow Hw. unfold Real.TransactionService.delete.
  erewrite real_bind_Ok;
    [|unfold Real.TransactionService.getById, Real.gets; by rewrite Hrow].
  erewrite real_bind_Ok; [reflexivity|]. by apply real_reverseWalletBalance_ok.
Qed.

Lemma finiteAmounts_amount (t : Real.Transaction.t) :
  finiteAmounts t = true → PrimFloat.is_nan (Real.Transaction.amount t) = false.
Proof. intros [Ha _]%andb_true_iff. by apply is_finite_number. Qed.

(** C2 (as amended). For a draft whose amount and fee are finite, creating
    the transaction (with a fresh id, on balances that are numbers) and then
    deleting it by the id returned succeeds and restores the transaction
    table; no other table but the wallets is written. Every wallet that the
    transaction references ends with the balance that the two rounded
    operations give, the effect applied and then reversed; when that round
    trip is exact for the referenced wallets, every balance is the one
    before the create. *)
Theorem create_then_delete_round_trip
    (id : string) (now1 now2 : Date) (draft : Real.NewTransaction.t) (db : Real.Db) :
  let row := Real.TransactionService.newRow id now1 draft in
  selectById Real.Transaction.id id (Real.transactions db) = None →
  finiteAmounts row = true →
  balancesAreNumbers db = true →
  ∃ db1 db2,
    Real.TransactionService.create id now1 draft db = (Ok row, db1)
    ∧ Real.TransactionService.delete (Real.Transaction.id row) now2 db1 = (Ok tt, db2)
    ∧ Real.transactions db2 = Real.transactions db
    ∧ otherRealTablesKept db db2
    ∧ Real.wallets db2
      = (walletAfter (reversedBalance row) (referenced row) now2
         ∘ walletAfter (appliedBalance row) (referenced row) now1) <$> Real.wallets db
    ∧ ((∀ w, w ∈ Real.wallets db → referenced row (Real.Wallet.id w) = true →
          reversedBalance row (Real.Wallet.id w)
            (appliedBalance row (Real.Wallet.id w) (Real.Wallet.balance w))
          = Real.Wallet.balance w) →
       realBalances db2 = realBalances db).
Proof.
  intros row Hfresh Hfinite Hnumbers.
  assert (Happlied : ∀ id b, PrimFloat.is_nan b = false →
                             PrimFloat.is_nan (appliedBalance row id b) = false)
    by (intros; by apply appliedBalance_number).
  assert (Hreversed : ∀ id b, PrimFloat.is_nan b = false →
                              PrimFloat.is_nan (reversedBalance row id b) = false)
    by (intros; by apply reversedBalance_number).
  pose proof (real_create_run id now1 draft db Hfresh (finiteAmounts_amount row Hfinite)
                (writable_numbers _ _ db Happlied Hnumbers)) as Hcreate.
  fold row in Hcreate.
  set (db1 := Real.set_wallets _ _) in Hcreate.
  assert (Hrow : selectById Real.Transaction.id id (Real.transactions db1) = Some row)
    by (by apply selectById_app_fresh).
  assert (Hnumbers1 : balancesAreNumbers db1 = true)
    by (by apply (balancesAreNumbers_after _ _ now1
                    (Real.set_transactions (λ _, (Real.transactions db ++ [row])%list) db))).
  pose proof (real_delete_run id now2 db1 row Hrow
                (writable_numbers _ _ db1 Hreversed Hnumbers1)) as Hdelete.
  assert (Hwallets :
    Real.wallets
      (Real.set_transactions (deleteById Real.Transaction.id id)
         (Real.set_wallets
            (fmap (walletAfter (reversedBalance row) (referenced row) now2)) db1))
    = (walletAfter (reversedBalance row) (referenced row) now2
       ∘ walletAfter (appliedBalance row) (referenced row) now1) <$> Real.wallets db)
    by (simpl; by rewrite <- list_fmap_compose).
  eexists _, _. split; [exact Hcreate|]. split; [exact Hdelete|].
  split; [simpl; by apply deleteById_app_fresh|].
  split; [repeat split; simpl; by apply deleteById_app_fresh|].
  split; [exact Hwallets|].
  intros Hexact. unfold realBalances. rewrite Hwallets, <- list_fmap_compose.
  apply Forall_fmap_ext, Forall_forall. intros w Hw. simpl.
  unfold walletAfter at 2.
  destruct (referenced row (Real.Wallet.id w)) eqn:Href.
  - unfold walletAfter. simpl. rewrite Href. simpl. rewrite Href. simpl.
    by rewrite (Hexact w Hw Href).
  - unfold walletAfter. simpl. rewrite Href. simpl. by rewrite Href.
Qed.

(** C2, on the example of the specification: wallet A holds 1000, an
    expense of 200 is created (A = 800) and deleted again (A = 1000). *)
Lemma create_then_delete_round_trip_witness :
  ∃ db1 db2,
    Real.TransactionService.create "t1" 1000000 (realDraft "expense" 200 "A" None None)
      realExampleDb
    = (Ok (Real.TransactionService.newRow "t1" 1000000
             (realDraft "expense" 200 "A" None None)), db1)
    ∧ realBalances db1 = [("A", 800%float); ("B", 0%float)]
    ∧ Real.TransactionService.delete "t1" 2000000 db1 = (Ok tt, db2)
    ∧ realBalances db2 = [("A", 1000%float); ("B", 0%float)].
Proof.
  destruct (create_then_delete_round_trip "t1" 1000000 2000000
              (realDraft "expense" 200 "A" None None) realExampleDb
              eq_refl eq_refl eq_refl)
    as (db1 & db2 & Hcreate & Hdelete & _ & _ & _ & Hrestored).
  exists db1, db2. split; [exact Hcreate|].
  split; [vm_compute in Hcreate; by injection Hcreate as <-|].
  split; [exact Hdelete|].
  rewrite Hrestored; [reflexivity|].
  intros w Hw _.
  apply elem_of_cons in Hw as [->|Hw]; [reflexivity|].
  apply elem_of_cons in Hw as [->|Hw]; [reflexivity|].
  by apply elem_of_nil in Hw.
Defined.

(** C2 as the specification states it fails on doubles: a wallet holding
    0.1 holds 0.1 + 0.2 after an income of 0.2 is created, and
    (0.1 + 0.2) − 0.2 after it is deleted again, which is not 0.1. And after
    an income of infinity is created on an empty wallet the delete is
    refused: the transaction stays and the wallet keeps infinity. *)
Lemma create_then_delete_counterexample :
  (let db := realOneWallet (1 / 10) in
   let draft := realDraft "income" (2 / 10) "A" None None in
   let db1 := (Real.TransactionService.create "t1" 1000000 draft db).2 in
   let db2 := (Real.TransactionService.delete "t1" 2000000 db1).2 in
   (Real.TransactionService.create "t1" 1000000 draft db).1
   = Ok (Real.TransactionService.newRow "t1" 1000000 draft)
   ∧ (Real.TransactionService.delete "t1" 2000000 db1).1 = Ok tt
   ∧ realBalances db = [("A", (1 / 10)%float)]
   ∧ realBalances db1 = [("A", (1 / 10 + 2 / 10)%float)]
   ∧ realBalances db2 = [("A", (1 / 10 + 2 / 10 - 2 / 10)%float)]
   ∧ realBalances db2 ≠ realBalances db)
  ∧ (let db := realOneWallet 0 in
     let draft := realDraft "income" infinity "A" None None in
     let db1 := (Real.TransactionService.create "t1" 1000000 draft db).2 in
     (Real.TransactionService.create "t1" 1000000 draft db).1
     = Ok (Real.TransactionService.newRow "t1" 1000000 draft)
     ∧ realBalances db1 = [("A", infinity)]
     ∧ Real.TransactionService.delete "t1" 2000000 db1 = (Throw balanceRefused, db1)).
Proof.
  split; [|by vm_compute].
  intros db draft db1 db2.
  do 5 (split; [by vm_compute|]).
  intros Heq.
  apply (f_equal (λ l, Prim2SF <$> (snd <$> l))) in Heq.
  vm_compute in Heq. discriminate Heq.
Qed.

Lemma real_patchRow_id (data : Real.TransactionPatch.t) (now : Date)
    (t : Real.Transaction.t) :
  Real.Transaction.id (Real.TransactionService.patchRow data now t)
  = Real.Transaction.id t.
Proof. reflexivity. Qed.

Lemma real_updateReturning_run (id : string) (data : Real.TransactionPatch.t) (now : Date)
    (db : Real.Db) (old : Real.Transaction.t) :
  selectById Real.Transaction.id id (Real.transactions db) = Some old →
  (∀ t, t ∈ Real.transactions db → Real.Transaction.id t = id →
        PrimFloat.is_nan (Real.Transaction.amount
                            (Real.TransactionService.patchRow data now t)) = false) →
  Real.TransactionService.updateReturning id data now db
  = (Ok (Some (Real.TransactionService.patchRow data now old)),
     Real.set_transactions
       (updateById Real.Transaction.id id (Real.TransactionService.patchRow data now)) db).
Proof.
  intros Hold Hamount. unfold Real.TransactionService.updateReturning.
  assert (Hcond :
    forallb (λ t, negb (bool_decide (Real.Transaction.id t = id)
                        && PrimFloat.is_nan
                             (Real.Transaction.amount
                                (Real.TransactionService.patchRow data now t))))
      (Real.transactions db) = true).
  { apply forallb_elem_of. intros t Ht. case_bool_decide as Hid; [|reflexivity].
    by rewrite (Hamount t Ht Hid). }
  rewrite Hcond. erewrite real_bind_Ok; [|reflexivity].
  unfold Real.gets. simpl. f_equal. f_equal.
  apply selectById_updateById; [apply real_patchRow_id|exact Hold].
Qed.

Lemma real_update_run (id : string) (data : Real.TransactionPatch.t) (now : Date)
    (db : Real.Db) (old : Real.Transaction.t) :
  let new := Real.TransactionService.patchRow data now old in
  selectById Real.Transaction.id id (Real.transactions db) = Some old →
  finiteAmounts old = true →
  finiteAmounts new = true →
  balancesAreNumbers db = true →
  amountsAreNumbers db = true →
  Real.TransactionService.update id data now db
  = (Ok new,
     Real.set_wallets (fmap (walletAfter (appliedBalance new) (referenced new) now))
       (Real.set_transactions
          (updateById Real.Transaction.id id (Real.TransactionService.patchRow data now))
          (Real.set_wallets
             (fmap (walletAfter (reversedBalance old) (referenced old) now)) db))).
Proof.
  intros new Hold Hfold Hfnew Hbalances Hamounts.
  assert (Hreversed : ∀ id b, PrimFloat.is_nan b = false →
                              PrimFloat.is_nan (reversedBalance old id b) = false)
    by (intros; by apply reversedBalance_number).
  assert (Happlied : ∀ id b, PrimFloat.is_nan b = false →
                             PrimFloat.is_nan (appliedBalance new id b) = false)
    by (intros; by apply appliedBalance_number).
  unfold Real.TransactionService.update.
  erewrite real_bind_Ok;
    [|unfold Real.TransactionService.getById, Real.gets; by rewrite Hold].
  erewrite real_bind_Ok;
    [|apply real_reverseWalletBalance_ok; by apply writable_numbers].
  set (db1 := Real.set_wallets _ db).
  erewrite real_bind_Ok with (a := Some new).
  2:{ apply real_updateReturning_run; [exact Hold|].
      intros t Ht Hid. simpl.
      destruct (Real.TransactionPatch.amount data) as [amount|] eqn:Hpatch; simpl.
      - pose proof (finiteAmounts_amount new Hfnew) as Hnew. unfold new in Hnew.
        simpl in Hnew. by rewrite Hpatch in Hnew.
      - apply (proj1 (forallb_elem_of _ _) Hamounts) in Ht.
        by apply negb_true_iff in Ht. }
  erewrite real_bind_Ok; [reflexivity|].
  apply real_updateWalletBalance_ok, writable_numbers; [exact Happlied|].
  by apply (balancesAreNumbers_after _ _ now db).
Qed.

(** C3 (as amended). On stored numbers with finite amounts and fees, in
    the stored and in the patched row, [update] on an existing transaction
    succeeds and returns the patched row: every column that the patch sets
    has the value of the patch, every other column the stored value, and
    [updatedAt] the time of the call. The row of that id is replaced by it
    and no other transaction row changes. Every wallet row is first taken
    through the reversal of the stored row's effect and then through the
    effect of the patched row, each a rounded operation, whatever the patch
    changes (wallet, destination, type, amount, fee); no other table is
    written. On the example of the specification (A = 1000, B = 0, an
    income of 500 on A moved to B) this leaves A = 1000 and B = 500;
    rewritten as a transfer of 200 with a fee of 5 from B to A it leaves
    A = 1200 and B = −205. *)
Theorem update_reverses_then_reapplies :
  (∀ (id : string) (data : Real.TransactionPatch.t) (now : Date) (db : Real.Db)
     (old : Real.Transaction.t),
     let new := Real.TransactionService.patchRow data now old in
     selectById Real.Transaction.id id (Real.transactions db) = Some old →
     finiteAmounts old = true →
     finiteAmounts new = true →
     balancesAreNumbers db = true →
     amountsAreNumbers db = true →
     ∃ db',
       Real.TransactionService.update id data now db = (Ok new, db')
       ∧ new
         = Real.Transaction.mk (Real.Transaction.id old)
             (default (Real.Transaction.walletId old) (Real.TransactionPatch.walletId data))
             (default (Real.Transaction.type old) (Real.TransactionPatch.type data))
             (default (Real.Transaction.amount old) (Real.TransactionPatch.amount data))
             (default (Real.Transaction.categoryId old)
                (Real.TransactionPatch.categoryId data))
             (default (Real.Transaction.description old)
                (Real.TransactionPatch.description data))
             (default (Real.Transaction.notes old) (Real.TransactionPatch.notes data))
             (default (Real.Transaction.toWalletId old)
                (Real.TransactionPatch.toWalletId data))
             (default (Real.Transaction.transferFee old)
                (Real.nullable <$> Real.TransactionPatch.transferFee data))
             (default (Real.Transaction.recurringId old)
                (Real.TransactionPatch.recurringId data))
             (default (Real.Transaction.transactionDate old)
                (Real.asStored <$> Real.TransactionPatch.transactionDate data))
             (default (Real.Transaction.tags old) (Real.TransactionPatch.tags data))
             (default (Real.Transaction.attachments old)
                (Real.TransactionPatch.attachments data))
             (Real.Transaction.createdAt old) (Real.asStored now)
       ∧ selectById Real.Transaction.id id (Real.transactions db') = Some new
       ∧ (∀ other, other ≠ id →
            selectById Real.Transaction.id other (Real.transactions db')
            = selectById Real.Transaction.id other (Real.transactions db))
       ∧ length (Real.transactions db') = length (Real.transactions db)
       ∧ Real.wallets db'
         = (walletAfter (appliedBalance new) (referenced new) now
            ∘ walletAfter (reversedBalance old) (referenced old) now) <$> Real.wallets db
       ∧ Real.lendBorrow db' = Real.lendBorrow db
       ∧ Real.lendBorrowPayments db' = Real.lendBorrowPayments db
       ∧ Real.budgets db' = Real.budgets db
       ∧ Real.billReminders db' = Real.billReminders db)
  ∧ (let db1 :=
       (Real.TransactionService.create "t1" 1000000 (realDraft "income" 500 "A" None None)
          realExampleDb).2 in
     let moved := (Real.TransactionService.update "t1" (realMoveToWallet "B") 2000000 db1).2 in
     let rewritten :=
       (Real.TransactionService.update "t1"
          (realRewrite "B" "transfer" 200 (Some "A") (Some 5%float)) 2000000 db1).2 in
     realBalances realExampleDb = [("A", 1000%float); ("B", 0%float)]
     ∧ realBalances db1 = [("A", 1500%float); ("B", 0%float)]
     ∧ realBalances moved = [("A", 1000%float); ("B", 500%float)]
     ∧ realBalances rewritten = [("A", 1200%float); ("B", (-205)%float)]).
Proof.
  split; [|by vm_compute].
  intros id data now db old new Hold Hfold Hfnew Hbalances Hamounts.
  eexists. split; [by apply real_update_run|].
  split; [reflexivity|]. simpl.
  split; [apply selectById_updateById; [apply real_patchRow_id|exact Hold]|].
  split; [intros other Hother;
          apply selectById_updateById_ne; [apply real_patchRow_id|done]|].
  split; [unfold updateById; by rewrite length_fmap|].
  split; [by rewrite <- list_fmap_compose|]. by repeat split.
Qed.

(** C3, on the example: the income of 500 on A is rewritten as a transfer
    of 200 with a fee of 5 from B to A. *)
Lemma update_reverses_then_reapplies_witness :
  let db1 :=
    (Real.TransactionService.create "t1" 1000000 (realDraft "income" 500 "A" None None)
       realExampleDb).2 in
  ∃ db',
    Real.TransactionService.update "t1"
      (realRewrite "B" "transfer" 200 (Some "A") (Some 5%float)) 2000000 db1
    = (Ok (Real.Transaction.mk "t1" "B" "transfer" 200 None None None (Some "A")
             (Some 5%float) None 1000000 None None 1000000 2000000), db')
    ∧ realBalances db' = [("A", 1200%float); ("B", (-205)%float)].
Proof.
  intros db1.
  destruct (proj1 update_reverses_then_reapplies "t1"
              (realRewrite "B" "transfer" 200 (Some "A") (Some 5%float)) 2000000 db1
              (Real.TransactionService.newRow "t1" 1000000
                 (realDraft "income" 500 "A" None None))
              eq_refl eq_refl eq_refl eq_refl eq_refl)
    as (db' & Hrun & _ & _ & _ & _ & Hwallets & _).
  exists db'. split; [exact Hrun|].
  unfold realBalances. rewrite Hwallets. reflexivity.
Defined.

(** C3 as the specification states it fails on doubles. With A = 0.1 and
    B = 0, an income of 0.2 is created on A and then moved to B: the
    reversal leaves (0.1 + 0.2) − 0.2 on A, not the 0.1 that A held before
    the transaction and that it holds when the income is created on B in
    the first place. And an income of infinity on A cannot be updated at
    all: the reversal is refused, so nothing is reversed or applied and the
    row keeps its amount. *)
Lemma update_reverses_then_reapplies_counterexample :
  (let db := Real.mkDb [realWallet "A" (1 / 10); realWallet "B" 0] [] [] [] [] [] in
   let db1 :=
     (Real.TransactionService.create "t1" 1000000
        (realDraft "income" (2 / 10) "A" None None) db).2 in
   let moved := Real.TransactionService.update "t1" (realMoveToWallet "B") 2000000 db1 in
   let direct :=
     (Real.TransactionService.create "t1" 1000000
        (realDraft "income" (2 / 10) "B" None None) db).2 in
   moved.1
   = Ok (Real.Transaction.mk "t1" "B" "income" (2 / 10) None None None None
           (Some 0%float) None 1000000 None None 1000000 2000000)
   ∧ realBalances moved.2
     = [("A", (1 / 10 + 2 / 10 - 2 / 10)%float); ("B", (0 + 2 / 10)%float)]
   ∧ realBalances direct = [("A", (1 / 10)%float); ("B", (0 + 2 / 10)%float)]
   ∧ realBalances moved.2 ≠ realBalances direct)
  ∧ (let db1 :=
       (Real.TransactionService.create "t1" 1000000
          (realDraft "income" infinity "A" None None) (realOneWallet 0)).2 in
     realBalances db1 = [("A", infinity)]
     ∧ Real.TransactionService.update "t1"
         (Real.TransactionPatch.mk None None (Some 5%float) None None None None None None
            None None None None) 2000000 db1
       = (Throw balanceRefused, db1)).
Proof.
  split; [|by vm_compute].
  intros db db1 moved direct.
  do 3 (split; [by vm_compute|]).
  intros Heq.
  apply (f_equal (λ l, Prim2SF <$> (snd <$> l))) in Heq.
  vm_compute in Heq. discriminate Heq.
Qed.

(** * Further properties of the services *)

(** ** Transactions: delete, update and the sum of the balances *)

Lemma deleteById_absent {Row : Type} (key : Row → string) (i : string) (tbl : list Row) :
  selectById key i tbl = None → deleteById key i tbl = tbl.
Proof.
  intros Hn%selectById_None. unfold deleteById.
  induction Hn as [|x l Hx Hl IH]; [reflexivity|].
  rewrite filter_cons, decide_True by done. by rewrite IH.
Qed.

Lemma set_transactions_same (f : list Transaction.t → list Transaction.t) (db : Db) :
  f (transactions db) = transactions db → set_transactions f db = db.
Proof. intros H. destruct db. unfold set_transactions. simpl in *. by rewrite H. Qed.

Lemma delete_existing (id : string) (now : Date) (db : Db) (row : Transaction.t) :
  selectById Transaction.id id (transactions db) = Some row →
  TransactionService.delete id now db
  = (Ok tt, set_transactions (deleteById Transaction.id id)
              (TransactionService.reverseWalletBalance now row db).2).
Proof.
  intros Hrow. unfold TransactionService.delete.
  erewrite bind_Ok with (a := Some row) (db' := db);
    [|unfold TransactionService.getById, gets; by rewrite Hrow].
  erewrite bind_Ok; [reflexivity|].
  apply run_pair, reverseWalletBalance_ok.
Qed.

Lemma delete_missing (id : string) (now : Date) (db : Db) :
  selectById Transaction.id id (transactions db) = None →
  TransactionService.delete id now db = (Ok tt, db).
Proof.
  intros Hnone. unfold TransactionService.delete.
  erewrite bind_Ok with (a := None) (db' := db);
    [|unfold TransactionService.getById, gets; by rewrite Hnone].
  erewrite bind_Ok; [|reflexivity].
  unfold modify. f_equal. apply set_transactions_same. by apply deleteById_absent.
Qed.

(** X1. [delete] on an id that no transaction has returns normally and
    leaves the whole database as it was (where [update] throws); hence a
    second [delete] of the same id changes nothing more. *)
Theorem delete_missing_is_silent :
  (∀ (id : string) (now : Date) (db : Db),
     selectById Transaction.id id (transactions db) = None →
     TransactionService.delete id now db = (Ok tt, db))
  ∧ (∀ (id : string) (now now' : Date) (db : Db),
       let once := (TransactionService.delete id now db).2 in
       TransactionService.delete id now' once = (Ok tt, once)).
Proof.
  split; [exact delete_missing|].
  intros id now now' db once. apply delete_missing. subst once.
  destruct (selectById Transaction.id id (transactions db)) as [row|] eqn:Hrow.
  - rewrite (delete_existing id now db row Hrow). simpl.
    apply selectById_deleteById.
  - by rewrite (delete_missing id now db Hrow).
Qed.

(** X1, on the example database, which holds no transaction. *)
Lemma delete_missing_is_silent_witness :
  selectById Transaction.id "missing" (transactions exampleDb) = None
  ∧ TransactionService.delete "missing" 2000 exampleDb = (Ok tt, exampleDb).
Proof.
  split; [reflexivity|].
  exact (proj1 delete_missing_is_silent "missing" 2000 exampleDb eq_refl).
Defined.

Lemma create_run (id : string) (now : Date) (draft : NewTransaction.t) (db : Db) :
  selectById Transaction.id id (transactions db) = None →
  let row := TransactionService.newRow id now draft in
  let inserted := set_transactions (λ _, (transactions db ++ [row])%list) db in
  TransactionService.create id now draft db
  = (Ok row, (TransactionService.updateWalletBalance now row inserted).2).
Proof.
  intros Hfresh row inserted. unfold TransactionService.create.
  erewrite bind_Ok with (a := row) (db' := inserted).
  - erewrite bind_Ok; [reflexivity|]. apply run_pair, updateWalletBalance_ok.
  - unfold TransactionService.insertReturning, insertRow.
    change (Transaction.id (TransactionService.newRow id now draft)) with id.
    by rewrite Hfresh.
Qed.

Lemma create_transactions (id : string) (now : Date) (draft : NewTransaction.t) (db : Db) :
  selectById Transaction.id id (transactions db) = None →
  transactions (TransactionService.create id now draft db).2
  = (transactions db ++ [TransactionService.newRow id now draft])%list.
Proof.
  intros Hfresh. rewrite (create_run id now draft db Hfresh). cbv zeta.
  simpl. destruct (updateWalletBalance_ok now (TransactionService.newRow id now draft)
    (set_transactions
       (λ _, (transactions db ++ [TransactionService.newRow id now draft])%list) db))
    as [_ [Ht _]].
  exact Ht.
Qed.

Lemma create_wallets (id : string) (now : Date) (draft : NewTransaction.t) (db : Db) :
  selectById Transaction.id id (transactions db) = None →
  Forall2 (walletMoved (TransactionService.newRow id now draft) 1)
          (wallets db) (wallets (TransactionService.create id now draft db).2).
Proof.
  intros Hfresh. rewrite (create_run id now draft db Hfresh). cbv zeta. simpl.
  apply (updateWalletBalance_moves now (TransactionService.newRow id now draft)
           (set_transactions _ db)).
Qed.




(** ** Wallets: recalculated balances and credit cards *)

Lemma selectById_Forall2 {Row : Type} (key : Row → string) (R : Row → Row → Prop)
    (i : string) (l l' : list Row) (r : Row) :
  (∀ x y, R x y → key y = key x) →
  Forall2 R l l' →
  selectById key i l = Some r →
  ∃ r', selectById key i l' = Some r' ∧ R r r'.
Proof.
  intros Hkey H. induction H as [|x y l l' Hxy Hl IH]; intros Hsel.
  - discriminate.
  - rewrite selectById_cons in *. rewrite (Hkey _ _ Hxy).
    destruct (decide (key x = i)); [|by apply IH].
    simplify_eq. eauto.
Qed.

Lemma balanceFromTransactions_app (walletId : string) (rows : list Transaction.t)
    (row : Transaction.t) :
  Transaction.walletId row ≠ walletId →
  WalletService.balanceFromTransactions walletId (rows ++ [row])
  = WalletService.balanceFromTransactions walletId rows.
Proof.
  intros Hother. unfold WalletService.balanceFromTransactions.
  rewrite filter_app, filter_cons, decide_False, filter_nil, app_nil_r by done.
  reflexivity.
Qed.

Lemma recalculateBalance_run (walletId : string) (now : Date) (db : Db) :
  let recalculated :=
    set_wallets
      (updateById Wallet.id walletId
         (WalletService.patchRow
            (WalletService.onlyBalance
               (WalletService.balanceFromTransactions walletId (transactions db)))
            now)) db in
  WalletService.recalculateBalance walletId now db
  = (Ok (selectById Wallet.id walletId (wallets recalculated)), recalculated).
Proof. reflexivity. Qed.

Lemma wallet_patchRow_id (data : WalletPatch.t) (now : Date) (w : Wallet.t) :
  Wallet.id (WalletService.patchRow data now w) = Wallet.id w.
Proof. reflexivity. Qed.

(** X6. [recalculateBalance] sums only the transactions whose own wallet
    is the one recalculated, so money received by transfer from another
    wallet is lost: when a wallet's balance agrees with its recalculation,
    a transfer into it raises the balance by the amount, and recalculating
    afterwards puts the balance back to what it was before the transfer. *)
Theorem recalculateBalance_drops_incoming_transfer
    (id : string) (now now' : Date) (draft : NewTransaction.t) (db : Db)
    (destination : string) (w : Wallet.t) :
  selectById Transaction.id id (transactions db) = None →
  NewTransaction.type draft = "transfer" →
  NewTransaction.toWalletId draft = Some destination →
  destination ≠ "" →
  NewTransaction.walletId draft ≠ destination →
  selectById Wallet.id destination (wallets db) = Some w →
  Wallet.balance w
  = WalletService.balanceFromTransactions destination (transactions db) →
  let db1 := (TransactionService.create id now draft db).2 in
  let db2 := (WalletService.recalculateBalance destination now' db1).2 in
  balanceOf destination db1 = Some (Wallet.balance w + NewTransaction.amount draft)
  ∧ (WalletService.recalculateBalance destination now' db1).1
    = Ok (selectById Wallet.id destination (wallets db2))
  ∧ balanceOf destination db2 = Some (Wallet.balance w).
Proof.
  intros Hfresh Htype Hto Hne Hother Hw Hsync db1 db2.
  set (row := TransactionService.newRow id now draft).
  assert (Ht1 : transactions db1 = (transactions db ++ [row])%list)
    by (by apply create_transactions).
  assert (Hmoved : Forall2 (walletMoved row 1) (wallets db) (wallets db1))
    by (by apply create_wallets).
  destruct (selectById_Forall2 Wallet.id _ destination _ _ w
              (λ x y H, sameButBalance_id x y (proj1 H)) Hmoved Hw)
    as (w1 & Hw1 & _ & Hb1 & _).
  destruct (selectById_Some _ _ _ _ Hw) as [Hid _].
  assert (Hdelta : balanceDelta row 1 (Wallet.id w) = NewTransaction.amount draft).
  { unfold balanceDelta, row. simpl. rewrite Htype, Hto, Hid. simpl.
    rewrite (bool_decide_eq_true_2 (destination ≠ "")) by done.
    rewrite (bool_decide_eq_false_2 (destination = _)) by done.
    rewrite bool_decide_eq_true_2 by done. lia. }
  split; [unfold balanceOf; rewrite Hw1; simpl; by rewrite Hb1, Hdelta|].
  pose proof (recalculateBalance_run destination now' db1) as Hrun. cbv zeta in Hrun.
  split; [unfold db2; by rewrite Hrun|].
  - unfold balanceOf, db2. rewrite Hrun. simpl.
    rewrite (selectById_updateById Wallet.id destination _ _ w1
               (wallet_patchRow_id _ _) Hw1).
    simpl. rewrite Ht1, balanceFromTransactions_app by done. by rewrite Hsync.
Qed.

(** X6, on two wallets opened at 0: B receives 300 from A and shows 300;
    after its recalculation it shows 0 again. *)
Lemma recalculateBalance_drops_incoming_transfer_witness :
  let db1 := (TransactionService.create "t1" 1000
                (exampleTransfer 300 "A" (Some "B") None) openedDb).2 in
  let db2 := (WalletService.recalculateBalance "B" 2000 db1).2 in
  balanceOf "B" openedDb = Some 0
  ∧ balanceOf "B" db1 = Some 300
  ∧ balanceOf "B" db2 = Some 0.
Proof.
  intros db1 db2. split; [reflexivity|].
  destruct (recalculateBalance_drops_incoming_transfer "t1" 1000 2000
              (exampleTransfer 300 "A" (Some "B") None) openedDb "B"
              (exampleWallet "B" 0) eq_refl eq_refl eq_refl)
    as (H1 & _ & H2); done.
Defined.

Lemma utilization_over_100 (usage limit : Z) :
  0 < limit →
  (100 < inject_Z usage / inject_Z limit * 100)%Q ↔ limit < usage.
Proof.
  intros Hlimit. destruct limit as [|p|p]; try lia.
  unfold Qlt, Qdiv, Qmult, Qinv, inject_Z. simpl. lia.
Qed.

Lemma utilization_nonnegative (usage limit : Z) :
  0 ≤ usage → 0 < limit → (0 <= inject_Z usage / inject_Z limit * 100)%Q.
Proof.
  intros Husage Hlimit. destruct limit as [|p|p]; try lia.
  unfold Qle, Qdiv, Qmult, Qinv, inject_Z. simpl. lia.
Qed.

(** X8. [getCreditCardInfo] throws for an id that no wallet has and for a
    wallet of another type. For a credit card it changes nothing and
    reports the absolute value of the balance as usage (a card overpaid by
    an amount reports what a card owing that amount reports); the card is
    over its limit exactly when the available credit is negative, and, for
    a positive limit, exactly when the utilization rate exceeds 100. *)
Theorem getCreditCardInfo_reports_usage :
  (∀ (id : string) (db : Db),
     selectById Wallet.id id (wallets db) = None →
     WalletService.getCreditCardInfo id db
     = (Throw (Error "Wallet is not a credit card"), db))
  ∧ (∀ (id : string) (db : Db) (w : Wallet.t),
       selectById Wallet.id id (wallets db) = Some w →
       Wallet.type w ≠ "credit_card" →
       WalletService.getCreditCardInfo id db
       = (Throw (Error "Wallet is not a credit card"), db))
  ∧ (∀ (id : string) (db : Db) (w : Wallet.t),
       selectById Wallet.id id (wallets db) = Some w →
       Wallet.type w = "credit_card" →
       ∃ info,
         WalletService.getCreditCardInfo id db = (Ok info, db)
         ∧ WalletService.wallet info = w
         ∧ WalletService.currentUsage info = Z.abs (Wallet.balance w)
         ∧ WalletService.availableCredit info
           = or_number (Wallet.creditLimit w) 0 - Z.abs (Wallet.balance w)
         ∧ (WalletService.isOverLimit info = true
            ↔ WalletService.availableCredit info < 0)
         ∧ ∀ limit, Wallet.creditLimit w = Some limit → 0 < limit →
             (0 <= WalletService.utilizationRate info)%Q
             ∧ (WalletService.isOverLimit info = true
                ↔ (100 < WalletService.utilizationRate info)%Q)).
Proof.
  split; [|split].
  - intros id db Hnone. unfold WalletService.getCreditCardInfo.
    erewrite bind_Ok with (a := None) (db' := db);
      [reflexivity|unfold WalletService.getById, gets; by rewrite Hnone].
  - intros id db w Hw Htype. unfold WalletService.getCreditCardInfo.
    erewrite bind_Ok with (a := Some w) (db' := db);
      [|unfold WalletService.getById, gets; by rewrite Hw].
    by rewrite bool_decide_eq_true_2.
  - intros id db w Hw Htype. unfold WalletService.getCreditCardInfo.
    erewrite bind_Ok with (a := Some w) (db' := db);
      [|unfold WalletService.getById, gets; by rewrite Hw].
    rewrite bool_decide_eq_false_2 by (by intros []).
    eexists. split; [reflexivity|]. simpl.
    split; [reflexivity|]. split; [reflexivity|]. split; [reflexivity|].
    split; [rewrite bool_decide_eq_true; lia|].
    intros limit Hlimit Hpos. rewrite Hlimit. simpl.
    rewrite !bool_decide_eq_false_2 by lia. split.
    + apply utilization_nonnegative; lia.
    + rewrite bool_decide_eq_true, utilization_over_100 by lia. reflexivity.
Qed.

(** X8, on a card with a limit of 1000: owing 1200 or overpaid by 1200,
    it reports a usage of 1200 and is over its limit. *)
Lemma getCreditCardInfo_reports_usage_witness :
  ∃ owing overpaid,
    WalletService.getCreditCardInfo "card"
      (mkDb [exampleCard (-1200) (Some 1000)] [] [] [] [] [])
    = (Ok owing, mkDb [exampleCard (-1200) (Some 1000)] [] [] [] [] [])
    ∧ WalletService.getCreditCardInfo "card"
        (mkDb [exampleCard 1200 (Some 1000)] [] [] [] [] [])
      = (Ok overpaid, mkDb [exampleCard 1200 (Some 1000)] [] [] [] [] [])
    ∧ WalletService.currentUsage owing = 1200
    ∧ WalletService.currentUsage overpaid = 1200
    ∧ WalletService.availableCredit overpaid = -200.
Proof.
  destruct (proj2 (proj2 getCreditCardInfo_reports_usage) "card"
              (mkDb [exampleCard (-1200) (Some 1000)] [] [] [] [] [])
              (exampleCard (-1200) (Some 1000)) eq_refl eq_refl)
    as (owing & Hrun1 & _ & Husage1 & _).
  destruct (proj2 (proj2 getCreditCardInfo_reports_usage) "card"
              (mkDb [exampleCard 1200 (Some 1000)] [] [] [] [] [])
              (exampleCard 1200 (Some 1000)) eq_refl eq_refl)
    as (overpaid & Hrun2 & _ & Husage2 & Havailable & _).
  exists owing, overpaid. by repeat split.
Defined.

(** ** Debts: the incremental and the full recomputation *)



(** *** Payments in the summary *)

Section OneRow.
Context {Row : Type} (key : Row → string).

End OneRow.

(** ** Budgets: copying a period *)

Lemma set_budgets_twice (l l' : list Budget.t) (db : Db) :
  set_budgets (λ _, l') (set_budgets (λ _, l) db) = set_budgets (λ _, l') db.
Proof. reflexivity. Qed.

Lemma set_budgets_same (db : Db) : set_budgets (λ _, budgets db) db = db.
Proof. by destruct db. Qed.

Section CopyEach.
Context (uuid : nat → string) (now : nat → Date) (toMonth toYear : Z).
Context (uuid_inj : ∀ n m, uuid n = uuid m → n = m).

Lemma copyEach_spec (sources created0 : list Budget.t) (db : Db) :
  (∀ n, (length created0 ≤ n)%nat → selectById Budget.id (uuid n) (budgets db) = None) →
  ∃ created,
    BudgetService.copyEach uuid now toMonth toYear sources created0 db
    = (Ok (created0 ++ created)%list,
       set_budgets (λ _, (budgets db ++ created)%list) db)
    ∧ Forall (λ b, ∃ source, source ∈ sources ∧ copiedFrom toMonth toYear source b) created
    ∧ (∀ source, source ∈ sources →
         filter (BudgetService.inCategoryAndPeriod (Budget.categoryId source) toMonth toYear)
           (budgets db ++ created)%list ≠ [])
    ∧ (∀ c, (length (filter (BudgetService.inCategoryAndPeriod c toMonth toYear) created)
             ≤ if filter (BudgetService.inCategoryAndPeriod c toMonth toYear) (budgets db)
               is [] then 1 else 0)%nat).
Proof.
  revert created0 db. induction sources as [|source sources IH]; intros created0 db Hfresh.
  - exists []. rewrite !app_nil_r, set_budgets_same. split; [reflexivity|].
    split; [constructor|]. split; [by intros ? ?%elem_of_nil|].
    intros c. simpl. destruct (filter _ _); lia.
  - cbn [BudgetService.copyEach].
    destruct (filter (BudgetService.inCategoryAndPeriod (Budget.categoryId source)
                        toMonth toYear) (budgets db)) as [|found rest] eqn:Hfound.
    + erewrite bind_Ok with (a := None) (db' := db);
        [|unfold BudgetService.getByCategoryAndPeriod, gets; by rewrite Hfound].
      set (new := BudgetService.newRow (uuid (length created0)) (now (length created0))
                    (NewBudget.mk (Budget.categoryId source) (Budget.amount source)
                       (Budget.period source) (Some toMonth) (Some toYear))).
      set (db1 := set_budgets (λ _, (budgets db ++ [new])%list) db).
      erewrite bind_Ok with (a := new) (db' := db1).
      2:{ unfold BudgetService.create, insertRow.
          change (Budget.id (BudgetService.newRow ?i ?t ?d)) with i.
          by rewrite Hfresh. }
      destruct (IH (created0 ++ [new])%list db1) as (created & Hrun & Hcopied & Hcover & Hbound).
      { intros n Hn. rewrite length_app in Hn. simpl in Hn. simpl.
        rewrite selectById_app_r by (apply Hfresh; lia).
        rewrite selectById_cons, decide_False; [reflexivity|].
        simpl. intros Heq%uuid_inj. lia. }
      exists (new :: created). rewrite Hrun. simpl.
      rewrite <- !app_assoc. simpl. split; [reflexivity|]. split; [|split].
      * constructor.
        -- exists source. split; [left|]. by repeat split.
        -- eapply Forall_impl; [exact Hcopied|].
           intros b (s & Hs & Hb). exists s. split; [by right|exact Hb].
      * intros s [->|Hs]%elem_of_cons.
        -- rewrite filter_app, filter_cons, decide_True by done.
           by destruct (filter _ (budgets db)).
        -- specialize (Hcover s Hs). simpl in Hcover.
           by rewrite <- app_assoc in Hcover.
      * intros c. specialize (Hbound c). simpl in Hbound.
        rewrite filter_app, filter_cons, filter_nil in Hbound. rewrite filter_cons.
        destruct (decide (BudgetService.inCategoryAndPeriod c toMonth toYear new))
          as [Hnew|Hnew].
        -- destruct Hnew as (Hc & _). simpl in Hc. subst c. rewrite Hfound.
           simpl. rewrite Hfound in Hbound. simpl in Hbound. lia.
        -- rewrite app_nil_r in Hbound. exact Hbound.
    + erewrite bind_Ok with (a := Some found) (db' := db);
        [|unfold BudgetService.getByCategoryAndPeriod, gets; by rewrite Hfound].
      destruct (IH created0 db Hfresh) as (created & Hrun & Hcopied & Hcover & Hbound).
      exists created. split; [exact Hrun|]. split; [|split].
      * eapply Forall_impl; [exact Hcopied|].
        intros b (s & Hs & Hb). exists s. split; [by right|exact Hb].
      * intros s [->|Hs]%elem_of_cons; [|by apply Hcover].
        rewrite filter_app, Hfound. discriminate.
      * exact Hbound.
Qed.

Lemma copyEach_nothing_to_do (sources created0 : list Budget.t) (db : Db) :
  (∀ source, source ∈ sources →
     filter (BudgetService.inCategoryAndPeriod (Budget.categoryId source) toMonth toYear)
       (budgets db) ≠ []) →
  BudgetService.copyEach uuid now toMonth toYear sources created0 db = (Ok created0, db).
Proof.
  induction sources as [|source sources IH]; intros Hcover; [reflexivity|].
  cbn [BudgetService.copyEach].
  destruct (filter (BudgetService.inCategoryAndPeriod (Budget.categoryId source)
                      toMonth toYear) (budgets db)) as [|found rest] eqn:Hfound.
  - exfalso. apply (Hcover source); [left|exact Hfound].
  - erewrite bind_Ok with (a := Some found) (db' := db);
      [|unfold BudgetService.getByCategoryAndPeriod, gets; by rewrite Hfound].
    apply IH. intros s Hs. apply Hcover. by right.
Qed.

End CopyEach.

Lemma exampleUuid_length (n : nat) : String.length (exampleUuid n) = S n.
Proof. induction n as [|n IH]; [reflexivity|]. simpl. by f_equal. Qed.

Lemma exampleUuid_inj (n m : nat) : exampleUuid n = exampleUuid m → n = m.
Proof.
  intros H. apply (f_equal String.length) in H.
  rewrite !exampleUuid_length in H. lia.
Qed.

Lemma exampleUuid_head (n : nat) : String.get 0 (exampleUuid n) = String.get 0 "u".
Proof. by destruct n. Qed.

Lemma exampleUuid_fresh (tbl : list Budget.t) (n : nat) :
  Forall (λ b, String.get 0 (Budget.id b) ≠ String.get 0 "u") tbl →
  selectById Budget.id (exampleUuid n) tbl = None.
Proof.
  intros H. apply selectById_None. eapply Forall_impl; [exact H|].
  intros b Hb Heq. simpl in Hb, Heq. by rewrite Heq, exampleUuid_head in Hb.
Qed.

(** X12. [copyBudgets] with fresh, distinct ids never fails and only
    appends rows to the budgets table: each new row is a copy (same category,
    amount and period kind) of a budget of the source period, placed in the
    target period; afterwards every category budgeted in the source period has
    a budget in the target period; and a category gets at most one new row,
    none when it had a target-period budget already. *)
Theorem copyBudgets_adds_missing_only (fromMonth fromYear toMonth toYear : Z)
    (uuid : nat → string) (now : nat → Date) (db : Db) :
  (∀ n m, uuid n = uuid m → n = m) →
  (∀ n, selectById Budget.id (uuid n) (budgets db) = None) →
  ∃ created,
    BudgetService.copyBudgets fromMonth fromYear toMonth toYear uuid now db
    = (Ok created, set_budgets (λ _, (budgets db ++ created)%list) db)
    ∧ Forall (λ b, ∃ source, source ∈ budgets db
                   ∧ BudgetService.inPeriod fromMonth fromYear source
                   ∧ copiedFrom toMonth toYear source b) created
    ∧ (∀ source, source ∈ budgets db → BudgetService.inPeriod fromMonth fromYear source →
         ∃ b, b ∈ (budgets db ++ created)%list
              ∧ BudgetService.inCategoryAndPeriod (Budget.categoryId source) toMonth toYear b)
    ∧ (∀ c, (length (filter (BudgetService.inCategoryAndPeriod c toMonth toYear) created)
             ≤ if filter (BudgetService.inCategoryAndPeriod c toMonth toYear) (budgets db)
               is [] then 1 else 0)%nat).
Proof.
  intros Hinj Hfresh. unfold BudgetService.copyBudgets.
  erewrite bind_Ok; [|reflexivity].
  destruct (copyEach_spec uuid now toMonth toYear Hinj
              (filter (BudgetService.inPeriod fromMonth fromYear) (budgets db)) [] db)
    as (created & Hrun & Hcopied & Hcover & Hbound); [by intros|].
  exists created. split; [exact Hrun|]. split; [|split; [|exact Hbound]].
  - eapply Forall_impl; [exact Hcopied|].
    intros b (s & (Hp & Hs)%list_elem_of_filter & Hb). by exists s.
  - intros s Hs Hp.
    specialize (Hcover s (proj2 (list_elem_of_filter _ _ _) (conj Hp Hs))).
    destruct (filter (BudgetService.inCategoryAndPeriod (Budget.categoryId s)
                        toMonth toYear) (budgets db ++ created)%list)
      as [|b rest] eqn:Hf; [done|].
    assert (b ∈ b :: rest) as Hb by left. rewrite <- Hf in Hb.
    apply list_elem_of_filter in Hb as (Hb & Hin). by exists b.
Qed.

Lemma copyBudgets_adds_missing_only_witness :
  ∃ created,
    BudgetService.copyBudgets 1 2024 2 2024 exampleUuid (λ _, 50)
      (set_budgets (λ _, [exampleBudget "b1" "food" 300 1 2024;
                          exampleBudget "b2" "rent" 900 1 2024;
                          exampleBudget "b3" "rent" 950 2 2024]) emptyDb)
    = (Ok created,
       set_budgets (λ _, ([exampleBudget "b1" "food" 300 1 2024;
                           exampleBudget "b2" "rent" 900 1 2024;
                           exampleBudget "b3" "rent" 950 2 2024] ++ created)%list) emptyDb)
    ∧ length created = 1%nat.
Proof.
  destruct (copyBudgets_adds_missing_only 1 2024 2 2024 exampleUuid (λ _, 50)
              (set_budgets (λ _, [exampleBudget "b1" "food" 300 1 2024;
                                  exampleBudget "b2" "rent" 900 1 2024;
                                  exampleBudget "b3" "rent" 950 2 2024]) emptyDb))
    as (created & Hrun & _).
  - exact exampleUuid_inj.
  - intros n. apply exampleUuid_fresh. by repeat (constructor; [by vm_compute|]).
  - exists created. split; [exact Hrun|].
    vm_compute in Hrun. by injection Hrun as <-.
Defined.

(** X13. Running [copyBudgets] a second time for the same two periods
    (with any ids and at any time) creates nothing and leaves the database as
    the first run left it. *)
Theorem copyBudgets_again_copies_nothing (fromMonth fromYear toMonth toYear : Z)
    (uuid uuid' : nat → string) (now now' : nat → Date) (db : Db) :
  (∀ n m, uuid n = uuid m → n = m) →
  (∀ n, selectById Budget.id (uuid n) (budgets db) = None) →
  (BudgetService.copyBudgets fromMonth fromYear toMonth toYear uuid now ;;
   BudgetService.copyBudgets fromMonth fromYear toMonth toYear uuid' now') db
  = (Ok [], (BudgetService.copyBudgets fromMonth fromYear toMonth toYear uuid now db).2).
Proof.
  intros Hinj Hfresh. unfold BudgetService.copyBudgets at 1 3.
  rewrite (bind_Ok (BudgetService.getByPeriod fromMonth fromYear) _ db db
             (filter (BudgetService.inPeriod fromMonth fromYear) (budgets db)))
    by reflexivity.
  destruct (copyEach_spec uuid now toMonth toYear Hinj
              (filter (BudgetService.inPeriod fromMonth fromYear) (budgets db)) [] db)
    as (created & Hrun & Hcopied & Hcover & _); [by intros|].
  simpl in Hrun.
  erewrite bind_Ok; [|exact Hrun]. rewrite Hrun. simpl.
  unfold BudgetService.copyBudgets. erewrite bind_Ok; [|reflexivity].
  apply copyEach_nothing_to_do. simpl.
  intros s (Hp & [Hs|Hs]%elem_of_app)%list_elem_of_filter.
  - apply Hcover. by apply list_elem_of_filter.
  - rewrite Forall_forall in Hcopied.
    destruct (Hcopied s Hs) as (s0 & _ & (Hm & Hy) & _).
    intros Hnil.
    assert (s ∈ filter (BudgetService.inCategoryAndPeriod (Budget.categoryId s)
                          toMonth toYear) (budgets db ++ created)%list) as Hin.
    { apply list_elem_of_filter. split; [by repeat split|].
      apply elem_of_app. by right. }
    rewrite Hnil in Hin. by apply elem_of_nil in Hin.
Qed.

Lemma copyBudgets_again_copies_nothing_witness :
  (BudgetService.copyBudgets 1 2024 2 2024 exampleUuid (λ _, 50) ;;
   BudgetService.copyBudgets 1 2024 2 2024 exampleUuid (λ _, 60))
    (set_budgets (λ _, [exampleBudget "b1" "food" 300 1 2024;
                        exampleBudget "b2" "rent" 900 1 2024]) emptyDb)
  = (Ok [],
     (BudgetService.copyBudgets 1 2024 2 2024 exampleUuid (λ _, 50)
        (set_budgets (λ _, [exampleBudget "b1" "food" 300 1 2024;
                            exampleBudget "b2" "rent" 900 1 2024]) emptyDb)).2).
Proof.
  apply (copyBudgets_again_copies_nothing 1 2024 2 2024 exampleUuid exampleUuid
           (λ _, 50) (λ _, 60)).
  - exact exampleUuid_inj.
  - intros n. apply exampleUuid_fresh. by repeat (constructor; [by vm_compute|]).
Defined.

(** ** Bill reminders: postponing, listing and counting *)

Lemma MakeDay_date (year month date k : Z) :
  JsDate.MakeDay year month (date + k) = JsDate.MakeDay year month date + k.
Proof. unfold JsDate.MakeDay. lia. Qed.

Lemma MakeDay_of_Day (day : Z) :
  JsDate.MakeDay (JsDate.yearOfDay day) (JsDate.monthOfDay day) (JsDate.dateOfDay day) = day.
Proof.
  pose proof (civilOfDay_valid day) as H. rewrite civilOfDay_fields in H.
  by destruct H as (_ & _ & H).
Qed.

Lemma Day_TimeWithinDay (t : Z) :
  JsDate.MakeDate (JsDate.Day t) (JsDate.TimeWithinDay t) = t.
Proof.
  unfold JsDate.MakeDate, JsDate.Day, JsDate.TimeWithinDay, JsDate.msPerDay. div_lia.
Qed.

(** [setDate(getDate() + k)] moves a date by [k] whole days. *)
Lemma setDate_add (tza : Z) (d : Date) (k : Z) :
  JsDate.setDate tza d (JsDate.getDate tza d + k) = d + k * JsDate.msPerDay.
Proof.
  unfold JsDate.setDate, JsDate.getDate, JsDate.YearFromTime, JsDate.MonthFromTime,
    JsDate.DateFromTime.
  cbv zeta. rewrite MakeDay_date, MakeDay_of_Day.
  pose proof (Day_TimeWithinDay (JsDate.LocalTime tza d)) as H.
  unfold JsDate.MakeDate, JsDate.UTC, JsDate.LocalTime in *. lia.
Qed.

Lemma snooze_run (tza : Z) (id : string) (days : Z) (now : Date) (db : Db)
    (reminder : BillReminder.t) :
  selectById BillReminder.id id (billReminders db) = Some reminder →
  BillReminderService.snooze tza id days now db
  = (Ok (Some (postponed days now reminder)),
     set_billReminders
       (updateById BillReminder.id id
          (BillReminderService.patchRow
             (BillReminderService.dueAndReminder
                (BillReminder.dueDate reminder + days * JsDate.msPerDay)
                ((λ reminderDate, reminderDate + days * JsDate.msPerDay)
                   <$> BillReminder.reminderDate reminder)) now)) db).
Proof.
  intros Hrec. unfold BillReminderService.snooze.
  erewrite bind_Ok with (a := Some reminder) (db' := db);
    [|unfold BillReminderService.getById, gets; by rewrite Hrec].
  rewrite setDate_add.
  replace (match BillReminder.reminderDate reminder with
           | Some reminderDate =>
             Some (JsDate.getTime reminderDate + days * 24 * 60 * 60 * 1000)
           | None => None
           end)
    with ((λ reminderDate, reminderDate + days * JsDate.msPerDay)
            <$> BillReminder.reminderDate reminder)
    by (destruct (BillReminder.reminderDate reminder); simpl; [f_equal|reflexivity];
        unfold JsDate.getTime, JsDate.msPerDay; lia).
  unfold BillReminderService.update. erewrite bind_Ok; [|reflexivity].
  unfold gets. simpl. f_equal. f_equal.
  erewrite selectById_updateById; [|apply billReminder_patchRow_id|exact Hrec].
  reflexivity.
Qed.

(** X14. [snooze] of an existing reminder by a whole number of days
    (negative ones included) moves its due date by exactly that many times 24
    hours, for any constant local time offset, and its reminder date (if it
    has one) by as much, so that the lead time stays; the row keeps every
    other field but [updatedAt], is returned, and no other row or table
    changes. *)
Theorem snooze_postpones_both_dates (tza : Z) (id : string) (days : Z) (now : Date)
    (db : Db) (reminder : BillReminder.t) :
  selectById BillReminder.id id (billReminders db) = Some reminder →
  ∃ rows,
    BillReminderService.snooze tza id days now db
    = (Ok (Some (postponed days now reminder)), set_billReminders (λ _, rows) db)
    ∧ selectById BillReminder.id id rows = Some (postponed days now reminder)
    ∧ (∀ other, other ≠ id →
         selectById BillReminder.id other rows
         = selectById BillReminder.id other (billReminders db))
    ∧ length rows = length (billReminders db).
Proof.
  intros Hrec. eexists. split; [by apply snooze_run|]. split; [|split].
  - erewrite selectById_updateById; [reflexivity|apply billReminder_patchRow_id|exact Hrec].
  - intros other Hother. apply selectById_updateById_ne; [apply billReminder_patchRow_id|done].
  - unfold updateById. by rewrite length_fmap.
Qed.

(** X14, on an example: a reminder due on 31 January with a notice three
    days before, snoozed by one day, is due on 1 February with the notice on
    29 January. *)
Lemma snooze_postpones_both_dates_witness :
  ∃ rows,
    BillReminderService.snooze 19800000 "r1" 1 5000
      (billDb [exampleReminder "r1" (Some 100) (JsDate.utcDate 2024 1 31)
                 (Some (JsDate.utcDate 2024 1 28)) false])
    = (Ok (Some (postponed 1 5000
                   (exampleReminder "r1" (Some 100) (JsDate.utcDate 2024 1 31)
                      (Some (JsDate.utcDate 2024 1 28)) false))),
       billDb rows)
    ∧ (BillReminder.dueDate <$> rows) = [JsDate.utcDate 2024 2 1]
    ∧ (BillReminder.reminderDate <$> rows) = [Some (JsDate.utcDate 2024 1 29)].
Proof.
  destruct (snooze_postpones_both_dates 19800000 "r1" 1 5000
              (billDb [exampleReminder "r1" (Some 100) (JsDate.utcDate 2024 1 31)
                         (Some (JsDate.utcDate 2024 1 28)) false])
              (exampleReminder "r1" (Some 100) (JsDate.utcDate 2024 1 31)
                 (Some (JsDate.utcDate 2024 1 28)) false) eq_refl)
    as (rows & Hrun & _).
  exists rows. split; [exact Hrun|].
  vm_compute in Hrun. injection Hrun as <-. by vm_compute.
Defined.

(** X15. Snoozing a reminder by some days and then by the opposite number
    of days gives back its due date and its reminder date; of the row only
    [updatedAt] differs from before. *)
Theorem snooze_there_and_back (tza : Z) (id : string) (days : Z) (now1 now2 : Date)
    (db : Db) (reminder : BillReminder.t) :
  selectById BillReminder.id id (billReminders db) = Some reminder →
  ∃ rows,
    (BillReminderService.snooze tza id days now1 ;;
     BillReminderService.snooze tza id (- days) now2) db
    = (Ok (Some (postponed 0 now2 reminder)), set_billReminders (λ _, rows) db)
    ∧ selectById BillReminder.id id rows = Some (postponed 0 now2 reminder)
    ∧ BillReminder.dueDate (postponed 0 now2 reminder) = BillReminder.dueDate reminder
    ∧ BillReminder.reminderDate (postponed 0 now2 reminder)
      = BillReminder.reminderDate reminder.
Proof.
  intros Hrec.
  assert (Hback : postponed (- days) now2 (postponed days now1 reminder)
                  = postponed 0 now2 reminder).
  { unfold postponed. simpl. f_equal; [lia|].
    destruct (BillReminder.reminderDate reminder); simpl; [f_equal; lia|reflexivity]. }
  pose proof (snooze_run tza id days now1 db reminder Hrec) as Hrun1.
  set (db1 := set_billReminders _ db) in Hrun1.
  assert (Hrec1 : selectById BillReminder.id id (billReminders db1)
                  = Some (postponed days now1 reminder)).
  { unfold db1. simpl.
    erewrite selectById_updateById; [reflexivity|apply billReminder_patchRow_id|exact Hrec]. }
  pose proof (snooze_run tza id (- days) now2 db1 _ Hrec1) as Hrun2.
  rewrite Hback in Hrun2.
  eexists. split; [|split; [|split]].
  - erewrite bind_Ok; [|exact Hrun1]. rewrite Hrun2. reflexivity.
  - simpl. erewrite selectById_updateById;
      [|apply billReminder_patchRow_id|exact Hrec1].
    f_equal. exact Hback.
  - simpl. lia.
  - simpl. destruct (BillReminder.reminderDate reminder); simpl; [f_equal; lia|reflexivity].
Qed.

Lemma snooze_there_and_back_witness :
  ∃ rows,
    (BillReminderService.snooze 19800000 "r1" 45 5000 ;;
     BillReminderService.snooze 19800000 "r1" (- 45) 6000)
      (billDb [exampleReminder "r1" (Some 100) (JsDate.utcDate 2024 1 31)
                 (Some (JsDate.utcDate 2024 1 28)) false])
    = (Ok (Some (postponed 0 6000
                   (exampleReminder "r1" (Some 100) (JsDate.utcDate 2024 1 31)
                      (Some (JsDate.utcDate 2024 1 28)) false))),
       billDb rows)
    ∧ (BillReminder.dueDate <$> rows) = [JsDate.utcDate 2024 1 31].
Proof.
  destruct (snooze_there_and_back 19800000 "r1" 45 5000 6000
              (billDb [exampleReminder "r1" (Some 100) (JsDate.utcDate 2024 1 31)
                         (Some (JsDate.utcDate 2024 1 28)) false])
              (exampleReminder "r1" (Some 100) (JsDate.utcDate 2024 1 31)
                 (Some (JsDate.utcDate 2024 1 28)) false) eq_refl)
    as (rows & Hrun & _).
  exists rows. split; [exact Hrun|].
  vm_compute in Hrun. injection Hrun as <-. by vm_compute.
Defined.

Lemma count_totalsOf_cons (r : BillReminder.t) (rows : list BillReminder.t) :
  BillReminderService.count (BillReminderService.totalsOf (r :: rows))
  = 1 + BillReminderService.count (BillReminderService.totalsOf rows).
Proof. unfold BillReminderService.totalsOf, countOf. simpl. lia. Qed.

Lemma counts_overlap (now : Date) (rows : list BillReminder.t) :
  let unpaid := BillReminderService.totalsOf
                  (filter (λ r, BillReminder.isPaid r = false) rows) in
  let overdue := BillReminderService.totalsOf
                   (filter (λ r, BillReminder.isPaid r = false
                                 ∧ BillReminderService.dueUntil now r) rows) in
  let upcoming := BillReminderService.totalsOf
                    (filter (λ r, BillReminder.isPaid r = false
                                  ∧ BillReminderService.dueFrom now r) rows) in
  BillReminderService.count overdue + BillReminderService.count upcoming
  = BillReminderService.count unpaid + countOf (filter (dueRightNow now) rows).
Proof.
  induction rows as [|r rows IH]; [by vm_compute|].
  cbv zeta in *. rewrite !filter_cons.
  assert (Hcases :
    BillReminder.isPaid r = true
    ∨ BillReminder.isPaid r = false
      ∧ (mapToDriverValue (BillReminder.dueDate r) < mapToDriverValue now
         ∨ mapToDriverValue (BillReminder.dueDate r) = mapToDriverValue now
         ∨ mapToDriverValue now < mapToDriverValue (BillReminder.dueDate r))).
  { destruct (BillReminder.isPaid r); [by left|right]. split; [done|lia]. }
  unfold dueRightNow, BillReminderService.dueUntil, BillReminderService.dueFrom in *.
  destruct Hcases as [Hp|[Hp [Hd|[Hd|Hd]]]];
    repeat (first [rewrite decide_True by (split; [done|lia])
                  |rewrite decide_True by done
                  |rewrite decide_False by (rewrite Hp; intros [? ?]; done)
                  |rewrite decide_False by (rewrite Hp; done)
                  |rewrite decide_False by (intros [? ?]; lia)]);
    rewrite ?count_totalsOf_cons; unfold countOf in *; simpl length; lia.
Qed.

(** X16. In [getSummary] every unpaid reminder is counted as overdue or as
    upcoming, and one that is due within the very second of the call as both:
    the overdue and upcoming counts add up to the unpaid count plus the
    number of unpaid reminders due right now. *)
Theorem getSummary_counts_due_now_twice (now : Date) (db : Db) :
  ∃ summary,
    BillReminderService.getSummary now db = (Ok summary, db)
    ∧ BillReminderService.count (BillReminderService.overdue summary)
      + BillReminderService.count (BillReminderService.upcoming summary)
      = BillReminderService.count (BillReminderService.unpaid summary)
        + countOf (filter (dueRightNow now) (billReminders db)).
Proof.
  eexists. split; [reflexivity|]. exact (counts_overlap now (billReminders db)).
Qed.

(** Comparing in whole seconds is comparing the times themselves when the
    smaller side is a whole second. *)
Lemma mapToDriverValue_le (a b : Date) :
  a `mod` 1000 = 0 → (mapToDriverValue a ≤ mapToDriverValue b ↔ a ≤ b).
Proof. unfold mapToDriverValue. intros. split; intros; div_lia. Qed.

Lemma elem_of_merge_sort {A : Type} (R : relation A) `{!∀ x y, Decision (R x y)}
    (x : A) (l : list A) :
  x ∈ merge_sort R l ↔ x ∈ l.
Proof. by rewrite merge_sort_Permutation. Qed.

Lemma setHours_midnight (tza : Z) (now : Date) :
  JsDate.setHours tza now 0 0 0 0
  = JsDate.UTC tza (JsDate.Day (JsDate.LocalTime tza now) * JsDate.msPerDay).
Proof.
  unfold JsDate.setHours, JsDate.MakeDate, JsDate.MakeTime. cbv zeta. f_equal. lia.
Qed.

(** X17. [getDueToday] lists exactly the unpaid reminders that are due on
    the local calendar day of the call, and also those due at the first
    instant of the following day (the upper bound of the window is
    inclusive). Local time is at a constant offset of whole seconds from UTC,
    and the due date is a whole second, as stored dates are. *)
Theorem getDueToday_window (tza : Z) (now : Date) (db : Db) (r : BillReminder.t) :
  tza `mod` 1000 = 0 →
  BillReminder.dueDate r `mod` 1000 = 0 →
  ∃ listed,
    BillReminderService.getDueToday tza now db = (Ok listed, db)
    ∧ (r ∈ listed ↔
       r ∈ billReminders db ∧ BillReminder.isPaid r = false
       ∧ (JsDate.Day (JsDate.LocalTime tza (BillReminder.dueDate r))
          = JsDate.Day (JsDate.LocalTime tza now)
          ∨ BillReminder.dueDate r = nextLocalMidnight tza now)).
Proof.
  intros Htza Hdue. eexists. split; [reflexivity|].
  rewrite elem_of_merge_sort, list_elem_of_filter.
  rewrite setDate_add, setHours_midnight.
  unfold BillReminderService.dueFrom, BillReminderService.dueUntil.
  rewrite !mapToDriverValue_le;
    [|exact Hdue
     |unfold JsDate.UTC, JsDate.msPerDay; div_lia].
  unfold nextLocalMidnight, JsDate.UTC, JsDate.LocalTime, JsDate.Day, JsDate.msPerDay.
  set (today := (now + tza) `div` 86400000).
  split.
  - intros ((Hp & Hfrom & Hto) & Hin). split; [exact Hin|]. split; [exact Hp|].
    destruct (decide (BillReminder.dueDate r = (today + 1) * 86400000 - tza)) as [Heq|Hne];
      [by right|left].
    clearbody today. symmetry.
    apply Z.div_unique with (r := BillReminder.dueDate r + tza - today * 86400000); lia.
  - intros (Hin & Hp & Hday). split; [|exact Hin]. split; [exact Hp|].
    destruct Hday as [Hday|Hday]; [|lia].
    rewrite <- Hday. div_lia.
Qed.

(** X17, on an example: in a time zone five and a half hours ahead of UTC,
    a call on 15 March 2024 lists a reminder due at local midnight between
    the 15th and the 16th. *)
Lemma getDueToday_window_witness :
  ∃ listed,
    BillReminderService.getDueToday 19800000 (JsDate.utcDate 2024 3 15)
      (billDb [exampleReminder "r1" None (JsDate.utcDate 2024 3 16 - 19800000) None false])
    = (Ok listed,
       billDb [exampleReminder "r1" None (JsDate.utcDate 2024 3 16 - 19800000) None false])
    ∧ exampleReminder "r1" None (JsDate.utcDate 2024 3 16 - 19800000) None false ∈ listed.
Proof.
  destruct (getDueToday_window 19800000 (JsDate.utcDate 2024 3 15)
              (billDb [exampleReminder "r1" None (JsDate.utcDate 2024 3 16 - 19800000)
                         None false])
              (exampleReminder "r1" None (JsDate.utcDate 2024 3 16 - 19800000) None false)
              eq_refl eq_refl)
    as (listed & Hrun & Hlisted).
  exists listed. split; [exact Hrun|].
  apply Hlisted. split; [left|]. split; [reflexivity|]. right. reflexivity.
Defined.

(** *** The days of a month *)

Lemma MakeDay_next_month (y m : Z) :
  0 ≤ m ≤ 11 →
  JsDate.MakeDay y (m + 1) 1
  = JsDate.MakeDay y m 1
    + daysInMonth m (if bool_decide (JsDate.DaysInYear y = 366) then 1 else 0).
Proof.
  intros Hm. unfold JsDate.MakeDay. cbv zeta.
  rewrite (Z.div_small m 12), (Z.mod_small m 12), Z.add_0_r by lia.
  destruct (decide (m = 11)) as [->|Hne].
  - change ((11 + 1) `div` 12) with 1. change ((11 + 1) `mod` 12) with 0.
    rewrite DayFromYear_next.
    unfold daysInMonth, JsDate.monthStart.
    destruct (DaysInYear_cases y); repeat (case_bool_decide; try lia).
  - rewrite (Z.div_small (m + 1) 12), (Z.mod_small (m + 1) 12), Z.add_0_r by lia.
    unfold daysInMonth, JsDate.monthStart.
    repeat (case_bool_decide; try lia).
Qed.

(** The days from the first of a month up to the first of the next are
    the days whose year and month are that month's. *)
Lemma month_window (y m d : Z) :
  0 ≤ m ≤ 11 →
  JsDate.MakeDay y m 1 ≤ d < JsDate.MakeDay y (m + 1) 1
  ↔ JsDate.yearOfDay d = y ∧ JsDate.monthOfDay d = m.
Proof.
  intros Hm. rewrite MakeDay_next_month by done.
  set (leap := if bool_decide (JsDate.DaysInYear y = 366) then 1 else 0).
  split.
  - intros Hd.
    assert (Hcivil : civilOfDay (JsDate.MakeDay y m (1 + (d - JsDate.MakeDay y m 1)))
                     = (y + m `div` 12, m `mod` 12, 1 + (d - JsDate.MakeDay y m 1))).
    { apply civilOfDay_MakeDay.
      rewrite (Z.div_small m 12), (Z.mod_small m 12), Z.add_0_r by lia. fold leap. lia. }
    rewrite MakeDay_date in Hcivil.
    replace (JsDate.MakeDay y m 1 + (d - JsDate.MakeDay y m 1)) with d in Hcivil by lia.
    rewrite civilOfDay_fields, (Z.div_small m 12), (Z.mod_small m 12), Z.add_0_r
      in Hcivil by lia.
    by injection Hcivil as -> -> _.
  - intros [Hy Hmonth].
    pose proof (civilOfDay_valid d) as Hvalid.
    rewrite civilOfDay_fields, Hy, Hmonth in Hvalid. fold leap in Hvalid.
    destruct Hvalid as (_ & Hdate & Hday).
    replace (JsDate.dateOfDay d) with (1 + (JsDate.dateOfDay d - 1)) in Hday by lia.
    rewrite MakeDay_date in Hday. lia.
Qed.

(** X18. [getByMonth] for a month from 1 to 12 of a year other than 0 to
    99 lists exactly the reminders, paid or not, whose due date falls in that
    month of that year in local time. Local time is at a constant offset of
    whole seconds from UTC, and the due date is a whole second, as stored
    dates are. *)
Theorem getByMonth_lists_the_month (tza month year : Z) (db : Db) (r : BillReminder.t) :
  tza `mod` 1000 = 0 →
  BillReminder.dueDate r `mod` 1000 = 0 →
  1 ≤ month ≤ 12 →
  ¬ (0 ≤ year ≤ 99) →
  ∃ listed,
    BillReminderService.getByMonth tza month year db = (Ok listed, db)
    ∧ (r ∈ listed ↔
       r ∈ billReminders db
       ∧ JsDate.getFullYear tza (BillReminder.dueDate r) = year
       ∧ JsDate.getMonth tza (BillReminder.dueDate r) = month - 1).
Proof.
  intros Htza Hdue Hmonth Hyear. eexists. split; [reflexivity|].
  rewrite elem_of_merge_sort, list_elem_of_filter.
  unfold JsDate.getFullYear, JsDate.getMonth, JsDate.YearFromTime, JsDate.MonthFromTime.
  rewrite <- (month_window year (month - 1)) by lia.
  replace (month - 1 + 1) with month by lia.
  unfold JsDate.newDate. rewrite bool_decide_eq_false_2 by exact Hyear.
  replace (JsDate.MakeDay year month 0) with (JsDate.MakeDay year month 1 - 1)
    by (unfold JsDate.MakeDay; lia).
  generalize (JsDate.MakeDay year (month - 1) 1) as first.
  generalize (JsDate.MakeDay year month 1) as next. intros next first.
  unfold BillReminderService.dueFrom, BillReminderService.dueUntil.
  rewrite !mapToDriverValue_le;
    [|exact Hdue
     |unfold JsDate.UTC, JsDate.MakeDate, JsDate.MakeTime, JsDate.msPerDay; div_lia].
  unfold JsDate.UTC, JsDate.MakeDate, JsDate.MakeTime, JsDate.LocalTime, JsDate.Day,
    JsDate.msPerDay.
  split.
  - intros ([Hfrom Hto] & Hin). split; [exact Hin|]. div_lia.
  - intros (Hin & Hfirst & Hnext). split; [|exact Hin]. div_lia.
Qed.

(** X18, on an example: in a time zone five and a half hours ahead of UTC,
    a reminder due at 20:00 UTC on 31 January 2024 is already due in
    February. *)
Lemma getByMonth_lists_the_month_witness :
  ∃ listed,
    BillReminderService.getByMonth 19800000 2 2024
      (billDb [exampleReminder "r1" None (JsDate.utcDate 2024 1 31 + 72000000) None true])
    = (Ok listed,
       billDb [exampleReminder "r1" None (JsDate.utcDate 2024 1 31 + 72000000) None true])
    ∧ exampleReminder "r1" None (JsDate.utcDate 2024 1 31 + 72000000) None true ∈ listed.
Proof.
  destruct (getByMonth_lists_the_month 19800000 2 2024
              (billDb [exampleReminder "r1" None (JsDate.utcDate 2024 1 31 + 72000000)
                         None true])
              (exampleReminder "r1" None (JsDate.utcDate 2024 1 31 + 72000000) None true)
              eq_refl eq_refl)
    as (listed & Hrun & Hlisted); [lia|lia|].
  exists listed. split; [exact Hrun|].
  apply Hlisted. split; [left|]. split; reflexivity.
Defined.

(** X19. [markAsPaid] creates a successor only for a recurring reminder
    whose frequency is monthly or yearly. For any other existing reminder
    (not recurring, or recurring with another frequency, such as weekly, or
    with none) it marks the row paid, records the transaction id (none for an
    empty one), and adds no row; the other rows stay as they are. *)
Theorem markAsPaid_without_successor (tza : Z) (id : string)
    (transactionId : option string) (newId : string) (now : Date) (db : Db)
    (reminder : BillReminder.t) :
  selectById BillReminder.id id (billReminders db) = Some reminder →
  BillReminder.isRecurring reminder = false
  ∨ (BillReminder.frequency reminder ≠ Some "monthly"
     ∧ BillReminder.frequency reminder ≠ Some "yearly") →
  ∃ paid rows,
    BillReminderService.markAsPaid tza id transactionId newId now db
    = (Ok (Some paid), set_billReminders (λ _, rows) db)
    ∧ selectById BillReminder.id id rows = Some paid
    ∧ BillReminder.isPaid paid = true
    ∧ BillReminder.transactionId paid = or_null transactionId
    ∧ BillReminder.dueDate paid = BillReminder.dueDate reminder
    ∧ length rows = length (billReminders db)
    ∧ (∀ other, other ≠ id →
         selectById BillReminder.id other rows
         = selectById BillReminder.id other (billReminders db)).
Proof.
  intros Hrec Hnone.
  set (paid := BillReminderService.patchRow
                 (BillReminderService.paidAndTransaction true (or_null transactionId)) now).
  exists (paid reminder), (updateById BillReminder.id id paid (billReminders db)).
  assert (Hsel : selectById BillReminder.id id
                   (updateById BillReminder.id id paid (billReminders db))
                 = Some (paid reminder))
    by (apply selectById_updateById; [apply billReminder_patchRow_id|exact Hrec]).
  split; [|split; [exact Hsel|]].
  - unfold BillReminderService.markAsPaid.
    erewrite bind_Ok with (a := Some reminder) (db' := db);
      [|unfold BillReminderService.getById, gets; by rewrite Hrec].
    erewrite bind_Ok with (a := Some (paid reminder));
      [|unfold BillReminderService.update; erewrite bind_Ok; [|reflexivity];
        unfold gets; simpl; f_equal; f_equal; exact Hsel].
    destruct (BillReminder.isRecurring reminder
              && truthy_string (BillReminder.frequency reminder)) eqn:Hcond;
      [|reflexivity].
    apply andb_true_iff in Hcond as [Hrecurring _].
    destruct Hnone as [Hnot|[Hm Hy]]; [congruence|].
    erewrite bind_Ok; [reflexivity|].
    erewrite bind_Ok; [reflexivity|].
    by apply createNextRecurring_unrecognized.
  - repeat split.
    + unfold updateById. by rewrite length_fmap.
    + intros other Hother.
      apply selectById_updateById_ne; [apply billReminder_patchRow_id|done].
Qed.

(** X19, on an example: a weekly reminder gets no successor. *)
Lemma markAsPaid_without_successor_witness :
  ∃ paid rows,
    BillReminderService.markAsPaid 0 "r1" (Some "t1") "r2" 5000
      (billDb [BillReminder.mk "r1" "Gym" (Some 30) None None (JsDate.utcDate 2024 3 15)
                 None true (Some "weekly") false None None 0 0])
    = (Ok (Some paid), billDb rows)
    ∧ length rows = 1%nat.
Proof.
  destruct (markAsPaid_without_successor 0 "r1" (Some "t1") "r2" 5000
              (billDb [BillReminder.mk "r1" "Gym" (Some 30) None None
                         (JsDate.utcDate 2024 3 15) None true (Some "weekly") false
                         None None 0 0])
              (BillReminder.mk "r1" "Gym" (Some 30) None None (JsDate.utcDate 2024 3 15)
                 None true (Some "weekly") false None None 0 0) eq_refl)
    as (paid & rows & Hrun & _ & _ & _ & _ & Hlength & _).
  - right. split; discriminate.
  - exists paid, rows. split; [exact Hrun|exact Hlength].
Defined.

(** ** Settings *)

Section SettingsFacts.
Import SettingsService.

Lemma withKey_app (key : string) (tbl more : list Setting.t) :
  withKey key (tbl ++ more)%list = (withKey key tbl ++ withKey key more)%list.
Proof. apply filter_app. Qed.

Lemma withKey_nil_Forall (key : string) (tbl : list Setting.t) :
  withKey key tbl = [] ↔ Forall (λ s, Setting.key s ≠ key) tbl.
Proof.
  unfold withKey. induction tbl as [|s tbl IH]; [by split|].
  rewrite filter_cons, Forall_cons. destruct (decide (Setting.key s = key)) as [Hs|Hs].
  - split; [discriminate|]. by intros [? _].
  - rewrite IH. split; [by split|by intros [_ ?]].
Qed.

Lemma get_absent (key : string) (tbl : list Setting.t) :
  withKey key tbl = [] → get key tbl = (Ok None, tbl).
Proof. intros H. unfold get. by rewrite H. Qed.

Lemma get_head (key : string) (tbl : list Setting.t) (s : Setting.t)
    (rest : list Setting.t) :
  withKey key tbl = s :: rest →
  get key tbl
  = (Ok (if bool_decide (Setting.value s = "") then None else Some (Setting.value s)), tbl).
Proof. intros H. unfold get. by rewrite H. Qed.

(** A value that is read is read from the first row of its key, which
    later rows do not hide. *)
Lemma get_app (key value : string) (tbl more : list Setting.t) :
  get key tbl = (Ok (Some value), tbl) →
  get key (tbl ++ more)%list = (Ok (Some value), (tbl ++ more)%list).
Proof.
  unfold get. rewrite withKey_app. intros H.
  destruct (withKey key tbl) as [|s rest]; [discriminate|]. simpl in *.
  by injection H as ->.
Qed.

Lemma insertRow_fresh (r : Setting.t) (tbl : list Setting.t) :
  Forall (λ s, Setting.id s ≠ Setting.id r) tbl →
  withKey (Setting.key r) tbl = [] →
  insertRow r tbl = (Ok r, (tbl ++ [r])%list).
Proof.
  intros Hid Hkey%withKey_nil_Forall. unfold insertRow.
  rewrite bool_decide_eq_false_2; [reflexivity|].
  rewrite Exists_exists. intros (s & Hin & Hs).
  rewrite Forall_forall in Hid, Hkey. destruct Hs as [Hs|Hs]; naive_solver.
Qed.

Lemma insertRow_taken (r : Setting.t) (tbl : list Setting.t) :
  withKey (Setting.key r) tbl ≠ [] →
  insertRow r tbl = (Throw (ConstraintError "UNIQUE constraint failed"), tbl).
Proof.
  intros Hkey. unfold insertRow. rewrite bool_decide_eq_true_2; [reflexivity|].
  destruct (withKey (Setting.key r) tbl) as [|s rest] eqn:Hs; [done|].
  assert (Hin : s ∈ withKey (Setting.key r) tbl) by (rewrite Hs; left).
  apply list_elem_of_filter in Hin as [Hk Hin].
  apply Exists_exists. exists s. split; [exact Hin|by right].
Qed.

Lemma set_absent (key value id : string) (now : Date) (tbl : list Setting.t) :
  Forall (λ s, Setting.id s ≠ id) tbl →
  withKey key tbl = [] →
  set key value id now tbl
  = (Ok (Some (Setting.mk id key value now)), (tbl ++ [Setting.mk id key value now])%list).
Proof.
  intros Hid Hkey. unfold set.
  unfold mbind, S_bind. rewrite (get_absent _ _ Hkey).
  by rewrite insertRow_fresh.
Qed.

Lemma withKey_updated (key other value : string) (now : Date) (tbl : list Setting.t) :
  withKey other ((λ s, if decide (Setting.key s = key)
                       then Setting.mk (Setting.id s) (Setting.key s) value now
                       else s) <$> tbl)
  = (λ s, if decide (Setting.key s = key)
          then Setting.mk (Setting.id s) (Setting.key s) value now
          else s) <$> withKey other tbl.
Proof.
  unfold withKey. induction tbl as [|s tbl IH]; [reflexivity|].
  rewrite fmap_cons, !filter_cons.
  destruct (decide (Setting.key s = key)) as [Hs|Hs]; simpl;
    destruct (decide (Setting.key s = other)); by rewrite ?fmap_cons, ?IH, ?decide_True,
                                                   ?decide_False by done.
Qed.

End SettingsFacts.

(** X20. [set] followed by [get]: when the key is new (and the id drawn
    is) or holds a non-empty value, setting a non-empty value succeeds, [get]
    then returns that value, the key has one row if it had none and as many
    as before otherwise, and what [get] returns for every other key is as
    before. *)
Theorem set_then_get (key value id : string) (now : Date) (tbl : list Setting.t) :
  value ≠ "" →
  Forall (λ s, Setting.id s ≠ id) tbl →
  Forall (λ s, Setting.key s = key → Setting.value s ≠ "") tbl →
  ∃ row tbl',
    SettingsService.set key value id now tbl = (Ok (Some row), tbl')
    ∧ Setting.key row = key
    ∧ Setting.value row = value
    ∧ SettingsService.get key tbl' = (Ok (Some value), tbl')
    ∧ length (SettingsService.withKey key tbl')
      = Nat.max 1 (length (SettingsService.withKey key tbl))
    ∧ (∀ other, other ≠ key →
         (SettingsService.get other tbl').1 = (SettingsService.get other tbl).1).
Proof.
  intros Hvalue Hid Hfilled.
  destruct (SettingsService.withKey key tbl) as [|s rest] eqn:Hkey.
  - eexists _, _. split; [by apply set_absent|]. split; [reflexivity|].
    split; [reflexivity|].
    assert (Hnew : SettingsService.withKey key (tbl ++ [Setting.mk id key value now])%list
                   = [Setting.mk id key value now]).
    { rewrite withKey_app, Hkey. unfold SettingsService.withKey.
      by rewrite filter_cons, decide_True. }
    split; [|split].
    + rewrite (get_head _ _ _ _ Hnew). simpl. by rewrite bool_decide_eq_false_2.
    + by rewrite Hnew.
    + intros other Hother. unfold SettingsService.get. simpl.
      rewrite withKey_app. unfold SettingsService.withKey at 2.
      rewrite filter_cons, decide_False by (simpl; congruence).
      by rewrite filter_nil, app_nil_r.
  - assert (Hs : Setting.value s ≠ "").
    { assert (Hin : s ∈ SettingsService.withKey key tbl) by (rewrite Hkey; left).
      apply list_elem_of_filter in Hin as [Hk Hin].
      rewrite Forall_forall in Hfilled. by apply Hfilled. }
    assert (Hk : Setting.key s = key).
    { assert (Hin : s ∈ SettingsService.withKey key tbl) by (rewrite Hkey; left).
      by apply list_elem_of_filter in Hin as [Hk Hin]. }
    unfold SettingsService.set, mbind, SettingsService.S_bind.
    rewrite (get_head _ _ _ _ Hkey), bool_decide_eq_false_2 by exact Hs.
    unfold SettingsService.updateValue. cbv zeta.
    rewrite withKey_updated, Hkey, fmap_cons, decide_True by exact Hk. simpl.
    eexists _, _. split; [reflexivity|]. split; [exact Hk|]. split; [reflexivity|].
    split; [|split].
    + unfold SettingsService.get.
      rewrite withKey_updated, Hkey, fmap_cons, decide_True by exact Hk. simpl.
      by rewrite bool_decide_eq_false_2.
    + rewrite withKey_updated, Hkey, length_fmap. simpl. lia.
    + intros other Hother. unfold SettingsService.get. simpl.
      rewrite withKey_updated. f_equal.
      assert (Hsame : ∀ l : list Setting.t, Forall (λ s, Setting.key s = other) l →
                (λ s, if decide (Setting.key s = key)
                      then Setting.mk (Setting.id s) (Setting.key s) value now else s)
                  <$> l = l).
      { intros l Hl. induction Hl as [|x l Hx Hl IH]; [reflexivity|].
        rewrite fmap_cons, IH, decide_False by congruence. reflexivity. }
      rewrite Hsame; [reflexivity|].
      apply Forall_forall. by intros x [? ?]%list_elem_of_filter.
Qed.

Lemma set_then_get_witness :
  ∃ row tbl',
    SettingsService.set "theme" "dark" "s2" 7000 [exampleSetting "s1" "theme" "system"]
    = (Ok (Some row), tbl')
    ∧ SettingsService.get "theme" tbl' = (Ok (Some "dark"), tbl')
    ∧ length tbl' = 1%nat.
Proof.
  destruct (set_then_get "theme" "dark" "s2" 7000 [exampleSetting "s1" "theme" "system"])
    as (row & tbl' & Hrun & _ & _ & Hget & _).
  - discriminate.
  - by repeat constructor.
  - by repeat constructor.
  - exists row, tbl'. split; [exact Hrun|]. split; [exact Hget|].
    vm_compute in Hrun. by injection Hrun as _ <-.
Defined.

(** X21. An empty value locks its key: after [set] of the empty string on
    a new key, [get] returns null for it as if it were unset, and every later
    [set] of that key, whatever the value, is refused by the unique column
    and leaves the table as it is. *)
Theorem set_empty_value_locks_key (key id : string) (now : Date) (tbl : list Setting.t) :
  Forall (λ s, Setting.id s ≠ id) tbl →
  SettingsService.withKey key tbl = [] →
  ∃ row,
    SettingsService.set key "" id now tbl = (Ok (Some row), (tbl ++ [row])%list)
    ∧ SettingsService.get key (tbl ++ [row])%list = (Ok None, (tbl ++ [row])%list)
    ∧ ∀ value' id' now',
        SettingsService.set key value' id' now' (tbl ++ [row])%list
        = (Throw (ConstraintError "UNIQUE constraint failed"), (tbl ++ [row])%list).
Proof.
  intros Hid Hkey. eexists. split; [by apply set_absent|].
  assert (Hnew : SettingsService.withKey key (tbl ++ [Setting.mk id key "" now])%list
                 = [Setting.mk id key "" now]).
  { rewrite withKey_app, Hkey. unfold SettingsService.withKey.
    by rewrite filter_cons, decide_True. }
  assert (Hget : SettingsService.get key (tbl ++ [Setting.mk id key "" now])%list
                 = (Ok None, (tbl ++ [Setting.mk id key "" now])%list))
    by (by rewrite (get_head _ _ _ _ Hnew)).
  split; [exact Hget|].
  intros value' id' now'. unfold SettingsService.set, mbind, SettingsService.S_bind.
  rewrite Hget, insertRow_taken; [reflexivity|].
  simpl. by rewrite Hnew.
Qed.

Lemma set_empty_value_locks_key_witness :
  ∃ row,
    SettingsService.set "theme" "" "s1" 7000 [] = (Ok (Some row), [row])
    ∧ SettingsService.get "theme" [row] = (Ok None, [row])
    ∧ SettingsService.set "theme" "dark" "s2" 8000 [row]
      = (Throw (ConstraintError "UNIQUE constraint failed"), [row]).
Proof.
  destruct (set_empty_value_locks_key "theme" "s1" 7000 []) as (row & Hset & Hget & Hlock).
  - constructor.
  - reflexivity.
  - exists row. split; [exact Hset|]. split; [exact Hget|]. apply Hlock.
Defined.

Section InitializeEach.
Context (uuid : nat → string) (now : nat → Date).
Context (uuid_inj : ∀ n m, uuid n = uuid m → n = m).

Lemma initializeEach_spec (entries : list (string * JsValue)) (n : nat)
    (tbl : list Setting.t) :
  (∀ m, (n ≤ m)%nat → Forall (λ s, Setting.id s ≠ uuid m) tbl) →
  Forall (λ s, Setting.value s ≠ "") tbl →
  Forall (λ entry, SettingsService.stringify entry.2 ≠ "") entries →
  ∃ added,
    SettingsService.initializeEach uuid now entries n tbl = (Ok tt, (tbl ++ added)%list)
    ∧ (∀ key value, (key, value) ∈ entries →
         ∃ stored, SettingsService.get key (tbl ++ added)%list
                   = (Ok (Some stored), (tbl ++ added)%list))
    ∧ Forall (λ s, ∃ value, (Setting.key s, value) ∈ entries
                   ∧ Setting.value s = SettingsService.stringify value
                   ∧ SettingsService.withKey (Setting.key s) tbl = []) added.
Proof.
  revert n tbl. induction entries as [|[key value] entries IH];
    intros n tbl Hfresh Hfilled Hentries.
  - exists []. rewrite app_nil_r. split; [reflexivity|].
    split; [by intros ? ? ?%elem_of_nil|constructor].
  - apply Forall_cons in Hentries as [Hvalue Hentries]. simpl in Hvalue.
    cbn [SettingsService.initializeEach]. unfold mbind at 1, SettingsService.S_bind at 1.
    destruct (SettingsService.withKey key tbl) as [|s rest] eqn:Hkey.
    + rewrite (get_absent _ _ Hkey).
      unfold mbind at 1, SettingsService.S_bind at 1. unfold SettingsService.setTyped.
      rewrite set_absent by (auto using Hkey).
      set (row := Setting.mk (uuid n) key (SettingsService.stringify value) (now n)).
      destruct (IH (S n) (tbl ++ [row])%list) as (added & Hrun & Hcover & Hadded).
      { intros m Hm. apply Forall_app. split; [apply Hfresh; lia|].
        constructor; [|constructor]. simpl. intros Heq%uuid_inj. lia. }
      { apply Forall_app. split; [exact Hfilled|]. by repeat constructor. }
      { exact Hentries. }
      exists (row :: added). rewrite <- app_assoc in Hrun, Hcover. simpl in Hrun, Hcover.
      split; [exact Hrun|]. split.
      * intros k v [Heq|Hin]%elem_of_cons; [|by eapply Hcover].
        injection Heq as -> ->. exists (SettingsService.stringify value).
        change (tbl ++ row :: added)%list with (tbl ++ [row] ++ added)%list.
        rewrite app_assoc. apply get_app.
        assert (Hnew : SettingsService.withKey key (tbl ++ [row])%list = [row]).
        { rewrite withKey_app, Hkey. unfold SettingsService.withKey.
          by rewrite filter_cons, decide_True. }
        rewrite (get_head _ _ _ _ Hnew). simpl. by rewrite bool_decide_eq_false_2.
      * constructor.
        -- exists value. split; [left|]. by split.
        -- eapply Forall_impl; [exact Hadded|].
           intros x (v & Hin & Hv & Hnone). exists v. split; [by right|]. split; [exact Hv|].
           rewrite withKey_app in Hnone. by apply app_eq_nil in Hnone as [? _].
    + assert (Hs : Setting.value s ≠ "").
      { assert (Hin : s ∈ SettingsService.withKey key tbl) by (rewrite Hkey; left).
        apply list_elem_of_filter in Hin as [_ Hin].
        rewrite Forall_forall in Hfilled. by apply Hfilled. }
      rewrite (get_head _ _ _ _ Hkey), bool_decide_eq_false_2 by exact Hs.
      destruct (IH n tbl Hfresh Hfilled Hentries) as (added & Hrun & Hcover & Hadded).
      exists added. split; [exact Hrun|]. split.
      * intros k v [Heq|Hin]%elem_of_cons; [|by eapply Hcover].
        injection Heq as -> ->. exists (Setting.value s). apply get_app.
        by rewrite (get_head _ _ _ _ Hkey), bool_decide_eq_false_2.
      * eapply Forall_impl; [exact Hadded|].
        intros x (v & Hin & Hv). exists v. split; [by right|exact Hv].
Qed.

Lemma initializeEach_nothing_to_do (entries : list (string * JsValue)) (n : nat)
    (tbl : list Setting.t) :
  (∀ key value, (key, value) ∈ entries →
     ∃ stored, SettingsService.get key tbl = (Ok (Some stored), tbl)) →
  SettingsService.initializeEach uuid now entries n tbl = (Ok tt, tbl).
Proof.
  induction entries as [|[key value] entries IH]; intros Hcover; [reflexivity|].
  cbn [SettingsService.initializeEach]. unfold mbind at 1, SettingsService.S_bind at 1.
  destruct (Hcover key value) as [stored ->]; [left|].
  apply IH. intros k v Hin. apply (Hcover k v). by right.
Qed.

End InitializeEach.

Lemma defaults_not_empty :
  Forall (λ entry : string * JsValue, SettingsService.stringify entry.2 ≠ "")
    SettingsService.defaults.
Proof. by repeat constructor. Qed.

(** X22. [initializeDefaults] on a table without empty values, with ids
    that are fresh and distinct, succeeds and only appends rows: one for each
    of the thirteen default keys that had no row, holding the default as
    text; every value that could be read before reads the same afterwards,
    and every default key has a value. *)
Theorem initializeDefaults_fills_the_gaps (uuid : nat → string) (now : nat → Date)
    (tbl : list Setting.t) :
  (∀ n m, uuid n = uuid m → n = m) →
  (∀ n, Forall (λ s, Setting.id s ≠ uuid n) tbl) →
  Forall (λ s, Setting.value s ≠ "") tbl →
  ∃ added,
    SettingsService.initializeDefaults uuid now tbl = (Ok tt, (tbl ++ added)%list)
    ∧ (∀ key value, SettingsService.get key tbl = (Ok (Some value), tbl) →
         SettingsService.get key (tbl ++ added)%list
         = (Ok (Some value), (tbl ++ added)%list))
    ∧ (∀ key value, (key, value) ∈ SettingsService.defaults →
         ∃ stored, SettingsService.get key (tbl ++ added)%list
                   = (Ok (Some stored), (tbl ++ added)%list))
    ∧ Forall (λ s, ∃ value, (Setting.key s, value) ∈ SettingsService.defaults
                   ∧ Setting.value s = SettingsService.stringify value
                   ∧ SettingsService.withKey (Setting.key s) tbl = []) added.
Proof.
  intros Hinj Hfresh Hfilled.
  destruct (initializeEach_spec uuid now Hinj SettingsService.defaults 0 tbl)
    as (added & Hrun & Hcover & Hadded);
    [by intros|exact Hfilled|exact defaults_not_empty|].
  exists added. split; [exact Hrun|]. split; [|by split].
  intros key value Hget. by apply get_app.
Qed.

Lemma exampleUuid_other (n : nat) (id : string) :
  String.get 0 id ≠ String.get 0 "u" → id ≠ exampleUuid n.
Proof. intros Hid ->. by rewrite exampleUuid_head in Hid. Qed.

(** X22, on an example: with the theme chosen already, twelve rows are
    added and the theme stays. *)
Lemma initializeDefaults_fills_the_gaps_witness :
  ∃ added,
    SettingsService.initializeDefaults exampleUuid (λ _, 9000)
      [exampleSetting "s1" "theme" "dark"]
    = (Ok tt, ([exampleSetting "s1" "theme" "dark"] ++ added)%list)
    ∧ length added = 12%nat
    ∧ SettingsService.get "theme" ([exampleSetting "s1" "theme" "dark"] ++ added)%list
      = (Ok (Some "dark"), ([exampleSetting "s1" "theme" "dark"] ++ added)%list).
Proof.
  destruct (initializeDefaults_fills_the_gaps exampleUuid (λ _, 9000)
              [exampleSetting "s1" "theme" "dark"])
    as (added & Hrun & Hkeep & _).
  - exact exampleUuid_inj.
  - intros n. constructor; [|constructor]. by apply exampleUuid_other.
  - by repeat constructor.
  - exists added. split; [exact Hrun|]. split; [|by apply Hkeep].
    vm_compute in Hrun. by injection Hrun as <-.
Defined.

(** X23. [initializeDefaults] is idempotent: under the same conditions a
    second run, with whatever ids, changes nothing. *)
Theorem initializeDefaults_twice (uuid uuid' : nat → string) (now now' : nat → Date)
    (tbl : list Setting.t) :
  (∀ n m, uuid n = uuid m → n = m) →
  (∀ n, Forall (λ s, Setting.id s ≠ uuid n) tbl) →
  Forall (λ s, Setting.value s ≠ "") tbl →
  (SettingsService.initializeDefaults uuid now ;;
   SettingsService.initializeDefaults uuid' now') tbl
  = SettingsService.initializeDefaults uuid now tbl.
Proof.
  intros Hinj Hfresh Hfilled.
  destruct (initializeEach_spec uuid now Hinj SettingsService.defaults 0 tbl)
    as (added & Hrun & Hcover & _);
    [by intros|exact Hfilled|exact defaults_not_empty|].
  unfold mbind, SettingsService.S_bind.
  unfold SettingsService.initializeDefaults at 1 3. rewrite Hrun.
  by apply initializeEach_nothing_to_do.
Qed.

Lemma initializeDefaults_twice_witness :
  (SettingsService.initializeDefaults exampleUuid (λ _, 9000) ;;
   SettingsService.initializeDefaults exampleUuid (λ _, 9500)) []
  = SettingsService.initializeDefaults exampleUuid (λ _, 9000) [].
Proof.
  apply (initializeDefaults_twice exampleUuid exampleUuid (λ _, 9000) (λ _, 9500) []).
  - exact exampleUuid_inj.
  - intros n. constructor.
  - constructor.
Defined.

Lemma initializeEach_locked (uuid : nat → string) (now : nat → Date)
    (entries : list (string * JsValue)) (key : string) (value : JsValue)
    (s : Setting.t) :
  (key, value) ∈ entries →
  Setting.value s = "" →
  ∀ (n : nat) (tbl : list Setting.t) (rest : list Setting.t),
    SettingsService.withKey key tbl = s :: rest →
    ∃ tbl', SettingsService.initializeEach uuid now entries n tbl
            = (Throw (ConstraintError "UNIQUE constraint failed"), tbl').
Proof.
  intros Hin Hempty. induction entries as [|[k v] entries IH];
    [by apply elem_of_nil in Hin|].
  intros n tbl rest Hkey. cbn [SettingsService.initializeEach].
  unfold mbind at 1, SettingsService.S_bind at 1.
  destruct (decide (k = key)) as [->|Hk].
  - rewrite (get_head _ _ _ _ Hkey), bool_decide_eq_true_2 by exact Hempty.
    unfold mbind at 1, SettingsService.S_bind at 1.
    unfold SettingsService.setTyped, SettingsService.set.
    unfold mbind at 1, SettingsService.S_bind at 1.
    rewrite (get_head _ _ _ _ Hkey), bool_decide_eq_true_2 by exact Hempty.
    unfold mbind at 1, SettingsService.S_bind at 1.
    rewrite insertRow_taken by (simpl; by rewrite Hkey). by eexists.
  - apply elem_of_cons in Hin as [Heq|Hin]; [congruence|].
    destruct (SettingsService.get k tbl) as [[[stored|]|e] tbl0] eqn:Hget;
      unfold SettingsService.get in Hget; injection Hget as Hget <-.
    + by eapply IH.
    + unfold mbind at 1, SettingsService.S_bind at 1.
      unfold SettingsService.setTyped, SettingsService.set.
      unfold mbind at 1, SettingsService.S_bind at 1.
      unfold SettingsService.get at 1. rewrite Hget.
      unfold mbind at 1, SettingsService.S_bind at 1.
      unfold SettingsService.insertRow. case_bool_decide; [by eexists|].
      unfold mret, SettingsService.S_ret.
      eapply (IH Hin). rewrite withKey_app, Hkey. reflexivity.
    + discriminate.
Qed.

(** X24. One empty value among the default keys makes [initializeDefaults]
    fail: if the first row of a default key holds the empty string, the call
    throws the constraint error of the unique column, on every run. *)
Theorem initializeDefaults_fails_on_empty_default (uuid : nat → string)
    (now : nat → Date) (tbl : list Setting.t) (key : string) (value : JsValue)
    (s : Setting.t) (rest : list Setting.t) :
  (key, value) ∈ SettingsService.defaults →
  SettingsService.withKey key tbl = s :: rest →
  Setting.value s = "" →
  ∃ tbl', SettingsService.initializeDefaults uuid now tbl
          = (Throw (ConstraintError "UNIQUE constraint failed"), tbl').
Proof.
  intros Hin Hkey Hempty. by eapply initializeEach_locked.
Qed.

Lemma initializeDefaults_fails_on_empty_default_witness :
  ∃ tbl', SettingsService.initializeDefaults exampleUuid (λ _, 9000)
            [exampleSetting "s1" "language" ""]
          = (Throw (ConstraintError "UNIQUE constraint failed"), tbl').
Proof.
  apply (initializeDefaults_fails_on_empty_default exampleUuid (λ _, 9000)
           [exampleSetting "s1" "language" ""] "language" (JsString "en")
           (exampleSetting "s1" "language" "") []).
  - unfold SettingsService.defaults. do 12 right. left.
  - reflexivity.
  - reflexivity.
Defined.

(** ** Categories *)

Lemma filter_filter_comm {A : Type} (P Q : A → Prop) `{!∀ x, Decision (P x)}
    `{!∀ x, Decision (Q x)} (l : list A) :
  filter P (filter Q l) = filter Q (filter P l).
Proof.
  induction l as [|x l IH]; [reflexivity|].
  rewrite !filter_cons.
  destruct (decide (Q x)), (decide (P x));
    rewrite ?filter_cons, ?decide_True, ?decide_False by done; by rewrite ?IH.
Qed.

Lemma filter_implied {A : Type} (P Q : A → Prop) `{!∀ x, Decision (P x)}
    `{!∀ x, Decision (Q x)} (l : list A) :
  (∀ x, P x → Q x) → filter P (filter Q l) = filter P l.
Proof.
  intros HPQ. induction l as [|x l IH]; [reflexivity|].
  rewrite !filter_cons.
  destruct (decide (Q x)) as [HQ|HQ], (decide (P x)) as [HP|HP];
    rewrite ?filter_cons, ?decide_True, ?decide_False by done; rewrite ?IH; try done.
  by specialize (HPQ x HP).
Qed.

(** X25. [delete] takes a category (with an id that is not empty) out of
    the tree view wherever it stood, and nothing else: the view of
    [getCategoriesWithSubs] afterwards is the view before without the entry
    of that category and without it among the subcategories of the other
    entries. It does not cascade: a row that is neither the category nor one
    of its direct subcategories stays in the table, also when its parent was
    deleted. *)
Theorem delete_removes_from_tree_view (id : string) (tbl : list Category.t) :
  id ≠ "" →
  CategoryService.getCategoriesWithSubs (CategoryService.delete id tbl)
  = withoutSub id
    <$> filter (λ entry, Category.id (CategoryService.parent entry) ≠ id)
          (CategoryService.getCategoriesWithSubs tbl)
  ∧ ∀ c, c ∈ tbl → Category.id c ≠ id → Category.parentId c ≠ Some id →
         c ∈ CategoryService.delete id tbl.
Proof.
  intros Hid. split.
  - unfold CategoryService.getCategoriesWithSubs, CategoryService.delete,
      CategoryService.getAll. cbv zeta.
    rewrite (filter_filter_comm _ (λ c, Category.id c ≠ id)).
    rewrite (filter_implied (λ c, truthy_string (Category.parentId c) = false)).
    2:{ intros c Hc Heq. rewrite Heq in Hc. simpl in Hc.
        by apply bool_decide_eq_false in Hc. }
    induction (filter (λ c, truthy_string (Category.parentId c) = false) tbl)
      as [|p parents IH]; [reflexivity|].
    rewrite fmap_cons, !filter_cons. simpl.
    destruct (decide (Category.id p ≠ id)) as [Hp|Hp]; [|exact IH].
    rewrite !fmap_cons, IH. f_equal. unfold withoutSub. simpl. f_equal.
    rewrite (filter_filter_comm _ (λ c, Category.id c ≠ id)). f_equal.
    apply filter_implied. intros c Hc. congruence.
  - intros c Hin Hc Hparent. unfold CategoryService.delete.
    apply list_elem_of_filter. split; [exact Hc|].
    apply list_elem_of_filter. by split.
Qed.

(** X25, on an example: deleting [food] removes it and [dining] below it;
    [lunch], below [dining], stays in the table and is in no entry of the
    view. *)
Lemma delete_removes_from_tree_view_witness :
  CategoryService.delete "food"
    [exampleCategory "food" None; exampleCategory "dining" (Some "food");
     exampleCategory "lunch" (Some "dining"); exampleCategory "rent" None]
  = [exampleCategory "lunch" (Some "dining"); exampleCategory "rent" None]
  ∧ CategoryService.getCategoriesWithSubs
      (CategoryService.delete "food"
         [exampleCategory "food" None; exampleCategory "dining" (Some "food");
          exampleCategory "lunch" (Some "dining"); exampleCategory "rent" None])
    = withoutSub "food"
      <$> filter (λ entry, Category.id (CategoryService.parent entry) ≠ "food")
            (CategoryService.getCategoriesWithSubs
               [exampleCategory "food" None; exampleCategory "dining" (Some "food");
                exampleCategory "lunch" (Some "dining"); exampleCategory "rent" None]).
Proof.
  split; [reflexivity|].
  apply (delete_removes_from_tree_view "food"
           [exampleCategory "food" None; exampleCategory "dining" (Some "food");
            exampleCategory "lunch" (Some "dining"); exampleCategory "rent" None]).
  discriminate.
Defined.
